(** * The Google Smart Home fulfillment bridge, embedded in Rocq

    A shallow embedding of [routes/smarthome.routes.js] (the intent
    dispatcher and its two translators), of the registry queries of
    [database/models.js] it calls, and of the gateway calls of
    [services/thingsboard.service.js] it makes.

    JavaScript values are modelled by the shape the code reads from them:
    a property that may be missing is an [option] ([None] is [undefined]),
    SQLite INTEGER columns are [Z], TEXT columns are [string].  The
    registry (SQLite), the clock, the HTTP client and the JWT library are
    outside the repository; they answer through an oracle [Env] that is
    indexed by the number of collaborator calls made so far, so that every
    behaviour of theirs (including driver errors and network failures) is
    covered.  Logging has no effect on any response and is left out. *)

From stdpp Require Import gmap strings list fin_maps pretty.
From Stdlib Require Import ZArith Ascii Sorting.Sorted Permutation.

Open Scope string_scope.
Open Scope Z_scope.

(** ** JavaScript scalars and truthiness *)

(** A JSON scalar.  [SNum z] is the Number an integer literal [z]
    denotes, the nearest double; [SFrac shown] is a Number that is not an
    integer, given by the text [String()] shows for it ('2.5', '1e-7'). *)
Inductive Scalar : Type :=
| SNull
| SBool (b : bool)
| SNum (z : Z)
| SFrac (shown : string)
| SStr (s : string).

(** *** [Number.prototype.toString] on integers

    Up to 2^53 every integer is a double and is shown with all its
    digits.  Above, the literal is rounded to the nearest double (ties to
    even, Infinity from 2^1024 - 2^970), and the text has the fewest
    significant digits that still denote that double, followed by zeros
    up to 21 digits and in exponent form beyond. *)

(** The double nearest to a positive integer, as an integer. *)
Definition nearest_double (z : Z) : Z :=
  let q := Z.log2 z - 52 in
  if q <=? 0 then z
  else
    let m := Z.shiftr z q in
    let rest := Z.land z (Z.ones q) in
    let half := Z.shiftl 1 (q - 1) in
    let m' := if (half <? rest) || ((rest =? half) && Z.odd m)
              then m + 1 else m in
    Z.shiftl m' q.

(** Does the decimal [c] denote the double [x]?  [x] is above 2^53; twice
    the distance is compared with the gap to the neighbouring doubles, and
    a boundary counts when the mantissa of [x] is even. *)
Definition denotes (x c : Z) : bool :=
  let q := Z.log2 x - 52 in
  let up := Z.shiftl 1 q in
  let down := if x =? Z.shiftl 1 (Z.log2 x) then Z.shiftl 1 (q - 1) else up in
  if Z.even (Z.shiftr x q)
  then (2 * x - down <=? 2 * c) && (2 * c <=? 2 * x + up)
  else (2 * x - down <? 2 * c) && (2 * c <? 2 * x + up).

Definition digits (z : Z) : Z := Z.of_nat (String.length (pretty z)).

(** The decimal with the fewest significant digits that denotes [x], a
    number of [n] digits: the nearest one when there are two, the even
    one at a tie.  Seventeen digits always suffice. *)
Fixpoint shortest_decimal (fuel : nat) (k n x : Z) : Z :=
  match fuel with
  | O => x
  | S fuel =>
      if n <=? k then x
      else
        let p := 10 ^ (n - k) in
        let s := x / p in
        let below := s * p in
        let above := (s + 1) * p in
        match denotes x below, denotes x above with
        | true, true =>
            if x - below <? above - x then below
            else if above - x <? x - below then above
            else if Z.even s then below else above
        | true, false => below
        | false, true => above
        | false, false => shortest_decimal fuel (k + 1) n x
        end
  end.

Fixpoint strip_zeros (rev_digits : string) : string :=
  match rev_digits with
  | String "0"%char r => strip_zeros r
  | _ => rev_digits
  end.

(** [d.ddde+n] for the decimal text of an integer of more than 21
    digits. *)
Definition exponent_form (text : string) : string :=
  let e := "e+" ++ pretty (Z.of_nat (String.length text) - 1) in
  match String.rev (strip_zeros (String.rev text)) with
  | String d EmptyString => String d e
  | String d r => String d ("." ++ r ++ e)
  | EmptyString => EmptyString
  end.

Definition Number_toString_pos (z : Z) : string :=
  if z <=? 9007199254740992 then pretty z
  else
    let x := nearest_double z in
    if Z.shiftl 1 1024 <=? x then "Infinity"
    else
      let text := pretty (shortest_decimal 17 1 (digits x) x) in
      if (String.length text <=? 21)%nat then text else exponent_form text.

Definition Number_toString (z : Z) : string :=
  if z <? 0 then "-" ++ Number_toString_pos (- z) else Number_toString_pos z.

(** [String(v)], as used for property keys and template literals;
    [None] is [undefined]. *)
Definition to_string (v : option Scalar) : string :=
  match v with
  | None => "undefined"
  | Some SNull => "null"
  | Some (SBool true) => "true"
  | Some (SBool false) => "false"
  | Some (SNum z) => Number_toString z
  | Some (SFrac shown) => shown
  | Some (SStr s) => s
  end.

(** A string is truthy unless it is empty. *)
Definition truthy_string (s : string) : bool :=
  match s with EmptyString => false | String _ _ => true end.

(** [o || null] for an optional string. *)
Definition truthy_opt (o : option string) : option string :=
  match o with
  | Some s => if truthy_string s then Some s else None
  | None => None
  end.

(** [Array.prototype.includes] on an array of strings. *)
Definition includes (x : string) (l : list string) : bool :=
  existsb (String.eqb x) l.

(** [String.prototype.includes]. *)
Definition str_includes (sub s : string) : bool :=
  match String.index 0 sub s with Some _ => true | None => false end.

(** [s.substring(n)]. *)
Fixpoint substring_from (n : nat) (s : string) : string :=
  match n, s with
  | O, _ => s
  | S n', String _ r => substring_from n' r
  | S _, EmptyString => EmptyString
  end.

(** ** Thrown values and results *)

(** An [Error]; [response_message] is [error.response?.data?.message],
    present only on errors raised by the HTTP client. *)
Record Error : Type := mkError {
  message : string;
  response_message : option string
}.

Definition TypeError (msg : string) : Error := mkError msg None.

Inductive Outcome (A : Type) : Type :=
| Ok (a : A)
| Throw (e : Error).
Arguments Ok {A} a.
Arguments Throw {A} e.

(** ** The device as the translators see it *)

(** The object handed to the translators: a row of [devices] after
    [JSON.parse] of its capability text.  [capabilities = None] is a
    falsy value (the code then uses [[]]). *)
Record Device : Type := mkDevice {
  device_uuid : string;
  thingsboard_device_id : option string;
  device_name : string;
  device_type : string;
  owner_user_id : option Z;
  device_label : option string;
  capabilities : option (list string);
  is_online : Z
}.

(** [device.device_id]: the [devices] table has no such column, so the
    property is [undefined] on every row the registry returns. *)
Definition device_id (d : Device) : option string := None.

Definition caps_of (d : Device) : list string :=
  match capabilities d with Some l => l | None => [] end.

(** ** SYNC translation *)

Record DeviceName : Type := mkDeviceName {
  defaultNames : list string;
  name : string;
  nicknames : list string
}.

Record DeviceInfo : Type := mkDeviceInfo {
  manufacturer : string;
  model : string;
  hwVersion : string;
  swVersion : string
}.

Record GoogleDevice : Type := mkGoogleDevice {
  gd_id : string;
  gd_type : string;
  gd_traits : list string;
  gd_name : DeviceName;
  willReportState : bool;
  deviceInfo : DeviceInfo
}.

Definition TYPE_OUTLET := "action.devices.types.OUTLET".
Definition TYPE_LIGHT := "action.devices.types.LIGHT".
Definition TYPE_FAN := "action.devices.types.FAN".
Definition TRAIT_OnOff := "action.devices.traits.OnOff".
Definition TRAIT_Brightness := "action.devices.traits.Brightness".
Definition TRAIT_FanSpeed := "action.devices.traits.FanSpeed".

(** The [if / else if] chain that picks [deviceType] and [traits]. *)
Definition type_and_traits (caps : list string) : string * list string :=
  if includes "light" caps || includes "dimmer" caps then
    (TYPE_LIGHT,
     ([TRAIT_OnOff] ++
      (if includes "dimmer" caps then [TRAIT_Brightness] else []))%list)
  else if includes "fan" caps || includes "speed" caps then
    (TYPE_FAN, [TRAIT_OnOff; TRAIT_FanSpeed])
  else if includes "outlet" caps then
    (TYPE_OUTLET, [TRAIT_OnOff])
  else
    (TYPE_OUTLET, [TRAIT_OnOff]).

(** [device.device_label || device.device_name]. *)
Definition label_or_name (d : Device) : string :=
  match truthy_opt (device_label d) with
  | Some l => l
  | None => device_name d
  end.

Definition convertToGoogleDevice (d : Device) : GoogleDevice :=
  let capabilities := caps_of d in
  let '(deviceType, traits) := type_and_traits capabilities in
  {| gd_id := device_uuid d;
     gd_type := deviceType;
     gd_traits := traits;
     gd_name := {| defaultNames := [device_name d];
                   name := label_or_name d;
                   nicknames := [label_or_name d] |};
     willReportState := true;
     deviceInfo := {| manufacturer := "Smart Home Panel";
                      model := device_type d;
                      hwVersion := "1.0";
                      swVersion := "1.0" |} |}.

(** ** EXECUTE translation *)

(** [execution.params]; each property may be missing. *)
Record Params : Type := mkParams {
  p_on : option Scalar;
  p_fanSpeed : option Scalar;
  p_brightness : option Scalar
}.

(** What [speedMap[key] || 0] evaluates to.  [speedMap] is an object
    literal, so besides its six own properties a bracket lookup also finds
    the members it inherits from [Object.prototype]; those are functions
    (or, for [__proto__], the prototype object), all truthy. *)
Inductive SpeedValue : Type :=
| SpeedNum (z : Z)
| SpeedInherited (key : string).

Definition speedMap_own : list (string * Z) :=
  [("speed_0", 0); ("speed_1", 1); ("speed_2", 2);
   ("speed_3", 3); ("speed_4", 4); ("speed_5", 5)].

Definition Object_prototype_keys : list string :=
  ["constructor"; "__defineGetter__"; "__defineSetter__"; "hasOwnProperty";
   "__lookupGetter__"; "__lookupSetter__"; "isPrototypeOf";
   "propertyIsEnumerable"; "toString"; "valueOf"; "__proto__";
   "toLocaleString"].

Fixpoint assoc (k : string) (l : list (string * Z)) : option Z :=
  match l with
  | [] => None
  | (k', v) :: r => if String.eqb k k' then Some v else assoc k r
  end.

(** [speedMap[params.fanSpeed] || 0]. *)
Definition speed_lookup (fanSpeed : option Scalar) : SpeedValue :=
  let key := to_string fanSpeed in
  match assoc key speedMap_own with
  | Some z => if Z.eqb z 0 then SpeedNum 0 else SpeedNum z
  | None =>
      if includes key Object_prototype_keys then SpeedInherited key
      else SpeedNum 0
  end.

Inductive RpcParams : Type :=
| ParamsDeviceState (device_id : string) (state : option Scalar)
| ParamsSpeed (speed : SpeedValue)
| ParamsBrightness (brightness : option Scalar).

Inductive ResultState : Type :=
| StateOn (on : option Scalar)
| StateFanSpeed (currentFanSpeedSetting : option Scalar)
| StateBrightness (brightness : option Scalar).

Record RpcCommand : Type := mkRpcCommand {
  method : string;
  params : RpcParams;
  resultState : ResultState
}.

Definition CMD_OnOff := "action.devices.commands.OnOff".
Definition CMD_SetFanSpeed := "action.devices.commands.SetFanSpeed".
Definition CMD_BrightnessAbsolute := "action.devices.commands.BrightnessAbsolute".

(** Reading a property of [params] throws when [params] is [undefined]. *)
Definition prop {A} (params : option Params) (field : string)
    (get : Params -> A) : Outcome A :=
  match params with
  | Some p => Ok (get p)
  | None =>
      Throw (TypeError
        ("Cannot read properties of undefined (reading '" ++ field ++ "')"))
  end.

(** [None] is the [null] the code returns for an unsupported command. *)
Definition convertGoogleCommandToRpc (googleCommand : string)
    (params : option Params) (device : Device) : Outcome (option RpcCommand) :=
  let capabilities := caps_of device in
  if String.eqb googleCommand CMD_OnOff then
    match prop params "on" p_on with
    | Throw e => Throw e
    | Ok on =>
        Ok (Some {| method := "setDeviceState";
                    params := ParamsDeviceState
                                (match truthy_opt (device_id device) with
                                 | Some i => i
                                 | None => "device1"
                                 end) on;
                    resultState := StateOn on |})
    end
  else if String.eqb googleCommand CMD_SetFanSpeed then
    if includes "fan" capabilities || includes "speed" capabilities then
      match prop params "fanSpeed" p_fanSpeed with
      | Throw e => Throw e
      | Ok fanSpeed =>
          Ok (Some {| method := "setFanSpeed";
                      params := ParamsSpeed (speed_lookup fanSpeed);
                      resultState := StateFanSpeed fanSpeed |})
      end
    else Ok None
  else if String.eqb googleCommand CMD_BrightnessAbsolute then
    if includes "dimmer" capabilities then
      match prop params "brightness" p_brightness with
      | Throw e => Throw e
      | Ok brightness =>
          Ok (Some {| method := "setBrightness";
                      params := ParamsBrightness brightness;
                      resultState := StateBrightness brightness |})
      end
    else Ok None
  else Ok None.

(** ** QUERY translation *)

(** One telemetry sample [{ts, value}]. *)
Record TsPoint : Type := mkTsPoint {
  ts : Z;
  value : option Scalar
}.

(** [{on, currentFanSpeedSetting?}]. *)
Record GoogleState : Type := mkGoogleState {
  on : bool;
  currentFanSpeedSetting : option string
}.

(** [s === 1 || s === true]. *)
Definition is_on (s : option Scalar) : bool :=
  match s with
  | Some (SNum 1) => true
  | Some (SBool true) => true
  | _ => false
  end.

(** [telemetry[key]?.[0]?.value]. *)
Definition first_value (pts : list TsPoint) : option Scalar :=
  match pts with
  | p :: _ => value p
  | [] => None
  end.

Definition convertToGoogleState (device : Device)
    (telemetry : option (gmap string (list TsPoint)))
    (attributes : option (list (string * Scalar))) : GoogleState :=
  match telemetry with
  | None => {| on := false; currentFanSpeedSetting := None |}
  | Some telemetry =>
      let deviceStates :=
        map (fun kv : string * list TsPoint => first_value (snd kv))
          (List.filter (fun kv : string * list TsPoint =>
                          str_includes "device" (fst kv)
                          && str_includes "state" (fst kv))
                       (map_to_list telemetry)) in
      {| on := existsb is_on deviceStates;
         currentFanSpeedSetting :=
           match telemetry !! "fan_speed" with
           | Some (p :: _) => Some ("speed_" ++ to_string (value p))
           | _ => None
           end |}
  end.

(** ** The registry tables ([database/db.js]) *)

Record DeviceRow : Type := mkDeviceRow {
  r_id : Z;
  r_device_uuid : string;
  r_thingsboard_device_id : string;
  r_device_name : string;
  r_device_type : string;
  r_owner_user_id : Z;
  r_access_token : string;
  r_device_label : option string;
  (** The capability text.  [DeviceModel.create] writes
      [JSON.stringify] of the capability array, so the text is modelled by
      the array it encodes; [None] is the empty text, the one falsy TEXT
      value, which the model methods leave unparsed. *)
  r_capabilities : option (list string);
  r_device_config : option string;
  r_provisioned_at : Z;
  r_last_seen_at : option Z;
  r_is_online : Z;
  r_is_active : Z
}.

Record LinkRow : Type := mkLinkRow {
  l_id : Z;
  l_user_id : Z;
  l_google_agent_user_id : string;
  l_google_account_id : option string;
  l_access_token : option string;
  l_refresh_token : option string;
  l_token_expires_at : option Z;
  l_linked_at : Z;
  l_last_sync_at : option Z;
  l_is_active : Z
}.

(** ** The outside world *)

Record JwtPayload : Type := mkJwtPayload {
  agentUserId : option string;
  userId : option Z;
  iat : option Z;
  exp : option Z
}.

Record LoginData : Type := mkLoginData {
  ld_token : option string;
  ld_refreshToken : option string
}.

Record RpcBody : Type := mkRpcBody {
  rb_method : string;
  rb_params : RpcParams;
  rb_persistent : bool;
  rb_timeout : Z
}.

(** The collaborators.  The [nat] argument is the number of collaborator
    calls made before this one. *)
Record Env : Type := mkEnv {
  (** [Some e]: the SQLite statement run at that point raises [e]. *)
  sqlite_error : nat -> option Error;
  Date_now : nat -> Z;
  (** [jwt.decode(token)]: no key, no clock. *)
  jwt_decode : string -> Outcome (option JwtPayload);
  (** [jwt.verify(token, secret)] at a given time; used by the other
      routes' [authenticate], never by the fulfillment route. *)
  jwt_verify : string -> string -> Z -> Outcome JwtPayload;
  (** [axios.post(baseURL/api/auth/login, {username, password})]. *)
  axios_post_login :
    nat -> option string -> option string -> Outcome (option LoginData);
  (** [axios.get(.../DEVICE/<id>/values/timeseries?keys=<keys>)] with the
      bearer token. *)
  axios_get_timeseries :
    nat -> string -> string -> string ->
    Outcome (option (gmap string (list TsPoint)));
  (** [axios.get(.../DEVICE/<id>/values/attributes/<scope>)]. *)
  axios_get_attributes :
    nat -> string -> string -> string ->
    Outcome (option (list (string * Scalar)));
  (** [axios.post(baseURL/api/rpc/oneway/<id>, body)]. *)
  axios_post_rpc : nat -> string -> RpcBody -> string -> Outcome unit;
  THINGSBOARD_ADMIN_USERNAME : option string;
  THINGSBOARD_ADMIN_PASSWORD : option string
}.

(** The mutable state: the two tables the fulfillment route touches, the
    cached admin session of [ThingsBoardService], and the call counter. *)
Record World : Type := mkWorld {
  tbl_devices : list DeviceRow;
  tbl_google_account_links : list LinkRow;
  adminToken : option string;
  adminTokenExpiry : option Z;
  calls : nat
}.

(** ** A state and exception monad

    State survives a [Throw]: what a [try] block has already written is
    still there when its [catch] runs. *)

Definition M (S A : Type) : Type := S -> Outcome A * S.

Definition ret {S A} (a : A) : M S A := fun s => (Ok a, s).

Definition throw {S A} (e : Error) : M S A := fun s => (Throw e, s).

Definition bind {S A B} (m : M S A) (k : A -> M S B) : M S B :=
  fun s =>
    match m s with
    | (Ok a, s') => k a s'
    | (Throw e, s') => (Throw e, s')
    end.

Definition try_catch {S A} (m : M S A) (handler : Error -> M S A) : M S A :=
  fun s =>
    match m s with
    | (Ok a, s') => (Ok a, s')
    | (Throw e, s') => handler e s'
    end.

Definition get {S} : M S S := fun s => (Ok s, s).

Definition modify {S} (f : S -> S) : M S unit := fun s => (Ok tt, f s).

Definition of_outcome {S A} (o : Outcome A) : M S A :=
  match o with
  | Ok a => ret a
  | Throw e => throw e
  end.

Notation "'let*' x ':=' m 'in' k" := (bind m (fun x => k))
  (at level 10, x name, m at level 100, k at level 200,
   format "'[v' 'let*'  x  ':='  m  'in' '/' k ']'").

(** A computation on the world, run inside a handler that also has a
    local variable of type [L]. *)
Definition liftW {L A} (m : M World A) : M (World * L) A :=
  fun s =>
    match m (fst s) with
    | (r, w') => (r, (w', snd s))
    end.

Definition modify_local {L} (f : L -> L) : M (World * L) unit :=
  modify (fun s => (fst s, f (snd s))).

(** [for (const x of l) body]. *)
Fixpoint for_of {S A} (l : list A) (body : A -> M S unit) : M S unit :=
  match l with
  | [] => ret tt
  | x :: r => let* _ := body x in for_of r body
  end.

(** Iterating [undefined] throws. *)
Definition iterable {S A} (what : string) (o : option (list A)) : M S (list A) :=
  match o with
  | Some l => ret l
  | None => throw (TypeError (what ++ " is not iterable"))
  end.

(** The next collaborator call: returns its index. *)
Definition tick : M World nat :=
  fun w =>
    (Ok (calls w),
     mkWorld (tbl_devices w) (tbl_google_account_links w)
             (adminToken w) (adminTokenExpiry w) (S (calls w))).

Definition set_links (ls : list LinkRow) : M World unit :=
  modify (fun w =>
    mkWorld (tbl_devices w) ls (adminToken w) (adminTokenExpiry w) (calls w)).

Definition set_admin (tok : option string) (expiry : option Z) : M World unit :=
  modify (fun w =>
    mkWorld (tbl_devices w) (tbl_google_account_links w) tok expiry (calls w)).

(** ** Requests and responses *)

Record ReqDevice : Type := mkReqDevice { rd_id : string }.

Record Execution : Type := mkExecution {
  ex_command : string;
  ex_params : option Params
}.

Record Command : Type := mkCommand {
  c_devices : option (list ReqDevice);
  c_execution : option (list Execution)
}.

(** An element of [payload.devices] is an object with its [id], a
    string, or [null] ([None]). *)
Record InputPayload : Type := mkInputPayload {
  pl_devices : option (list (option ReqDevice));
  pl_commands : option (list Command)
}.

Record Input : Type := mkInput {
  intent : option string;
  payload : option InputPayload
}.

(** [req.body] after [express.json()]; [inputs = None] stands for a
    missing value or one that is not an array. *)
Record Body : Type := mkBody {
  requestId : option string;
  inputs : option (list Input)
}.

Record Request : Type := mkRequest {
  authorization : option string;
  body : Body
}.

Inductive QueryEntry : Type :=
| QuerySuccess (online : bool) (state : GoogleState)
| QueryError (errorCode : string).

Inductive CommandResult : Type :=
| CommandSuccess (ids : list string) (online : bool) (states : ResultState)
| CommandError (ids : list string) (errorCode : string).

Inductive Payload : Type :=
| ErrorPayload (errorCode : string) (debugString : option string)
| SyncPayload (agentUserId : string) (devices : list GoogleDevice)
| QueryPayload (devices : gmap string QueryEntry)
| ExecutePayload (commands : list CommandResult)
| EmptyPayload.

Inductive ResponseBody : Type :=
| InvalidRequest (error : string)
| Fulfillment (requestId : option string) (payload : Payload).

Record Response : Type := mkResponse {
  status : Z;
  json : ResponseBody
}.

(** ** ORDER BY provisioned_at ASC

    A stable insertion sort over the rows in table order. *)

Fixpoint insert_row (r : DeviceRow) (l : list DeviceRow) : list DeviceRow :=
  match l with
  | [] => [r]
  | x :: t =>
      if r_provisioned_at r <=? r_provisioned_at x then r :: l
      else x :: insert_row r t
  end.

Definition order_by_provisioned_at (l : list DeviceRow) : list DeviceRow :=
  foldr insert_row [] l.

Section Bridge.

Variable E : Env.

(** ** The registry ([database/models.js]) *)

(** Running a prepared statement: the driver may raise. *)
Definition sqlite_run : M World unit :=
  let* n := tick in
  match sqlite_error E n with
  | Some e => throw e
  | None => ret tt
  end.

Definition now : M World Z :=
  let* n := tick in ret (Date_now E n).

(** [SELECT *] row with its capability text parsed. *)
Definition parse_row (r : DeviceRow) : Device :=
  {| device_uuid := r_device_uuid r;
     thingsboard_device_id := Some (r_thingsboard_device_id r);
     device_name := r_device_name r;
     device_type := r_device_type r;
     owner_user_id := Some (r_owner_user_id r);
     device_label := r_device_label r;
     capabilities := r_capabilities r;
     is_online := r_is_online r |}.

(** Row of [findAllForSync]: only the six selected columns. *)
Definition sync_row (r : DeviceRow) : Device :=
  {| device_uuid := r_device_uuid r;
     thingsboard_device_id := None;
     device_name := r_device_name r;
     device_type := r_device_type r;
     owner_user_id := None;
     device_label := r_device_label r;
     capabilities := r_capabilities r;
     is_online := r_is_online r |}.

Definition uuid_active (deviceUuid : string) (r : DeviceRow) : bool :=
  String.eqb (r_device_uuid r) deviceUuid && (r_is_active r =? 1).

Definition owned_active (ownerUserId : Z) (r : DeviceRow) : bool :=
  (r_owner_user_id r =? ownerUserId) && (r_is_active r =? 1).

Definition agent_active (googleAgentUserId : string) (l : LinkRow) : bool :=
  String.eqb (l_google_agent_user_id l) googleAgentUserId && (l_is_active l =? 1).

(** [SELECT * FROM devices WHERE device_uuid = ? AND is_active = 1]. *)
Definition DeviceModel_findByUuid (deviceUuid : string) : M World (option Device) :=
  let* _ := sqlite_run in
  let* w := get in
  ret (option_map parse_row (List.find (uuid_active deviceUuid) (tbl_devices w))).

(** [... WHERE owner_user_id = ? AND is_active = 1 ORDER BY provisioned_at ASC]. *)
Definition DeviceModel_findAllForSync (ownerUserId : Z) : M World (list Device) :=
  let* _ := sqlite_run in
  let* w := get in
  ret (map sync_row
         (order_by_provisioned_at
            (List.filter (owned_active ownerUserId) (tbl_devices w)))).

(** [SELECT * FROM google_account_links WHERE google_agent_user_id = ?
    AND is_active = 1]. *)
Definition GoogleAccountLinkModel_findByAgentUserId (googleAgentUserId : string)
    : M World (option LinkRow) :=
  let* _ := sqlite_run in
  let* w := get in
  ret (List.find (agent_active googleAgentUserId) (tbl_google_account_links w)).

Definition deactivate (l : LinkRow) : LinkRow :=
  mkLinkRow (l_id l) (l_user_id l) (l_google_agent_user_id l)
    (l_google_account_id l) (l_access_token l) (l_refresh_token l)
    (l_token_expires_at l) (l_linked_at l) (l_last_sync_at l) 0.

Definition touch_sync (t : Z) (l : LinkRow) : LinkRow :=
  mkLinkRow (l_id l) (l_user_id l) (l_google_agent_user_id l)
    (l_google_account_id l) (l_access_token l) (l_refresh_token l)
    (l_token_expires_at l) (l_linked_at l) (Some t) (l_is_active l).

(** [UPDATE ... SET ... WHERE google_agent_user_id = ?]. *)
Definition update_links (googleAgentUserId : string) (f : LinkRow -> LinkRow)
    (ls : list LinkRow) : list LinkRow :=
  map (fun l => if String.eqb (l_google_agent_user_id l) googleAgentUserId
                then f l else l) ls.

(** [UPDATE google_account_links SET is_active = 0 WHERE
    google_agent_user_id = ?]. *)
Definition GoogleAccountLinkModel_disconnect (googleAgentUserId : string)
    : M World unit :=
  let* _ := sqlite_run in
  let* w := get in
  set_links (update_links googleAgentUserId deactivate (tbl_google_account_links w)).

(** [UPDATE google_account_links SET last_sync_at = ? WHERE
    google_agent_user_id = ?] with [Date.now()]. *)
Definition GoogleAccountLinkModel_updateLastSync (googleAgentUserId : string)
    : M World unit :=
  let* t := now in
  let* _ := sqlite_run in
  let* w := get in
  set_links (update_links googleAgentUserId (touch_sync t)
               (tbl_google_account_links w)).

(** ** The gateway ([services/thingsboard.service.js]) *)

(** [error.response?.data?.message || error.message]. *)
Definition error_text (e : Error) : string :=
  match truthy_opt (response_message e) with
  | Some m => m
  | None => message e
  end.

Record LoginResult : Type := mkLoginResult {
  token : string;
  refreshToken : option string;
  expiresIn : Z
}.

Definition thingsboardService_login (username password : option string)
    : M World LoginResult :=
  try_catch
    (let* n := tick in
     let* data := of_outcome (axios_post_login E n username password) in
     match data with
     | Some d =>
         match truthy_opt (ld_token d) with
         | Some t => ret (mkLoginResult t (ld_refreshToken d) 3600)
         | None => throw (mkError "Invalid response from ThingsBoard login" None)
         end
     | None => throw (mkError "Invalid response from ThingsBoard login" None)
     end)
    (fun error =>
       throw (mkError ("ThingsBoard authentication failed: " ++ error_text error)
                      None)).

Definition truthy_Z (o : option Z) : option Z :=
  match o with
  | Some z => if z =? 0 then None else Some z
  | None => None
  end.

Definition refresh_admin_token : M World string :=
  let* r := thingsboardService_login
              (THINGSBOARD_ADMIN_USERNAME E) (THINGSBOARD_ADMIN_PASSWORD E) in
  let* w := get in
  let* _ := set_admin (Some (token r)) (adminTokenExpiry w) in
  let* t := now in
  let* _ := set_admin (Some (token r)) (Some (t + expiresIn r * 1000 - 60000)) in
  ret (token r).

Definition thingsboardService_getAdminToken : M World string :=
  let* w := get in
  match truthy_opt (adminToken w), truthy_Z (adminTokenExpiry w) with
  | Some cached, Some expiry =>
      let* t := now in
      if t <? expiry then ret cached else refresh_admin_token
  | _, _ => refresh_admin_token
  end.

(** [`${v}`] for an optional string. *)
Definition interpolate (o : option string) : string :=
  match o with Some s => s | None => "undefined" end.

(** [keys.join(',')]. *)
Fixpoint join_comma (l : list string) : string :=
  match l with
  | [] => EmptyString
  | [x] => x
  | x :: r => x ++ "," ++ join_comma r
  end.

Definition thingsboardService_getLatestTelemetry (deviceId : option string)
    (keys : list string) : M World (option (gmap string (list TsPoint))) :=
  try_catch
    (let* token := thingsboardService_getAdminToken in
     let* n := tick in
     of_outcome (axios_get_timeseries E n (interpolate deviceId)
                   (join_comma keys) token))
    (fun error => ret None).

Definition thingsboardService_getDeviceAttributes (deviceId : option string)
    (scope : string) : M World (option (list (string * Scalar))) :=
  try_catch
    (let* token := thingsboardService_getAdminToken in
     let* n := tick in
     of_outcome (axios_get_attributes E n (interpolate deviceId) scope token))
    (fun error => ret None).

Definition thingsboardService_sendRpcCommand (deviceId : option string)
    (method : string) (params : RpcParams) : M World unit :=
  try_catch
    (let* token := thingsboardService_getAdminToken in
     let* n := tick in
     of_outcome (axios_post_rpc E n (interpolate deviceId)
                   (mkRpcBody method params true 5000) token))
    (fun error =>
       throw (mkError ("RPC command failed: " ++ error_text error) None)).

(** ** The dispatcher ([routes/smarthome.routes.js]) *)

Definition extractAgentUserId (req : Request) : option string :=
  match authorization req with
  | None => None
  | Some authHeader =>
      if negb (truthy_string authHeader)
         || negb (String.prefix "Bearer " authHeader)
      then None
      else
        let token := substring_from 7 authHeader in
        match jwt_decode E token with
        | Ok (Some decoded) => truthy_opt (agentUserId decoded)
        | Ok None => None
        | Throw _ => None
        end
  end.

Definition respond (code : Z) (req : Request) (p : Payload) : Response :=
  {| status := code; json := Fulfillment (requestId (body req)) p |}.

Definition authFailure (req : Request) : Response :=
  respond 401 req (ErrorPayload "authFailure" None).

(** The outer [catch] of the SYNC, QUERY and EXECUTE handlers and of the
    router. *)
Definition hardError {S} (req : Request) (error : Error) : M S Response :=
  ret (respond 500 req (ErrorPayload "hardError" (Some (message error)))).

(** The [try] block of [handleSync]. *)
Definition handleSync_try (req : Request) : M World Response :=
  match extractAgentUserId req with
  | None => ret (authFailure req)
  | Some agentUserId =>
      let* accountLink := GoogleAccountLinkModel_findByAgentUserId agentUserId in
      match accountLink with
      | None => ret (authFailure req)
      | Some accountLink =>
          let userId := l_user_id accountLink in
          let* devices := DeviceModel_findAllForSync userId in
          let googleDevices := map convertToGoogleDevice devices in
          let* _ := GoogleAccountLinkModel_updateLastSync agentUserId in
          ret (respond 200 req (SyncPayload agentUserId googleDevices))
      end
  end.

Definition handleSync (req : Request) : M World Response :=
  try_catch (handleSync_try req) (hardError req).

Definition TELEMETRY_KEYS : list string :=
  ["device1_state"; "device2_state"; "device3_state"; "device4_state";
   "fan_speed"].

(** [!device || device.owner_user_id !== accountLink.user_id]. *)
Definition not_owned (device : option Device) (accountLink : LinkRow) : bool :=
  match device with
  | None => true
  | Some d =>
      match owner_user_id d with
      | Some o => negb (o =? l_user_id accountLink)
      | None => true
      end
  end.

(** [deviceStates[deviceId] = entry], as the JSON of the response shows
    [deviceStates].  The object is a literal [{}] and every entry is an
    object, so the assignment creates the own property [deviceId], except
    for the key '__proto__': there it runs the setter inherited from
    [Object.prototype], which replaces the prototype and creates no
    property, and [JSON.stringify] shows own properties only. *)
Definition assign (deviceId : string) (entry : QueryEntry)
    (deviceStates : gmap string QueryEntry) : gmap string QueryEntry :=
  if String.eqb deviceId "__proto__" then deviceStates
  else <[deviceId := entry]> deviceStates.

(** The [try] of the [for] loop of [handleQuery], for one identifier; the
    local variable is [deviceStates]. *)
Definition handleQuery_lookup (accountLink : LinkRow) (deviceId : string)
    : M (World * gmap string QueryEntry) unit :=
  try_catch
    (let* device := liftW (DeviceModel_findByUuid deviceId) in
     match device with
     | Some d =>
         if not_owned device accountLink then
           modify_local (assign deviceId (QueryError "deviceNotFound"))
         else
           let* telemetry :=
             liftW (thingsboardService_getLatestTelemetry
                      (thingsboard_device_id d) TELEMETRY_KEYS) in
           let* attributes :=
             liftW (thingsboardService_getDeviceAttributes
                      (thingsboard_device_id d) "SERVER_SCOPE") in
           modify_local
             (assign deviceId
                (QuerySuccess (is_online d =? 1)
                   (convertToGoogleState d telemetry attributes)))
     | None => modify_local (assign deviceId (QueryError "deviceNotFound"))
     end)
    (fun error => modify_local (assign deviceId (QueryError "hardError"))).

(** The body of the [for] loop of [handleQuery]: [reqDevice.id] is read
    before the [try], so a [null] element raises past it. *)
Definition handleQuery_device (accountLink : LinkRow)
    (reqDevice : option ReqDevice) : M (World * gmap string QueryEntry) unit :=
  match reqDevice with
  | Some reqDevice => handleQuery_lookup accountLink (rd_id reqDevice)
  | None =>
      throw (TypeError "Cannot read properties of null (reading 'id')")
  end.

(** Run a handler body that has a local variable, starting from [init];
    the local is dropped at the end. *)
Definition with_local {L A} (init : L) (m : M (World * L) A) : M World A :=
  fun w =>
    match m (w, init) with
    | (r, s') => (r, fst s')
    end.

Definition read_local {L} : M (World * L) L :=
  fun s => (Ok (snd s), s).

Definition undefined_prop {S A} (field : string) : M S A :=
  throw (TypeError
    ("Cannot read properties of undefined (reading '" ++ field ++ "')")).

(** The [try] block of [handleQuery]. *)
Definition handleQuery_try (req : Request) : M World Response :=
  match extractAgentUserId req with
  | None => ret (authFailure req)
  | Some agentUserId =>
      let* accountLink := GoogleAccountLinkModel_findByAgentUserId agentUserId in
      match accountLink with
      | None => ret (authFailure req)
      | Some accountLink =>
          match inputs (body req) with
          | Some (input :: _) =>
              match payload input with
              | Some pl =>
                  with_local (∅ : gmap string QueryEntry)
                    (let* requestedDevices :=
                       iterable "requestedDevices" (pl_devices pl) in
                     let* _ := for_of requestedDevices
                                 (handleQuery_device accountLink) in
                     let* deviceStates := read_local in
                     ret (respond 200 req (QueryPayload deviceStates)))
              | None => undefined_prop "devices"
              end
          | Some [] => undefined_prop "payload"
          | None => undefined_prop "0"
          end
      end
  end.

Definition handleQuery (req : Request) : M World Response :=
  try_catch (handleQuery_try req) (hardError req).

(** [commandResults.push(x)]. *)
Definition push {X} (x : X) : M (World * list X) unit :=
  modify_local (fun l => (l ++ [x])%list).

(** The body of the innermost loop of [handleExecute]: one execution for
    one device that passed the ownership check. *)
Definition handleExecute_execution (deviceId : string) (dbDevice : Device)
    (execution : Execution) : M (World * list CommandResult) unit :=
  let googleCommand := ex_command execution in
  let* rpcCommand :=
    of_outcome (convertGoogleCommandToRpc googleCommand (ex_params execution)
                  dbDevice) in
  match rpcCommand with
  | Some rpcCommand =>
      let* _ := liftW (thingsboardService_sendRpcCommand
                         (thingsboard_device_id dbDevice)
                         (method rpcCommand) (params rpcCommand)) in
      push (CommandSuccess [deviceId] true (resultState rpcCommand))
  | None => push (CommandError [deviceId] "functionNotSupported")
  end.

(** The body of the loop over [command.devices]. *)
Definition handleExecute_device (accountLink : LinkRow) (command : Command)
    (device : ReqDevice) : M (World * list CommandResult) unit :=
  let deviceId := rd_id device in
  try_catch
    (let* dbDevice := liftW (DeviceModel_findByUuid deviceId) in
     match dbDevice with
     | Some d =>
         if not_owned dbDevice accountLink then
           push (CommandError [deviceId] "deviceNotFound")
         else
           let* executions := iterable "command.execution" (c_execution command) in
           for_of executions (handleExecute_execution deviceId d)
     | None => push (CommandError [deviceId] "deviceNotFound")
     end)
    (fun error => push (CommandError [deviceId] "hardError")).

(** The body of the loop over [commands]. *)
Definition handleExecute_command (accountLink : LinkRow) (command : Command)
    : M (World * list CommandResult) unit :=
  let* devices := iterable "command.devices" (c_devices command) in
  for_of devices (handleExecute_device accountLink command).

(** The [try] block of [handleExecute]. *)
Definition handleExecute_try (req : Request) : M World Response :=
  match extractAgentUserId req with
  | None => ret (authFailure req)
  | Some agentUserId =>
      let* accountLink := GoogleAccountLinkModel_findByAgentUserId agentUserId in
      match accountLink with
      | None => ret (authFailure req)
      | Some accountLink =>
          match inputs (body req) with
          | Some (input :: _) =>
              match payload input with
              | Some pl =>
                  with_local ([] : list CommandResult)
                    (let* commands := iterable "commands" (pl_commands pl) in
                     let* _ := for_of commands
                                 (handleExecute_command accountLink) in
                     let* commandResults := read_local in
                     ret (respond 200 req (ExecutePayload commandResults)))
              | None => undefined_prop "commands"
              end
          | Some [] => undefined_prop "payload"
          | None => undefined_prop "0"
          end
      end
  end.

Definition handleExecute (req : Request) : M World Response :=
  try_catch (handleExecute_try req) (hardError req).

(** The [try] block of [handleDisconnect]. *)
Definition handleDisconnect_try (req : Request) : M World Response :=
  match extractAgentUserId req with
  | None => ret (respond 200 req EmptyPayload)
  | Some agentUserId =>
      let* _ := GoogleAccountLinkModel_disconnect agentUserId in
      ret (respond 200 req EmptyPayload)
  end.

Definition handleDisconnect (req : Request) : M World Response :=
  try_catch (handleDisconnect_try req)
    (fun error => ret (respond 200 req EmptyPayload)).

Definition INTENT_SYNC := "action.devices.SYNC".
Definition INTENT_QUERY := "action.devices.QUERY".
Definition INTENT_EXECUTE := "action.devices.EXECUTE".
Definition INTENT_DISCONNECT := "action.devices.DISCONNECT".

(** The [try] block of [router.post('/fulfillment')]. *)
Definition fulfillment_try (req : Request) : M World Response :=
  match truthy_opt (requestId (body req)), inputs (body req) with
  | Some _, Some inputs =>
      match inputs with
      | input :: _ =>
          match intent input with
          | Some i =>
              if String.eqb i INTENT_SYNC then handleSync req
              else if String.eqb i INTENT_QUERY then handleQuery req
              else if String.eqb i INTENT_EXECUTE then handleExecute req
              else if String.eqb i INTENT_DISCONNECT then handleDisconnect req
              else ret (respond 400 req (ErrorPayload "notSupported" None))
          | None => ret (respond 400 req (ErrorPayload "notSupported" None))
          end
      | [] => undefined_prop "intent"
      end
  | _, _ =>
      ret {| status := 400; json := InvalidRequest "Invalid request format" |}
  end.

Definition fulfillment (req : Request) : M World Response :=
  try_catch (fulfillment_try req) (hardError req).

End Bridge.


(** ** The rest of the registry ([database/models.js]) and its callers *)

(** What [DeviceModel.create] is given.  [nd_deviceConfig] is the JSON
    text of the configuration object, when there is one. *)
Record NewDevice : Type := mkNewDevice {
  nd_deviceUuid : string;
  nd_thingsboardDeviceId : string;
  nd_deviceName : string;
  nd_deviceType : string;
  nd_ownerUserId : Z;
  nd_accessToken : string;
  nd_capabilities : list string;
  nd_deviceLabel : option string;
  nd_deviceConfig : option string
}.

(** What [GoogleAccountLinkModel.createOrUpdate] is given. *)
Record NewLink : Type := mkNewLink {
  nl_userId : Z;
  nl_googleAgentUserId : string;
  nl_googleAccountId : option string;
  nl_accessToken : option string;
  nl_refreshToken : option string;
  nl_tokenExpiresAt : option Z
}.

(** What [createOrUpdate] returns: [{...existing, userId, googleAccountId,
    lastSyncAt}] or the description of the inserted row. *)
Inductive LinkResult : Type :=
| LinkUpdated (existing : LinkRow) (userId : Z)
    (googleAccountId : option string) (lastSyncAt : Z)
| LinkCreated (id : Z) (userId : Z) (googleAgentUserId : string)
    (googleAccountId : option string) (linkedAt lastSyncAt : Z).

(** [INTEGER PRIMARY KEY AUTOINCREMENT]: one more than the largest rowid
    of the table; no statement of the repository removes a row. *)
Definition next_rowid (ids : list Z) : Z :=
  1 + foldr Z.max 0 ids.

Definition SqliteError (msg : string) : Error := mkError msg None.

(** ORDER BY provisioned_at DESC, stable. *)
Fixpoint insert_row_desc (r : DeviceRow) (l : list DeviceRow) : list DeviceRow :=
  match l with
  | [] => [r]
  | x :: t =>
      if r_provisioned_at x <=? r_provisioned_at r then r :: l
      else x :: insert_row_desc r t
  end.

Definition order_by_provisioned_at_desc (l : list DeviceRow) : list DeviceRow :=
  foldr insert_row_desc [] l.

(** Bodies of the device routes ([routes/device.routes.js]). *)
Inductive ApiBody : Type :=
| ApiError (error : string) (message : option string)
| ApiSuccess (message : string).

Record ApiResponse : Type := mkApiResponse {
  api_status : Z;
  api_json : ApiBody
}.

(** What a middleware does: call [next()] with [req.googleUser] set, or
    answer. *)
Inductive Middleware : Type :=
| Next (googleUser_agentUserId : string)
| Answer (r : ApiResponse).

Section Registry.

Variable E : Env.

Definition set_devices (ds : list DeviceRow) : M World unit :=
  modify (fun w =>
    mkWorld ds (tbl_google_account_links w) (adminToken w)
            (adminTokenExpiry w) (calls w)).

(** [UPDATE devices SET ... WHERE device_uuid = ?]. *)
Definition update_devices (deviceUuid : string) (f : DeviceRow -> DeviceRow)
    (ds : list DeviceRow) : list DeviceRow :=
  map (fun r => if String.eqb (r_device_uuid r) deviceUuid then f r else r) ds.

Definition soft_delete (r : DeviceRow) : DeviceRow :=
  mkDeviceRow (r_id r) (r_device_uuid r) (r_thingsboard_device_id r)
    (r_device_name r) (r_device_type r) (r_owner_user_id r) (r_access_token r)
    (r_device_label r) (r_capabilities r) (r_device_config r)
    (r_provisioned_at r) (r_last_seen_at r) (r_is_online r) 0.

Definition set_online (isOnline : bool) (t : Z) (r : DeviceRow) : DeviceRow :=
  mkDeviceRow (r_id r) (r_device_uuid r) (r_thingsboard_device_id r)
    (r_device_name r) (r_device_type r) (r_owner_user_id r) (r_access_token r)
    (r_device_label r) (r_capabilities r) (r_device_config r)
    (r_provisioned_at r) (Some t) (if isOnline then 1 else 0) (r_is_active r).

(** [UPDATE devices SET is_active = 0 WHERE device_uuid = ?]. *)
Definition DeviceModel_delete (deviceUuid : string) : M World unit :=
  let* _ := sqlite_run E in
  let* w := get in
  set_devices (update_devices deviceUuid soft_delete (tbl_devices w)).

(** [UPDATE devices SET is_online = ?, last_seen_at = ? WHERE
    device_uuid = ?] with [Date.now()]. *)
Definition DeviceModel_updateOnlineStatus (deviceUuid : string)
    (isOnline : bool) : M World unit :=
  let* t := now E in
  let* _ := sqlite_run E in
  let* w := get in
  set_devices (update_devices deviceUuid (set_online isOnline t) (tbl_devices w)).

(** [... WHERE owner_user_id = ? AND is_active = 1 ORDER BY provisioned_at
    DESC]. *)
Definition DeviceModel_findByOwner (ownerUserId : Z) : M World (list Device) :=
  let* _ := sqlite_run E in
  let* w := get in
  ret (map parse_row
         (order_by_provisioned_at_desc
            (List.filter (owned_active ownerUserId) (tbl_devices w)))).

(** The row [DeviceModel.create] inserts: [is_active] is 1, [is_online]
    and [last_seen_at] take the column defaults. *)
Definition new_device_row (id : Z) (t : Z) (d : NewDevice) : DeviceRow :=
  {| r_id := id;
     r_device_uuid := nd_deviceUuid d;
     r_thingsboard_device_id := nd_thingsboardDeviceId d;
     r_device_name := nd_deviceName d;
     r_device_type := nd_deviceType d;
     r_owner_user_id := nd_ownerUserId d;
     r_access_token := nd_accessToken d;
     r_device_label := nd_deviceLabel d;
     r_capabilities := Some (nd_capabilities d);
     r_device_config := nd_deviceConfig d;
     r_provisioned_at := t;
     r_last_seen_at := None;
     r_is_online := 0;
     r_is_active := 1 |}.

(** [INSERT INTO devices ...]: [device_uuid] and [thingsboard_device_id]
    are UNIQUE; SQLite checks the index declared last first, so a row
    that collides on both is refused for [thingsboard_device_id].  Any
    other refusal of the statement (the foreign key on
    the owner among them) comes through [sqlite_error].  Returns the
    inserted row, whose values the returned object carries. *)
Definition DeviceModel_create (d : NewDevice) : M World DeviceRow :=
  let* t := now E in
  let* _ := sqlite_run E in
  let* w := get in
  if existsb (fun r => String.eqb (r_thingsboard_device_id r)
                         (nd_thingsboardDeviceId d)) (tbl_devices w)
  then throw (SqliteError
                "UNIQUE constraint failed: devices.thingsboard_device_id")
  else if existsb (fun r => String.eqb (r_device_uuid r) (nd_deviceUuid d))
            (tbl_devices w)
  then throw (SqliteError "UNIQUE constraint failed: devices.device_uuid")
  else
    let r := new_device_row (next_rowid (map r_id (tbl_devices w))) t d in
    let* _ := set_devices (tbl_devices w ++ [r])%list in
    ret r.

(** The [SET] clause of [createOrUpdate]'s UPDATE. *)
Definition relink (t : Z) (n : NewLink) (l : LinkRow) : LinkRow :=
  mkLinkRow (l_id l) (nl_userId n) (l_google_agent_user_id l)
    (nl_googleAccountId n) (nl_accessToken n) (nl_refreshToken n)
    (nl_tokenExpiresAt n) (l_linked_at l) (Some t) 1.

Definition new_link_row (id : Z) (t : Z) (n : NewLink) : LinkRow :=
  mkLinkRow id (nl_userId n) (nl_googleAgentUserId n) (nl_googleAccountId n)
    (nl_accessToken n) (nl_refreshToken n) (nl_tokenExpiresAt n) t (Some t) 1.

(** [google_agent_user_id] is UNIQUE; the lookup that decides between
    UPDATE and INSERT sees active rows only. *)
Definition GoogleAccountLinkModel_createOrUpdate (n : NewLink)
    : M World LinkResult :=
  let* t := now E in
  let* existing :=
    GoogleAccountLinkModel_findByAgentUserId E (nl_googleAgentUserId n) in
  match existing with
  | Some existing =>
      let* _ := sqlite_run E in
      let* w := get in
      let* _ := set_links (update_links (nl_googleAgentUserId n) (relink t n)
                             (tbl_google_account_links w)) in
      ret (LinkUpdated existing (nl_userId n) (nl_googleAccountId n) t)
  | None =>
      let* _ := sqlite_run E in
      let* w := get in
      if existsb (fun l => String.eqb (l_google_agent_user_id l)
                             (nl_googleAgentUserId n))
           (tbl_google_account_links w)
      then throw (SqliteError
             "UNIQUE constraint failed: google_account_links.google_agent_user_id")
      else
        let id := next_rowid (map l_id (tbl_google_account_links w)) in
        let* _ := set_links
                    (tbl_google_account_links w ++ [new_link_row id t n])%list in
        ret (LinkCreated id (nl_userId n) (nl_googleAgentUserId n)
               (nl_googleAccountId n) t t)
  end.

(** [AuditLogModel.log]: an INSERT into [audit_log], a table no other
    modelled statement reads. *)
Definition AuditLogModel_log : M World unit :=
  let* _ := now E in
  sqlite_run E.

(** The handler of [DELETE /api/device/:deviceUuid], after [authenticate]
    has set [req.user.id]. *)
Definition device_delete_route (userId : Z) (deviceUuid : string)
    : M World ApiResponse :=
  try_catch
    (let* device := DeviceModel_findByUuid E deviceUuid in
     match device with
     | None => ret (mkApiResponse 404 (ApiError "Device not found" None))
     | Some d =>
         if match owner_user_id d with
            | Some o => negb (o =? userId)
            | None => true
            end
         then ret (mkApiResponse 403 (ApiError "Access denied" None))
         else
           let* _ := DeviceModel_delete deviceUuid in
           let* _ := AuditLogModel_log in
           ret (mkApiResponse 200 (ApiSuccess "Device deleted successfully"))
     end)
    (fun error =>
       ret (mkApiResponse 500
              (ApiError "Failed to delete device" (Some (message error))))).

(** [GoogleAccountLinkModel.findByAccessToken]: [models.js] defines no
    such method, so the property is [undefined]. *)
Definition GoogleAccountLinkModel_findByAccessToken
    : option (string -> M World (option LinkRow)) := None.

Definition unauthorized (msg : string) : Middleware :=
  Answer (mkApiResponse 401 (ApiError "Unauthorized" (Some msg))).

(** [authenticateGoogleRequest] ([middleware/auth.js]). *)
Definition authenticateGoogleRequest (req : Request) : M World Middleware :=
  try_catch
    (match authorization req with
     | None => ret (unauthorized "Missing authorization header")
     | Some authHeader =>
         if negb (truthy_string authHeader)
            || negb (String.prefix "Bearer " authHeader)
         then ret (unauthorized "Missing authorization header")
         else
           let token := substring_from 7 authHeader in
           try_catch
             (let* decoded := of_outcome (jwt_decode E token) in
              match match decoded with
                    | Some p => truthy_opt (agentUserId p)
                    | None => None
                    end with
              | Some agent => ret (Next agent)
              | None =>
                  match GoogleAccountLinkModel_findByAccessToken with
                  | None =>
                      throw (TypeError
                        "GoogleAccountLinkModel.findByAccessToken is not a function")
                  | Some find =>
                      let* link := find token in
                      match link with
                      | Some l => ret (Next (l_google_agent_user_id l))
                      | None => ret (unauthorized "Invalid access token")
                      end
                  end
              end)
             (fun error => ret (unauthorized "Invalid token format"))
     end)
    (fun error =>
       ret (Answer (mkApiResponse 500
              (ApiError "Internal Server Error" (Some "Authentication failed"))))).

End Registry.

(** * Specification-side definitions *)

(** ** The SYNC mapping policy, as the specification words it *)

Inductive SyncPolicy (caps : list string) : string -> list string -> Prop :=
| Policy_light_dimmer :
    "dimmer" ∈ caps ->
    SyncPolicy caps TYPE_LIGHT [TRAIT_OnOff; TRAIT_Brightness]
| Policy_light :
    "light" ∈ caps -> "dimmer" ∉ caps ->
    SyncPolicy caps TYPE_LIGHT [TRAIT_OnOff]
| Policy_fan :
    "light" ∉ caps -> "dimmer" ∉ caps -> "fan" ∈ caps ∨ "speed" ∈ caps ->
    SyncPolicy caps TYPE_FAN [TRAIT_OnOff; TRAIT_FanSpeed]
| Policy_outlet :
    "light" ∉ caps -> "dimmer" ∉ caps -> "fan" ∉ caps -> "speed" ∉ caps ->
    "outlet" ∈ caps ->
    SyncPolicy caps TYPE_OUTLET [TRAIT_OnOff]
| Policy_fallback :
    "light" ∉ caps -> "dimmer" ∉ caps -> "fan" ∉ caps -> "speed" ∉ caps ->
    "outlet" ∉ caps ->
    SyncPolicy caps TYPE_OUTLET [TRAIT_OnOff].

(** ** Command support *)

Definition has_fan (d : Device) : Prop :=
  "fan" ∈ caps_of d ∨ "speed" ∈ caps_of d.

Definition vocabulary : list string :=
  [CMD_OnOff; CMD_SetFanSpeed; CMD_BrightnessAbsolute].

(** The two unsupported cases: a fan-speed command for a device without
    'fan' and 'speed', or a command outside the vocabulary. *)
Definition unsupported (googleCommand : string) (d : Device) : Prop :=
  (googleCommand = CMD_SetFanSpeed ∧ ¬ has_fan d) ∨ googleCommand ∉ vocabulary.

(** ** Collaborators that answer *)

(** The registry answers every statement. *)
Definition db_ok (E : Env) : Prop := ∀ n, sqlite_error E n = None.

(** The gateway accepts the admin login and acknowledges every RPC. *)
Definition gateway_ok (E : Env) : Prop :=
  (∀ n u p, ∃ d t,
      axios_post_login E n u p = Ok (Some d) ∧ truthy_opt (ld_token d) = Some t) ∧
  (∀ n i b t, axios_post_rpc E n i b t = Ok tt).


(** The world after one more collaborator call. *)
Definition bump (w : World) : World :=
  mkWorld (tbl_devices w) (tbl_google_account_links w)
          (adminToken w) (adminTokenExpiry w) (S (calls w)).

Definition same_tables (w w' : World) : Prop :=
  tbl_devices w' = tbl_devices w ∧
  tbl_google_account_links w' = tbl_google_account_links w.

(** The active row with a given identifier, if any. *)
Definition lookup_device (w : World) (deviceUuid : string) : option DeviceRow :=
  List.find (uuid_active deviceUuid) (tbl_devices w).

(** The active link of an assistant subject, if any. *)
Definition lookup_link (w : World) (agent : string) : option LinkRow :=
  List.find (agent_active agent) (tbl_google_account_links w).

(** The device exists, is active and belongs to the user of the link. *)
Definition owned_row (w : World) (link : LinkRow) (deviceUuid : string)
    : option DeviceRow :=
  match lookup_device w deviceUuid with
  | Some r => if r_owner_user_id r =? l_user_id link then Some r else None
  | None => None
  end.

(** A well-formed, authenticated envelope carrying one payload. *)
Definition resolved (E : Env) (w : World) (req : Request) (agent : string)
    (link : LinkRow) (pl : InputPayload) : Prop :=
  extractAgentUserId E req = Some agent ∧
  lookup_link w agent = Some link ∧
  ∃ input rest, inputs (body req) = Some (input :: rest) ∧
                payload input = Some pl.

(** ** QUERY: what each requested device is answered *)

Definition state_off : GoogleState :=
  {| on := false; currentFanSpeedSetting := None |}.

(** The world [w'] comes after [w]: same tables, no fewer collaborator
    calls. *)
Definition later (w w' : World) : Prop :=
  same_tables w w' ∧ (calls w <= calls w')%nat.

(** The gateway accepts the admin login made as call [n]. *)
Definition login_accepted (E : Env) (n : nat) : Prop :=
  ∃ d t,
    axios_post_login E n (THINGSBOARD_ADMIN_USERNAME E)
      (THINGSBOARD_ADMIN_PASSWORD E) = Ok (Some d)
    ∧ truthy_opt (ld_token d) = Some t.

(** The [keys] parameter of the telemetry request of QUERY. *)
Definition QUERY_KEYS : string :=
  "device1_state,device2_state,device3_state,device4_state,fan_speed".

(** What a telemetry read made from call [since] on hands to QUERY for
    the gateway device [tb]: what the gateway answered to that request,
    or [null] when the request, or the admin login before it, failed. *)
Definition telemetry_read (E : Env) (since : nat) (tb : string)
    (telemetry : option (gmap string (list TsPoint))) : Prop :=
  ∃ n, (since <= n)%nat
       ∧ ((∃ token, axios_get_timeseries E n tb QUERY_KEYS token = Ok telemetry)
          ∨ (telemetry = None
             ∧ ((∃ token e,
                   axios_get_timeseries E n tb QUERY_KEYS token = Throw e)
                ∨ ¬ login_accepted E n))).

(** What a requested identifier is answered by a QUERY that starts in
    [w].  [hardError] needs a registry statement that raised during the
    request.  Otherwise a device that fails the ownership check is
    answered [deviceNotFound], and an owned one SUCCESS with the
    registry's online flag and the state derived from the telemetry
    read. *)
Definition query_entry (E : Env) (w : World) (link : LinkRow)
    (deviceUuid : string) (entry : QueryEntry) : Prop :=
  (entry = QueryError "hardError"
   ∧ ∃ n, (calls w <= n)%nat ∧ is_Some (sqlite_error E n))
  ∨ match owned_row w link deviceUuid with
    | Some r =>
        ∃ telemetry,
          entry = QuerySuccess (r_is_online r =? 1)
                    (convertToGoogleState (parse_row r) telemetry None)
          ∧ telemetry_read E (calls w) (r_thingsboard_device_id r) telemetry
    | None => entry = QueryError "deviceNotFound"
    end.

(** The identifiers of a device list without [null] elements. *)
Definition ids_of (devs : list ReqDevice) : list string := rd_id <$> devs.

(** The keys a device list leaves in [deviceStates]. *)
Definition answered_ids (devs : list ReqDevice) : gset string :=
  list_to_set (ids_of devs) ∖ {["__proto__"]}.

(** ** EXECUTE: the entries of a batch without faults *)

Definition devices_of (c : Command) : list ReqDevice :=
  match c_devices c with Some l => l | None => [] end.

Definition executions_of (c : Command) : list Execution :=
  match c_execution c with Some l => l | None => [] end.

(** Every group lists its devices and executions, and every execution
    carries a parameter object. *)
Definition well_formed_batch (batch : list Command) : Prop :=
  Forall (fun c =>
            is_Some (c_devices c) ∧ is_Some (c_execution c) ∧
            Forall (fun e => is_Some (ex_params e)) (executions_of c)) batch.

(** The entry of one execution on an owned device. *)
Definition execution_entry (deviceUuid : string) (d : Device) (e : Execution)
    : CommandResult :=
  match convertGoogleCommandToRpc (ex_command e) (ex_params e) d with
  | Ok (Some rpc) => CommandSuccess [deviceUuid] true (resultState rpc)
  | _ => CommandError [deviceUuid] "functionNotSupported"
  end.

(** The entries of one device of one group: a single [deviceNotFound]
    when the ownership check fails, else one entry per execution. *)
Definition device_entries (w : World) (link : LinkRow) (c : Command)
    (dev : ReqDevice) : list CommandResult :=
  match owned_row w link (rd_id dev) with
  | Some r => map (execution_entry (rd_id dev) (parse_row r)) (executions_of c)
  | None => [CommandError [rd_id dev] "deviceNotFound"]
  end.

Definition batch_entries (w : World) (link : LinkRow) (batch : list Command)
    : list CommandResult :=
  flat_map (fun c => flat_map (device_entries w link c) (devices_of c)) batch.

(** The number of requested (device, execution) pairs. *)
Definition requested_pairs (batch : list Command) : nat :=
  list_sum (map (fun c => (length (devices_of c) * length (executions_of c))%nat)
                batch).

(** ** Row order *)

Definition provisioned_le (a b : DeviceRow) : Prop :=
  r_provisioned_at a <= r_provisioned_at b.

(** * Concrete scenarios *)

Definition fan_device : Device :=
  {| device_uuid := "dev-fan";
     thingsboard_device_id := Some "tb-fan";
     device_name := "Ceiling fan";
     device_type := "panel";
     owner_user_id := Some 1;
     device_label := None;
     capabilities := Some ["fan"; "speed"];
     is_online := 1 |}.

Definition fan_speed_params (label : string) : Params :=
  {| p_on := None; p_fanSpeed := Some (SStr label); p_brightness := None |}.

Definition on_params : Params :=
  {| p_on := Some (SBool true); p_fanSpeed := None; p_brightness := None |}.

Definition row (id : Z) (uuid : string) (owner : Z) (caps : list string)
    (provisioned : Z) (active : Z) : DeviceRow :=
  {| r_id := id;
     r_device_uuid := uuid;
     r_thingsboard_device_id := "tb-" ++ uuid;
     r_device_name := "Panel " ++ uuid;
     r_device_type := "panel";
     r_owner_user_id := owner;
     r_access_token := "secret";
     r_device_label := None;
     r_capabilities := Some caps;
     r_device_config := None;
     r_provisioned_at := provisioned;
     r_last_seen_at := None;
     r_is_online := 1;
     r_is_active := active |}.

Definition link_row (id user : Z) (agent : string) (active : Z) : LinkRow :=
  {| l_id := id;
     l_user_id := user;
     l_google_agent_user_id := agent;
     l_google_account_id := None;
     l_access_token := None;
     l_refresh_token := None;
     l_token_expires_at := None;
     l_linked_at := 50;
     l_last_sync_at := None;
     l_is_active := active |}.

(** Two users; user 1 owns a light, a fan and a deleted outlet, user 2
    owns an outlet. *)
Definition home : World :=
  {| tbl_devices :=
       [row 1 "dev-light" 1 ["light"; "dimmer"] 100 1;
        row 2 "dev-other" 2 ["outlet"] 150 1;
        row 3 "dev-fan" 1 ["fan"; "speed"] 200 1;
        row 4 "dev-gone" 1 ["outlet"] 250 0];
     tbl_google_account_links :=
       [link_row 1 1 "agent_1" 1; link_row 2 2 "agent_2" 0];
     adminToken := None;
     adminTokenExpiry := None;
     calls := 0 |}.

Definition alice_link : LinkRow := link_row 1 1 "agent_1" 1.

Definition sample_telemetry : gmap string (list TsPoint) :=
  <["fan_speed" := [mkTsPoint 10 (Some (SNum 3))]]>
    (<["device1_state" := [mkTsPoint 10 (Some (SNum 1))]]> ∅).

(** Tokens decode without any check; this one is expired and its
    signature does not verify. *)
Definition decode_alice (tok : string) : Outcome (option JwtPayload) :=
  if String.eqb tok "alice.jwt" then
    Ok (Some {| agentUserId := Some "agent_1"; userId := Some 1;
                iat := Some 0; exp := Some 1 |})
  else if String.eqb tok "bob.jwt" then
    Ok (Some {| agentUserId := Some "agent_2"; userId := Some 2;
                iat := Some 0; exp := Some 1 |})
  else Ok None.

(** Every collaborator answers. *)
Definition calm : Env :=
  {| sqlite_error := fun _ => None;
     Date_now := fun n => 1000000 + Z.of_nat n;
     jwt_decode := decode_alice;
     jwt_verify := fun _ _ _ => Throw (mkError "invalid signature" None);
     axios_post_login := fun _ _ _ =>
       Ok (Some {| ld_token := Some "tb-session"; ld_refreshToken := None |});
     axios_get_timeseries := fun _ _ _ _ => Ok (Some sample_telemetry);
     axios_get_attributes := fun _ _ _ _ => Ok (Some []);
     axios_post_rpc := fun _ _ _ _ => Ok tt;
     THINGSBOARD_ADMIN_USERNAME := Some "tenant@thingsboard.org";
     THINGSBOARD_ADMIN_PASSWORD := Some "tenant" |}.


(** The registry raises on every statement. *)
Definition registry_fails : Env :=
  {| sqlite_error := fun _ => Some (mkError "database is locked" None);
     Date_now := Date_now calm;
     jwt_decode := jwt_decode calm;
     jwt_verify := jwt_verify calm;
     axios_post_login := axios_post_login calm;
     axios_get_timeseries := axios_get_timeseries calm;
     axios_get_attributes := axios_get_attributes calm;
     axios_post_rpc := axios_post_rpc calm;
     THINGSBOARD_ADMIN_USERNAME := THINGSBOARD_ADMIN_USERNAME calm;
     THINGSBOARD_ADMIN_PASSWORD := THINGSBOARD_ADMIN_PASSWORD calm |}.

Definition envelope (auth : option string) (i : string) (pl : InputPayload)
    : Request :=
  {| authorization := auth;
     body := {| requestId := Some "req-1";
                inputs := Some [{| intent := Some i; payload := Some pl |}] |} |}.

Definition alice : option string := Some "Bearer alice.jwt".

Definition query_payload (ids : list string) : InputPayload :=
  {| pl_devices := Some (Some <$> map mkReqDevice ids); pl_commands := None |}.

Definition execute_payload (batch : list Command) : InputPayload :=
  {| pl_devices := None; pl_commands := Some batch |}.

Definition no_payload : InputPayload :=
  {| pl_devices := None; pl_commands := None |}.

(** One group: an unknown device paired with two executions. *)
Definition unknown_twice : list Command :=
  [{| c_devices := Some [mkReqDevice "dev-unknown"];
      c_execution :=
        Some [mkExecution CMD_OnOff (Some on_params);
              mkExecution CMD_OnOff (Some on_params)] |}].

(** One group: the light and the fan, switched on and set to speed 3. *)
Definition light_and_fan : list Command :=
  [{| c_devices := Some [mkReqDevice "dev-light"; mkReqDevice "dev-fan";
                         mkReqDevice "dev-other"];
      c_execution :=
        Some [mkExecution CMD_OnOff (Some on_params);
              mkExecution CMD_SetFanSpeed (Some (fan_speed_params "speed_3"))] |}].

(** One group: a fan-speed command sent to the light. *)
Definition fan_speed_on_light : list Command :=
  [{| c_devices := Some [mkReqDevice "dev-light"];
      c_execution :=
        Some [mkExecution CMD_SetFanSpeed (Some (fan_speed_params "speed_3"))] |}].

(** An active link of the subject exists. *)
Definition has_active_link (w : World) (agent : string) : Prop :=
  ∃ l, l ∈ tbl_google_account_links w
       ∧ l_google_agent_user_id l = agent ∧ l_is_active l = 1.

(** A row after a soft delete: still there, at most its flag changed. *)
Definition kept_or_deactivated (l l' : LinkRow) : Prop :=
  l' = l ∨ l' = deactivate l.

Definition success_empty (req : Request) : Response :=
  {| status := 200; json := Fulfillment (requestId (body req)) EmptyPayload |}.

(** A 500 response with the request's identifier and [hardError]. *)
Definition is_hardError (req : Request) (r : Response) : Prop :=
  ∃ dbg, r = {| status := 500;
                json := Fulfillment (requestId (body req))
                          (ErrorPayload "hardError" dbg) |}.

(** An envelope that passes the router's format check and names an
    intent. *)
Definition dispatched (req : Request) (i : string) : Prop :=
  is_Some (truthy_opt (requestId (body req)))
  ∧ ∃ input rest, inputs (body req) = Some (input :: rest)
                  ∧ intent input = Some i.

(** An envelope with a request identifier and an empty input array. *)
Definition empty_inputs : Request :=
  {| authorization := alice;
     body := {| requestId := Some "req-2"; inputs := Some [] |} |}.

(** * Further specification-side definitions *)

(** ** Computations that leave the registry tables alone *)

Definition preserves {A} (m : M World A) : Prop :=
  ∀ w, same_tables w (snd (m w)).

Definition preservesL {L A} (m : M (World * L) A) : Prop :=
  ∀ s, same_tables (fst s) (fst (snd (m s))).

(** ** Response shapes *)

(** Status and error code agree, and the body carries the request's
    identifier unless the envelope was refused as malformed. *)
Definition well_shaped (req : Request) (r : Response) : Prop :=
  r = {| status := 400; json := InvalidRequest "Invalid request format" |}
  ∨ ∃ p, json r = Fulfillment (requestId (body req)) p
         ∧ match p with
           | ErrorPayload code dbg =>
               (status r = 401 ∧ code = "authFailure" ∧ dbg = None)
               ∨ (status r = 400 ∧ code = "notSupported" ∧ dbg = None)
               ∨ (status r = 500 ∧ code = "hardError" ∧ is_Some dbg)
           | _ => status r = 200
           end.

(** Every response the computation returns satisfies [P]. *)
Definition answers {S} (P : Response -> Prop) (m : M S Response) : Prop :=
  ∀ s r s', m s = (Ok r, s') -> P r.

Definition guarded_intents : list string :=
  [INTENT_SYNC; INTENT_QUERY; INTENT_EXECUTE].

(** A link row after SYNC: itself, or itself with a new sync time. *)
Definition kept_or_synced (l l' : LinkRow) : Prop :=
  l' = l ∨ ∃ t, l' = touch_sync t l.

(** ** EXECUTE while the gateway refuses every RPC *)

Definition rpc_down (E : Env) : Prop :=
  ∀ n i b t, ∃ e, axios_post_rpc E n i b t = Throw e.

(** Leading unsupported executions are answered [functionNotSupported];
    the first execution that needs the gateway (or raises for want of a
    parameter object) is answered [hardError] and ends the device. *)
Fixpoint entries_until_fault (deviceUuid : string) (d : Device)
    (es : list Execution) : list CommandResult :=
  match es with
  | [] => []
  | e :: rest =>
      match convertGoogleCommandToRpc (ex_command e) (ex_params e) d with
      | Ok None =>
          CommandError [deviceUuid] "functionNotSupported"
            :: entries_until_fault deviceUuid d rest
      | _ => [CommandError [deviceUuid] "hardError"]
      end
  end.

Definition faulty_device_entries (w : World) (link : LinkRow) (c : Command)
    (dev : ReqDevice) : list CommandResult :=
  match owned_row w link (rd_id dev) with
  | Some r => entries_until_fault (rd_id dev) (parse_row r) (executions_of c)
  | None => [CommandError [rd_id dev] "deviceNotFound"]
  end.

Definition faulty_batch_entries (w : World) (link : LinkRow)
    (batch : list Command) : list CommandResult :=
  flat_map (fun c => flat_map (faulty_device_entries w link c) (devices_of c))
           batch.

(** Every group lists its devices and its executions. *)
Definition listed_batch (batch : list Command) : Prop :=
  Forall (fun c => is_Some (c_devices c) ∧ is_Some (c_execution c)) batch.

(** ** Commands and traits *)

Definition supported (googleCommand : string) (d : Device) : Prop :=
  googleCommand = CMD_OnOff
  ∨ (googleCommand = CMD_SetFanSpeed ∧ has_fan d)
  ∨ (googleCommand = CMD_BrightnessAbsolute ∧ "dimmer" ∈ caps_of d).

(** The command that exercises a trait. *)
Definition command_of_trait (trait : string) : option string :=
  if String.eqb trait TRAIT_OnOff then Some CMD_OnOff
  else if String.eqb trait TRAIT_Brightness then Some CMD_BrightnessAbsolute
  else if String.eqb trait TRAIT_FanSpeed then Some CMD_SetFanSpeed
  else None.

Definition provisioned_ge (a b : DeviceRow) : Prop :=
  r_provisioned_at b <= r_provisioned_at a.

(** Some row, active or not, carries the identifier. *)
Definition uuid_taken (w : World) (deviceUuid : string) : bool :=
  existsb (fun r => String.eqb (r_device_uuid r) deviceUuid) (tbl_devices w).

Definition tb_id_taken (w : World) (tbId : string) : bool :=
  existsb (fun r => String.eqb (r_thingsboard_device_id r) tbId) (tbl_devices w).

Definition agent_taken (w : World) (agent : string) : bool :=
  existsb (fun l => String.eqb (l_google_agent_user_id l) agent)
          (tbl_google_account_links w).

(** * Further scenarios *)

(** The gateway refuses every RPC. *)
Definition rpc_fails : Env :=
  {| sqlite_error := sqlite_error calm;
     Date_now := Date_now calm;
     jwt_decode := jwt_decode calm;
     jwt_verify := jwt_verify calm;
     axios_post_login := axios_post_login calm;
     axios_get_timeseries := axios_get_timeseries calm;
     axios_get_attributes := axios_get_attributes calm;
     axios_post_rpc := fun _ _ _ _ =>
       Throw (mkError "Request failed with status code 504" None);
     THINGSBOARD_ADMIN_USERNAME := THINGSBOARD_ADMIN_USERNAME calm;
     THINGSBOARD_ADMIN_PASSWORD := THINGSBOARD_ADMIN_PASSWORD calm |}.

Definition nobody : option string := Some "Bearer opaque-token".

Definition new_plug : NewDevice :=
  {| nd_deviceUuid := "dev-plug";
     nd_thingsboardDeviceId := "tb-dev-plug";
     nd_deviceName := "Plug";
     nd_deviceType := "panel";
     nd_ownerUserId := 1;
     nd_accessToken := "secret";
     nd_capabilities := ["outlet"];
     nd_deviceLabel := Some "Desk plug";
     nd_deviceConfig := None |}.

Definition relink_alice : NewLink :=
  {| nl_userId := 1;
     nl_googleAgentUserId := "agent_1";
     nl_googleAccountId := None;
     nl_accessToken := Some "access-2";
     nl_refreshToken := Some "refresh-1";
     nl_tokenExpiresAt := Some 2000000 |}.

Definition link_carol : NewLink :=
  {| nl_userId := 3;
     nl_googleAgentUserId := "agent_3";
     nl_googleAccountId := None;
     nl_accessToken := Some "access-4";
     nl_refreshToken := Some "refresh-3";
     nl_tokenExpiresAt := Some 2000000 |}.

(** Every admin login is refused. *)
Definition login_down (E : Env) : Prop :=
  ∀ n u p, ∃ e, axios_post_login E n u p = Throw e.

(** The gateway refuses the admin login. *)
Definition login_fails : Env :=
  {| sqlite_error := sqlite_error calm;
     Date_now := Date_now calm;
     jwt_decode := jwt_decode calm;
     jwt_verify := jwt_verify calm;
     axios_post_login := fun _ _ _ =>
       Throw (mkError "Request failed with status code 401"
                      (Some "Invalid username or password"));
     axios_get_timeseries := axios_get_timeseries calm;
     axios_get_attributes := axios_get_attributes calm;
     axios_post_rpc := axios_post_rpc calm;
     THINGSBOARD_ADMIN_USERNAME := THINGSBOARD_ADMIN_USERNAME calm;
     THINGSBOARD_ADMIN_PASSWORD := THINGSBOARD_ADMIN_PASSWORD calm |}.

(** A device list with a [null] element after the light. *)
Definition null_after_light : InputPayload :=
  {| pl_devices := Some [Some (mkReqDevice "dev-light"); None];
     pl_commands := None |}.

(** The registry raises on its second statement only. *)
Definition registry_hiccup : Env :=
  {| sqlite_error := fun n =>
       match n with
       | 1%nat => Some (mkError "database is locked" None)
       | _ => None
       end;
     Date_now := Date_now calm;
     jwt_decode := jwt_decode calm;
     jwt_verify := jwt_verify calm;
     axios_post_login := axios_post_login calm;
     axios_get_timeseries := axios_get_timeseries calm;
     axios_get_attributes := axios_get_attributes calm;
     axios_post_rpc := axios_post_rpc calm;
     THINGSBOARD_ADMIN_USERNAME := THINGSBOARD_ADMIN_USERNAME calm;
     THINGSBOARD_ADMIN_PASSWORD := THINGSBOARD_ADMIN_PASSWORD calm |}.

(** * Properties *)

(** ** Membership tests *)

Lemma includes_spec (x : string) (l : list string) :
  includes x l = true ↔ x ∈ l.
Proof.
  unfold includes. rewrite existsb_exists. split.
  - intros (y & Hy & Heq). apply String.eqb_eq in Heq. subst y.
    by apply list_elem_of_In.
  - intros Hx. exists x. split; [by apply list_elem_of_In | apply String.eqb_refl].
Qed.

Lemma includes_false (x : string) (l : list string) :
  includes x l = false ↔ x ∉ l.
Proof.
  rewrite <- includes_spec. destruct (includes x l); split; congruence.
Qed.

(** ** SYNC translation *)

Lemma type_and_traits_policy (caps : list string) :
  SyncPolicy caps (fst (type_and_traits caps)) (snd (type_and_traits caps)).
Proof.
  unfold type_and_traits.
  destruct (includes "light" caps) eqn:Hl, (includes "dimmer" caps) eqn:Hd;
    simpl; try (apply Policy_light_dimmer; by apply includes_spec).
  - apply Policy_light; [by apply includes_spec | by apply includes_false].
  - apply includes_false in Hl, Hd.
    destruct (includes "fan" caps) eqn:Hf; simpl.
    { apply Policy_fan; auto. left. by apply includes_spec. }
    destruct (includes "speed" caps) eqn:Hs; simpl.
    { apply Policy_fan; auto. right. by apply includes_spec. }
    apply includes_false in Hf, Hs.
    destruct (includes "outlet" caps) eqn:Ho.
    + apply Policy_outlet; auto. by apply includes_spec.
    + apply Policy_fallback; auto. by apply includes_false.
Qed.

Lemma convertToGoogleDevice_id (d : Device) :
  gd_id (convertToGoogleDevice d) = device_uuid d.
Proof.
  unfold convertToGoogleDevice. by destruct (type_and_traits (caps_of d)).
Qed.

(** C1.  For every device, whatever its capability list (empty, missing or
    unrecognized included), [convertToGoogleDevice] returns a descriptor
    for that device whose type and traits are the ones the priority
    policy assigns: LIGHT with [OnOff] (plus [Brightness] exactly when
    'dimmer' is present) if 'light' or 'dimmer' is listed; else FAN with
    [OnOff, FanSpeed] if 'fan' or 'speed' is listed; else OUTLET with
    [OnOff], whether or not 'outlet' is listed. *)
Theorem C1_convertToGoogleDevice_policy (d : Device) :
  gd_id (convertToGoogleDevice d) = device_uuid d ∧
  SyncPolicy (caps_of d)
    (gd_type (convertToGoogleDevice d))
    (gd_traits (convertToGoogleDevice d)).
Proof.
  unfold convertToGoogleDevice.
  pose proof (type_and_traits_policy (caps_of d)) as H.
  destruct (type_and_traits (caps_of d)) as [ty tr]. simpl in *. by split.
Qed.

(** The policy is a function of the capability list: the descriptor's
    type and traits are the only ones it allows. *)
Lemma SyncPolicy_functional (caps : list string) ty tr ty' tr' :
  SyncPolicy caps ty tr -> SyncPolicy caps ty' tr' -> ty = ty' ∧ tr = tr'.
Proof.
  intros H H'. destruct H; destruct H'; try done; try tauto.
Qed.

(** The scenario of the specification: ["light","dimmer"]. *)
Example light_dimmer_descriptor :
  type_and_traits ["light"; "dimmer"] =
  (TYPE_LIGHT, [TRAIT_OnOff; TRAIT_Brightness]).
Proof. reflexivity. Qed.

(** ** The EXECUTE translation *)

Lemma has_fan_includes (d : Device) :
  (includes "fan" (caps_of d) || includes "speed" (caps_of d)) = true
  ↔ has_fan d.
Proof.
  unfold has_fan. rewrite orb_true_iff, !includes_spec. tauto.
Qed.

(** The six enumerated labels map to their number. *)
Lemma speed_lookup_enumerated :
  speed_lookup (Some (SStr "speed_0")) = SpeedNum 0 ∧
  speed_lookup (Some (SStr "speed_1")) = SpeedNum 1 ∧
  speed_lookup (Some (SStr "speed_2")) = SpeedNum 2 ∧
  speed_lookup (Some (SStr "speed_3")) = SpeedNum 3 ∧
  speed_lookup (Some (SStr "speed_4")) = SpeedNum 4 ∧
  speed_lookup (Some (SStr "speed_5")) = SpeedNum 5.
Proof. repeat split. Qed.

Lemma assoc_None (k : string) (l : list (string * Z)) :
  k ∉ map fst l -> assoc k l = None.
Proof.
  induction l as [|[k' v] l IH]; simpl; [done|].
  intros Hk. destruct (String.eqb k k') eqn:Heq.
  - apply String.eqb_eq in Heq. subst. exfalso. apply Hk. left.
  - apply IH. intros Hin. apply Hk. by right.
Qed.

(** A label that is neither enumerated nor the name of a member of
    [Object.prototype] maps to 0. *)
Lemma speed_lookup_default (label : string) :
  label ∉ map fst speedMap_own ->
  label ∉ Object_prototype_keys ->
  speed_lookup (Some (SStr label)) = SpeedNum 0.
Proof.
  intros Hown Hproto. unfold speed_lookup. simpl to_string.
  rewrite (assoc_None _ _ Hown).
  apply includes_false in Hproto. by rewrite Hproto.
Qed.

(** On a fan device the fan-speed command always translates to
    [setFanSpeed], with the looked-up speed and the label echoed. *)
Lemma fan_speed_translation (d : Device) (p : Params) :
  has_fan d ->
  convertGoogleCommandToRpc CMD_SetFanSpeed (Some p) d =
    Ok (Some {| method := "setFanSpeed";
                params := ParamsSpeed (speed_lookup (p_fanSpeed p));
                resultState := StateFanSpeed (p_fanSpeed p) |}).
Proof.
  intros Hfan. apply has_fan_includes in Hfan.
  unfold convertGoogleCommandToRpc. simpl. by rewrite Hfan.
Qed.

(** The scenario of the specification: 'speed_3' on a ["fan","speed"]
    device. *)
Example fan_speed_3 :
  convertGoogleCommandToRpc CMD_SetFanSpeed (Some (fan_speed_params "speed_3"))
    fan_device =
  Ok (Some {| method := "setFanSpeed";
              params := ParamsSpeed (SpeedNum 3);
              resultState := StateFanSpeed (Some (SStr "speed_3")) |}).
Proof. reflexivity. Qed.

(** C4.  On a ["fan","speed"] device the fan-speed command with the label
    'constructor', which is not one of 'speed_0' .. 'speed_5', is
    translated to [setFanSpeed] with the label echoed, but its speed is not
    0: the lookup [speedMap['constructor']] finds the member inherited from
    [Object.prototype], a truthy value, so [|| 0] does not apply. *)
Theorem C4_fan_speed_inherited_label :
  ("constructor" ∉ map fst speedMap_own) ∧
  convertGoogleCommandToRpc CMD_SetFanSpeed
    (Some (fan_speed_params "constructor")) fan_device =
  Ok (Some {| method := "setFanSpeed";
              params := ParamsSpeed (SpeedInherited "constructor");
              resultState := StateFanSpeed (Some (SStr "constructor")) |}) ∧
  SpeedInherited "constructor" ≠ SpeedNum 0.
Proof.
  split; [|split].
  - apply includes_false. reflexivity.
  - reflexivity.
  - discriminate.
Qed.

(** A command that is unsupported for a device translates to the
    sentinel, whatever its parameters (even none). *)
Lemma unsupported_sentinel (googleCommand : string) (p : option Params)
    (d : Device) :
  unsupported googleCommand d ->
  convertGoogleCommandToRpc googleCommand p d = Ok None.
Proof.
  intros [[-> Hfan] | Hvoc]; unfold convertGoogleCommandToRpc.
  - simpl. rewrite <- has_fan_includes in Hfan.
    by destruct (includes "fan" (caps_of d) || includes "speed" (caps_of d)).
  - destruct (String.eqb googleCommand CMD_OnOff) eqn:H1.
    { apply String.eqb_eq in H1. subst. exfalso. apply Hvoc.
      unfold vocabulary. set_solver. }
    destruct (String.eqb googleCommand CMD_SetFanSpeed) eqn:H2.
    { apply String.eqb_eq in H2. subst. exfalso. apply Hvoc.
      unfold vocabulary. set_solver. }
    destruct (String.eqb googleCommand CMD_BrightnessAbsolute) eqn:H3.
    { apply String.eqb_eq in H3. subst. exfalso. apply Hvoc.
      unfold vocabulary. set_solver. }
    reflexivity.
Qed.

(** ** The registry, when it answers *)

Section Collaborators.

Context (E : Env).

Lemma same_tables_refl (w : World) : same_tables w w.
Proof. by split. Qed.

Lemma same_tables_trans (w1 w2 w3 : World) :
  same_tables w1 w2 -> same_tables w2 w3 -> same_tables w1 w3.
Proof. intros [? ?] [? ?]. split; congruence. Qed.

Lemma same_tables_bump (w : World) : same_tables w (bump w).
Proof. by split. Qed.

Lemma lookup_device_same (w w' : World) (k : string) :
  same_tables w w' -> lookup_device w' k = lookup_device w k.
Proof. intros [Hd _]. unfold lookup_device. by rewrite Hd. Qed.

Lemma owned_row_same (w w' : World) (link : LinkRow) (k : string) :
  same_tables w w' -> owned_row w' link k = owned_row w link k.
Proof. intros H. unfold owned_row. by rewrite (lookup_device_same _ _ _ H). Qed.

Lemma sqlite_run_ok (w : World) :
  db_ok E -> sqlite_run E w = (Ok tt, bump w).
Proof.
  intros Hdb. unfold sqlite_run, bind, tick. by rewrite Hdb.
Qed.

Lemma findByUuid_ok (deviceUuid : string) (w : World) :
  db_ok E ->
  DeviceModel_findByUuid E deviceUuid w =
    (Ok (option_map parse_row (lookup_device w deviceUuid)), bump w).
Proof.
  intros Hdb. unfold DeviceModel_findByUuid, bind.
  by rewrite (sqlite_run_ok _ Hdb).
Qed.

Lemma findByAgentUserId_ok (agent : string) (w : World) :
  db_ok E ->
  GoogleAccountLinkModel_findByAgentUserId E agent w =
    (Ok (lookup_link w agent), bump w).
Proof.
  intros Hdb. unfold GoogleAccountLinkModel_findByAgentUserId, bind.
  by rewrite (sqlite_run_ok _ Hdb).
Qed.

Lemma findAllForSync_ok (user : Z) (w : World) :
  db_ok E ->
  DeviceModel_findAllForSync E user w =
    (Ok (map sync_row
           (order_by_provisioned_at
              (List.filter (owned_active user) (tbl_devices w)))),
     bump w).
Proof.
  intros Hdb. unfold DeviceModel_findAllForSync, bind.
  by rewrite (sqlite_run_ok _ Hdb).
Qed.

Lemma updateLastSync_ok (agent : string) (w : World) :
  db_ok E ->
  fst (GoogleAccountLinkModel_updateLastSync E agent w) = Ok tt.
Proof.
  intros Hdb. unfold GoogleAccountLinkModel_updateLastSync, now, bind.
  simpl. by rewrite (sqlite_run_ok _ Hdb).
Qed.

(** ** The gateway never touches the registry *)

Lemma login_frame (u p : option string) (w : World) :
  same_tables w (snd (thingsboardService_login E u p w)).
Proof.
  unfold thingsboardService_login, try_catch, bind, of_outcome, tick, ret, throw.
  simpl. repeat case_match; simplify_eq; by split.
Qed.

Lemma refresh_admin_token_frame (w : World) :
  same_tables w (snd (refresh_admin_token E w)).
Proof.
  unfold refresh_admin_token, bind.
  pose proof (login_frame (THINGSBOARD_ADMIN_USERNAME E)
                (THINGSBOARD_ADMIN_PASSWORD E) w) as H.
  destruct (thingsboardService_login E _ _ w) as [[r|e] w1]; simpl in *; [|done].
  destruct H as [H1 H2]. split; simpl; congruence.
Qed.

Lemma getAdminToken_frame (w : World) :
  same_tables w (snd (thingsboardService_getAdminToken E w)).
Proof.
  unfold thingsboardService_getAdminToken, bind, get.
  destruct (truthy_opt (adminToken w)) as [cached|];
    [destruct (truthy_Z (adminTokenExpiry w)) as [expiry|]|];
    try apply refresh_admin_token_frame.
  unfold now, bind, tick, ret. simpl.
  destruct (Date_now E (calls w) <? expiry); [by split|].
  apply (same_tables_trans _ (bump w)); [apply same_tables_bump|].
  apply refresh_admin_token_frame.
Qed.

(** A call that goes through [getAdminToken] and then one request. *)
Lemma with_token_frame {A} (request : nat -> string -> Outcome A) (w : World) :
  same_tables w
    (snd ((let* token := thingsboardService_getAdminToken E in
           let* n := tick in
           of_outcome (request n token)) w)).
Proof.
  unfold bind. pose proof (getAdminToken_frame w) as H.
  destruct (thingsboardService_getAdminToken E w) as [[t|e] w1]; simpl in *;
    [|done].
  unfold of_outcome. destruct (request (calls w1) t); simpl;
    (eapply same_tables_trans; [exact H | apply same_tables_bump]).
Qed.

(** Reading telemetry never raises: a failure is answered [null]. *)
Lemma getLatestTelemetry_total (deviceId : option string) (keys : list string)
    (w : World) :
  ∃ t w', thingsboardService_getLatestTelemetry E deviceId keys w = (Ok t, w')
          ∧ same_tables w w'.
Proof.
  unfold thingsboardService_getLatestTelemetry, try_catch.
  pose proof (with_token_frame
    (fun n token => axios_get_timeseries E n (interpolate deviceId)
                      (join_comma keys) token) w) as H.
  simpl in H.
  match goal with |- context [match ?m with _ => _ end] =>
    destruct m as [[t|e] w1] end; simpl in *; eauto.
Qed.

Lemma getDeviceAttributes_total (deviceId : option string) (scope : string)
    (w : World) :
  ∃ a w', thingsboardService_getDeviceAttributes E deviceId scope w = (Ok a, w')
          ∧ same_tables w w'.
Proof.
  unfold thingsboardService_getDeviceAttributes, try_catch.
  pose proof (with_token_frame
    (fun n token => axios_get_attributes E n (interpolate deviceId) scope token)
    w) as H.
  simpl in H.
  match goal with |- context [match ?m with _ => _ end] =>
    destruct m as [[t|e] w1] end; simpl in *; eauto.
Qed.

Lemma sendRpcCommand_frame (deviceId : option string) (method : string)
    (params : RpcParams) (w : World) :
  same_tables w
    (snd (thingsboardService_sendRpcCommand E deviceId method params w)).
Proof.
  unfold thingsboardService_sendRpcCommand, try_catch.
  pose proof (with_token_frame
    (fun n token => axios_post_rpc E n (interpolate deviceId)
                      (mkRpcBody method params true 5000) token) w) as H.
  simpl in H.
  match goal with |- context [match ?m with _ => _ end] =>
    destruct m as [[t|e] w1] end; simpl in *; eauto.
Qed.

Lemma login_ok (u p : option string) (w : World) :
  gateway_ok E -> ∃ r, fst (thingsboardService_login E u p w) = Ok r.
Proof.
  intros [Hlogin _].
  destruct (Hlogin (calls w) u p) as (d & t & Hd & Ht).
  unfold thingsboardService_login, try_catch, bind, of_outcome, tick. simpl.
  rewrite Hd. simpl. rewrite Ht. simpl. eauto.
Qed.

Lemma getAdminToken_ok (w : World) :
  gateway_ok E -> ∃ t, fst (thingsboardService_getAdminToken E w) = Ok t.
Proof.
  intros Hgw.
  assert (Hrefresh : ∀ w0, ∃ t, fst (refresh_admin_token E w0) = Ok t).
  { intros w0. unfold refresh_admin_token, bind.
    destruct (login_ok (THINGSBOARD_ADMIN_USERNAME E)
                (THINGSBOARD_ADMIN_PASSWORD E) w0 Hgw) as [r Hr].
    destruct (thingsboardService_login E _ _ w0) as [[r'|e] w1]; simpl in *;
      [|done]. eauto. }
  unfold thingsboardService_getAdminToken, bind, get.
  destruct (truthy_opt (adminToken w)) as [cached|];
    [destruct (truthy_Z (adminTokenExpiry w)) as [expiry|]|]; auto.
  unfold now, bind, tick, ret. simpl.
  destruct (Date_now E (calls w) <? expiry); simpl; eauto.
Qed.

Lemma sendRpcCommand_ok (deviceId : option string) (method : string)
    (params : RpcParams) (w : World) :
  gateway_ok E ->
  ∃ w', thingsboardService_sendRpcCommand E deviceId method params w = (Ok tt, w')
        ∧ same_tables w w'.
Proof.
  intros Hgw.
  pose proof (sendRpcCommand_frame deviceId method params w) as Hframe.
  destruct (thingsboardService_sendRpcCommand E deviceId method params w)
    as [r w'] eqn:Hrun.
  exists w'. split; [|exact Hframe]. f_equal.
  revert Hrun. unfold thingsboardService_sendRpcCommand, try_catch, bind.
  destruct (getAdminToken_ok w Hgw) as [t Ht].
  destruct (thingsboardService_getAdminToken E w) as [[t'|e] w1]; simpl in *;
    [|done].
  destruct Hgw as [_ Hrpc]. rewrite Hrpc. simpl. unfold ret.
  intros [= <- _]. reflexivity.
Qed.

End Collaborators.

(** ** QUERY *)

Section Query.

Context (E : Env) (link : LinkRow).

Lemma later_refl (w : World) : later w w.
Proof. split; [by split | done]. Qed.

Lemma later_trans (w1 w2 w3 : World) : later w1 w2 -> later w2 w3 -> later w1 w3.
Proof.
  intros [H1 Hc1] [H2 Hc2]. split; [by eapply same_tables_trans | lia].
Qed.

Lemma later_bump (w : World) : later w (bump w).
Proof. split; [by split | simpl; lia]. Qed.

(** The registry lookup answers, or raises what the driver raised. *)
Lemma findByUuid_cases (deviceUuid : string) (w : World) :
  DeviceModel_findByUuid E deviceUuid w
  = (Ok (option_map parse_row (lookup_device w deviceUuid)), bump w)
  ∨ ∃ e, DeviceModel_findByUuid E deviceUuid w = (Throw e, bump w)
         ∧ sqlite_error E (calls w) = Some e.
Proof.
  unfold DeviceModel_findByUuid, sqlite_run, bind, tick. simpl.
  destruct (sqlite_error E (calls w)) as [e|]; simpl; eauto.
Qed.

(** The admin login raises only when the gateway does not accept it. *)
Lemma refresh_admin_token_cases (w : World) :
  (∃ token w', refresh_admin_token E w = (Ok token, w') ∧ later w w')
  ∨ (∃ e, refresh_admin_token E w = (Throw e, bump w)
          ∧ ¬ login_accepted E (calls w)).
Proof.
  unfold refresh_admin_token, thingsboardService_login, try_catch, bind,
    of_outcome, tick, now, set_admin, modify, get, ret, throw, login_accepted.
  simpl.
  destruct (axios_post_login E (calls w) _ _) as [[d|]|e] eqn:Hlogin; simpl.
  - destruct (truthy_opt (ld_token d)) as [t|] eqn:Ht; simpl.
    + left. eexists _, _. split; [reflexivity|].
      split; [by split | simpl; lia].
    + right. eexists. split; [reflexivity|].
      intros (d' & t' & Hd & Ht'). simplify_eq.
  - right. eexists. split; [reflexivity|].
    intros (d' & t' & Hd & Ht'). simplify_eq.
  - right. eexists. split; [reflexivity|].
    intros (d' & t' & Hd & Ht'). simplify_eq.
Qed.

Lemma getAdminToken_cases (w : World) :
  (∃ token w', thingsboardService_getAdminToken E w = (Ok token, w')
               ∧ later w w')
  ∨ (∃ e w' n, thingsboardService_getAdminToken E w = (Throw e, w')
               ∧ later w w' ∧ (calls w <= n)%nat ∧ ¬ login_accepted E n).
Proof.
  assert (Hrefresh : ∀ w0, later w w0 ->
    (∃ token w', refresh_admin_token E w0 = (Ok token, w') ∧ later w w')
    ∨ (∃ e w' n, refresh_admin_token E w0 = (Throw e, w')
                 ∧ later w w' ∧ (calls w <= n)%nat ∧ ¬ login_accepted E n)).
  { intros w0 H0.
    destruct (refresh_admin_token_cases w0)
      as [(t & w' & Hrun & Hl) | (e & Hrun & Hno)].
    - left. exists t, w'. split; [done|]. by eapply later_trans.
    - right. exists e, (bump w0), (calls w0). split; [done|].
      split; [eapply later_trans; [exact H0 | apply later_bump]|].
      split; [apply H0 | done]. }
  unfold thingsboardService_getAdminToken, bind, get.
  destruct (truthy_opt (adminToken w)) as [cached|];
    [destruct (truthy_Z (adminTokenExpiry w)) as [expiry|]|];
    try (apply Hrefresh, later_refl).
  unfold now, bind, tick, ret. simpl.
  destruct (Date_now E (calls w) <? expiry).
  - left. eexists _, _. split; [reflexivity | apply later_bump].
  - apply (Hrefresh (bump w)), later_bump.
Qed.

Lemma QUERY_KEYS_joined : join_comma TELEMETRY_KEYS = QUERY_KEYS.
Proof. reflexivity. Qed.

(** A telemetry read never raises, and hands over what the gateway
    answered or [null]. *)
Lemma getLatestTelemetry_read (tb : string) (w : World) :
  ∃ t w',
    thingsboardService_getLatestTelemetry E (Some tb) TELEMETRY_KEYS w
    = (Ok t, w')
    ∧ later w w' ∧ telemetry_read E (calls w) tb t.
Proof.
  unfold thingsboardService_getLatestTelemetry, try_catch, bind.
  rewrite QUERY_KEYS_joined. cbn [interpolate].
  destruct (getAdminToken_cases w)
    as [(tok & w1 & Hrun & Hl) | (e & w1 & n & Hrun & Hl & Hn & Hno)];
    rewrite Hrun; simpl.
  - unfold tick, of_outcome, ret, throw. simpl.
    destruct (axios_get_timeseries E (calls w1) tb QUERY_KEYS tok) as [t|e]
      eqn:Hget; simpl.
    + exists t, (bump w1). split; [reflexivity|].
      split; [eapply later_trans; [exact Hl | apply later_bump]|].
      exists (calls w1). split; [apply Hl|]. left. eauto.
    + exists None, (bump w1). split; [reflexivity|].
      split; [eapply later_trans; [exact Hl | apply later_bump]|].
      exists (calls w1). split; [apply Hl|]. right. split; [done|]. left. eauto.
  - exists None, w1. split; [reflexivity|]. split; [done|].
    exists n. split; [done|]. right. split; [done|]. by right.
Qed.

Lemma getDeviceAttributes_later (deviceId : option string) (scope : string)
    (w : World) :
  ∃ a w', thingsboardService_getDeviceAttributes E deviceId scope w = (Ok a, w')
          ∧ later w w'.
Proof.
  unfold thingsboardService_getDeviceAttributes, try_catch, bind.
  destruct (getAdminToken_cases w)
    as [(tok & w1 & Hrun & Hl) | (e & w1 & n & Hrun & Hl & _)];
    rewrite Hrun; simpl.
  - unfold tick, of_outcome, ret, throw. simpl.
    destruct (axios_get_attributes E (calls w1) _ scope tok); simpl;
      eexists _, (bump w1); (split; [reflexivity|]);
      (eapply later_trans; [exact Hl | apply later_bump]).
  - exists None, w1. by split.
Qed.

Lemma telemetry_read_later (since since' : nat) (tb : string)
    (t : option (gmap string (list TsPoint))) :
  (since <= since')%nat -> telemetry_read E since' tb t -> telemetry_read E since tb t.
Proof.
  intros Hle (n & Hn & H). exists n. split; [lia | done].
Qed.

Lemma query_entry_later (w w' : World) (k : string) (e : QueryEntry) :
  later w w' -> query_entry E w' link k e -> query_entry E w link k e.
Proof.
  intros [Hs Hc]. unfold query_entry. rewrite (owned_row_same _ _ _ _ Hs).
  intros [(He & n & Hn & Herr) | H].
  - left. split; [done|]. exists n. split; [lia | done].
  - right. destruct (owned_row w link k) as [r|]; [|done].
    destruct H as (t & He & Ht). exists t. split; [done|].
    by eapply telemetry_read_later.
Qed.

(** One identifier: the [try] never raises, leaves the registry alone and
    assigns the entry the identifier is due. *)
Lemma handleQuery_lookup_run (k : string) (w : World)
    (m : gmap string QueryEntry) :
  ∃ w' e,
    handleQuery_lookup E link k (w, m) = (Ok tt, (w', assign k e m))
    ∧ later w w'
    ∧ query_entry E w link k e.
Proof.
  unfold handleQuery_lookup, try_catch, bind, liftW, query_entry, owned_row.
  simpl.
  destruct (findByUuid_cases k w) as [Hfind | (err & Hfind & Herr)];
    rewrite Hfind; simpl.
  - destruct (lookup_device w k) as [r|] eqn:Hr; simpl.
    + destruct (r_owner_user_id r =? l_user_id link) eqn:Hown; simpl.
      * destruct (getLatestTelemetry_read (r_thingsboard_device_id r) (bump w))
          as (t & w1 & Ht & Hl1 & Hread).
        rewrite Ht. simpl.
        destruct (getDeviceAttributes_later (Some (r_thingsboard_device_id r))
                    "SERVER_SCOPE" w1) as (a & w2 & Ha & Hl2).
        rewrite Ha. simpl.
        eexists w2, _. split; [reflexivity|]. split.
        -- eapply later_trans; [apply later_bump|].
           by eapply later_trans.
        -- right. exists t. split; [reflexivity|].
           eapply telemetry_read_later; [|exact Hread]. simpl. lia.
      * eexists (bump w), _. split; [reflexivity|].
        split; [apply later_bump | by right].
    + eexists (bump w), _. split; [reflexivity|].
      split; [apply later_bump | by right].
  - eexists (bump w), _. split; [reflexivity|].
    split; [apply later_bump|]. left. split; [done|].
    exists (calls w). split; [done | by rewrite Herr].
Qed.

Lemma assign_lookup_ne (k k' : string) (e : QueryEntry)
    (m : gmap string QueryEntry) :
  k' ≠ k -> assign k e m !! k' = m !! k'.
Proof.
  intros Hne. unfold assign. destruct (String.eqb k "__proto__"); [done|].
  by rewrite lookup_insert_ne.
Qed.

Lemma assign_lookup (k : string) (e : QueryEntry) (m : gmap string QueryEntry) :
  k ≠ "__proto__" -> assign k e m !! k = Some e.
Proof.
  intros Hne. unfold assign.
  destruct (String.eqb k "__proto__") eqn:Hk.
  - by apply String.eqb_eq in Hk.
  - by rewrite lookup_insert_eq.
Qed.

Lemma assign_proto (k : string) (e : QueryEntry) (m : gmap string QueryEntry) :
  assign k e m !! "__proto__" = m !! "__proto__".
Proof.
  unfold assign. destruct (String.eqb k "__proto__") eqn:Hk; [done|].
  apply String.eqb_neq in Hk. by rewrite lookup_insert_ne.
Qed.

Lemma dom_assign (k : string) (e : QueryEntry) (m : gmap string QueryEntry) :
  dom (assign k e m) = dom m ∪ ({[k]} ∖ {["__proto__"]}).
Proof.
  unfold assign. destruct (String.eqb k "__proto__") eqn:Hk.
  - apply String.eqb_eq in Hk. subst. apply set_eq; intros x; set_unfold; tauto.
  - apply String.eqb_neq in Hk. rewrite dom_insert_L. apply set_eq; intros x; set_unfold; intuition congruence.
Qed.

(** The whole loop over a list of device objects: every requested
    identifier other than '__proto__' ends with the entry it is due, and
    nothing else is written. *)
Lemma query_loop (devs : list ReqDevice) :
  ∀ (w : World) (m : gmap string QueryEntry),
  ∃ w' m',
    for_of (Some <$> devs) (handleQuery_device E link) (w, m)
    = (Ok tt, (w', m'))
    ∧ later w w'
    ∧ dom m' = dom m ∪ answered_ids devs
    ∧ (∀ k, k ∉ ids_of devs -> m' !! k = m !! k)
    ∧ m' !! "__proto__" = m !! "__proto__"
    ∧ (∀ k, k ∈ ids_of devs -> k ≠ "__proto__" ->
            ∃ e, m' !! k = Some e ∧ query_entry E w link k e).
Proof.
  unfold answered_ids, ids_of.
  induction devs as [|dev devs IH]; intros w m.
  - exists w, m. simpl. split; [reflexivity|]. split; [apply later_refl|].
    split; [apply set_eq; intros x; set_unfold; tauto|]. split; [done|]. split; [done|].
    intros k Hk. inversion Hk.
  - destruct (handleQuery_lookup_run (rd_id dev) w m)
      as (w1 & e & Hrun & Hl1 & He).
    destruct (IH w1 (assign (rd_id dev) e m))
      as (w2 & m2 & Hloop & Hl2 & Hdom & Hout & Hproto & Hin).
    exists w2, m2.
    split.
    { rewrite fmap_cons. cbn [for_of handleQuery_device]. unfold bind.
      by rewrite Hrun. }
    split; [by eapply later_trans|].
    split; [rewrite Hdom, dom_assign, fmap_cons, list_to_set_cons; apply set_eq; intros x; set_unfold; tauto|].
    split.
    { intros k Hk. rewrite fmap_cons, not_elem_of_cons in Hk.
      destruct Hk as [Hne Hk]. rewrite (Hout k Hk).
      by apply assign_lookup_ne. }
    split; [by rewrite Hproto, assign_proto|].
    intros k Hk Hp.
    destruct (decide (k ∈ rd_id <$> devs)) as [Hrest|Hrest].
    + destruct (Hin k Hrest Hp) as (e' & He' & Hq). exists e'.
      split; [done|]. by eapply query_entry_later.
    + rewrite fmap_cons, elem_of_cons in Hk.
      destruct Hk as [-> | Hk]; [|done].
      exists e. split; [|done]. by rewrite (Hout _ Hrest), assign_lookup.
Qed.


Lemma findByAgentUserId_answered (agent : string) (w : World) :
  sqlite_error E (calls w) = None ->
  GoogleAccountLinkModel_findByAgentUserId E agent w
  = (Ok (lookup_link w agent), bump w).
Proof.
  intros Hok.
  unfold GoogleAccountLinkModel_findByAgentUserId, sqlite_run, bind, tick.
  simpl. by rewrite Hok.
Qed.

(** A QUERY of a resolved caller whose link lookup is answered, with a
    list of device objects, is answered 200 with the map the loop has
    built. *)
Lemma handleQuery_resolved (w : World) (req : Request) (agent : string)
    (pl : InputPayload) (devs : list ReqDevice) :
  resolved E w req agent link pl ->
  sqlite_error E (calls w) = None ->
  pl_devices pl = Some (Some <$> devs) ->
  ∃ st,
    fst (handleQuery E req w) = Ok (respond 200 req (QueryPayload st))
    ∧ dom st = answered_ids devs
    ∧ st !! "__proto__" = None
    ∧ (∀ k, k ∈ ids_of devs -> k ≠ "__proto__" ->
            ∃ e, st !! k = Some e ∧ query_entry E w link k e).
Proof.
  intros (Hagent & Hlink & input & rest & Hin & Hpl) Hok Hids.
  destruct (query_loop devs (bump w) ∅)
    as (w' & st & Hloop & Hl & Hdom & _ & Hproto & Hent).
  exists st.
  unfold handleQuery, try_catch, handleQuery_try.
  rewrite Hagent. unfold bind at 1.
  rewrite (findByAgentUserId_answered _ _ Hok), Hlink, Hin, Hpl.
  unfold with_local, bind, iterable. rewrite Hids. simpl.
  rewrite Hloop. simpl.
  split; [reflexivity|]. split; [rewrite Hdom; apply set_eq; intros x; set_unfold; tauto|].
  split; [by rewrite Hproto|].
  intros k Hk Hp. destruct (Hent k Hk Hp) as (e & He & Hq).
  exists e. split; [done|].
  eapply query_entry_later; [apply later_bump | done].
Qed.

(** With the registry responding no entry is [hardError]. *)
Lemma query_entry_db_ok (w : World) (k : string) (e : QueryEntry) :
  db_ok E ->
  query_entry E w link k e ->
  match owned_row w link k with
  | Some r =>
      ∃ telemetry,
        e = QuerySuccess (r_is_online r =? 1)
              (convertToGoogleState (parse_row r) telemetry None)
        ∧ telemetry_read E (calls w) (r_thingsboard_device_id r) telemetry
  | None => e = QueryError "deviceNotFound"
  end.
Proof.
  intros Hdb [(_ & n & _ & Herr) | H]; [|done].
  rewrite Hdb in Herr. by destruct Herr.
Qed.


End Query.

(** The scenario of the specification: QUERY for an unknown identifier. *)
Example query_unknown_device :
  fst (handleQuery calm
         (envelope alice INTENT_QUERY (query_payload ["dev-nowhere"])) home)
  = Ok (respond 200
          (envelope alice INTENT_QUERY (query_payload ["dev-nowhere"]))
          (QueryPayload {[ "dev-nowhere" := QueryError "deviceNotFound" ]})).
Proof. vm_compute. reflexivity. Qed.

(** C6.  The identifier '__proto__' is never answered.  In a QUERY of a
    resolved caller whose link lookup is answered, a device object with
    the identifier '__proto__', which the caller does not own, gets no
    entry at all instead of [deviceNotFound]: the assignment
    [deviceStates['__proto__'] = ...] replaces the prototype of the
    object literal and creates no property. *)
Theorem C6_proto_identifier_no_entry (E : Env) (w : World) (req : Request)
    (agent : string) (link : LinkRow) (pl : InputPayload)
    (devs : list ReqDevice) :
  resolved E w req agent link pl ->
  sqlite_error E (calls w) = None ->
  pl_devices pl = Some (Some <$> devs) ->
  "__proto__" ∈ ids_of devs ->
  owned_row w link "__proto__" = None ->
  ∃ st,
    fst (handleQuery E req w) = Ok (respond 200 req (QueryPayload st))
    ∧ st !! "__proto__" = None
    ∧ st !! "__proto__" ≠ Some (QueryError "deviceNotFound").
Proof.
  intros Hres Hok Hdevs _ _.
  destruct (handleQuery_resolved E link w req agent pl devs Hres Hok Hdevs)
    as (st & Hrun & _ & Hproto & _).
  exists st. split; [done|]. split; [done|]. by rewrite Hproto.
Qed.

(** A batch of the first user that names '__proto__' and the light: the
    answer has the light only. *)
Lemma C6_proto_identifier_no_entry_witness :
  ∃ st,
    fst (handleQuery calm
           (envelope alice INTENT_QUERY (query_payload ["__proto__"; "dev-light"]))
           home)
    = Ok (respond 200
            (envelope alice INTENT_QUERY
               (query_payload ["__proto__"; "dev-light"]))
            (QueryPayload st))
    ∧ st !! "__proto__" = None
    ∧ st !! "__proto__" ≠ Some (QueryError "deviceNotFound").
Proof.
  apply (C6_proto_identifier_no_entry calm home _ "agent_1" alice_link
           (query_payload ["__proto__"; "dev-light"])
           (map mkReqDevice ["__proto__"; "dev-light"])).
  - split; [reflexivity|]. split; [reflexivity|].
    eexists _, _. split; reflexivity.
  - reflexivity.
  - reflexivity.
  - apply list_elem_of_here.
  - reflexivity.
Defined.

Example query_proto_and_light :
  fst (handleQuery calm
         (envelope alice INTENT_QUERY (query_payload ["__proto__"; "dev-light"]))
         home)
  = Ok (respond 200
          (envelope alice INTENT_QUERY (query_payload ["__proto__"; "dev-light"]))
          (QueryPayload
             {[ "dev-light" :=
                  QuerySuccess true
                    {| on := true; currentFanSpeedSetting := Some "speed_3" |} ]})).
Proof. vm_compute. reflexivity. Qed.





(** With a gateway that answers, the state is the one its telemetry
    gives: the fan is on at speed 3. *)
Example query_fan_answered :
  fst (handleQuery calm
         (envelope alice INTENT_QUERY (query_payload ["dev-fan"])) home)
  = Ok (respond 200
          (envelope alice INTENT_QUERY (query_payload ["dev-fan"]))
          (QueryPayload
             {[ "dev-fan" :=
                  QuerySuccess true
                    (convertToGoogleState fan_device (Some sample_telemetry)
                       None) ]})).
Proof. vm_compute. reflexivity. Qed.

(** ** EXECUTE *)

(** With a parameter object the translation never raises. *)
Lemma convertGoogleCommandToRpc_total (googleCommand : string) (p : Params)
    (d : Device) :
  ∃ o, convertGoogleCommandToRpc googleCommand (Some p) d = Ok o.
Proof.
  unfold convertGoogleCommandToRpc, prop.
  repeat case_match; eauto.
Qed.

Section Execute.

Context (E : Env) (Hdb : db_ok E) (Hgw : gateway_ok E) (link : LinkRow).

Lemma device_entries_same (w w' : World) (c : Command) (dev : ReqDevice) :
  same_tables w w' -> device_entries w' link c dev = device_entries w link c dev.
Proof.
  intros Hs. unfold device_entries. by rewrite (owned_row_same _ _ _ _ Hs).
Qed.

(** One execution on a device that passed the ownership check pushes
    exactly one entry. *)
Lemma handleExecute_execution_run (deviceId : string) (d : Device)
    (e : Execution) (w : World) (acc : list CommandResult) :
  is_Some (ex_params e) ->
  ∃ w',
    handleExecute_execution E deviceId d e (w, acc)
    = (Ok tt, (w', (acc ++ [execution_entry deviceId d e])%list))
    ∧ same_tables w w'.
Proof.
  intros [p Hp].
  unfold handleExecute_execution, execution_entry, bind. rewrite Hp.
  destruct (convertGoogleCommandToRpc_total (ex_command e) p d) as [o Ho].
  rewrite Ho. simpl. destruct o as [rpc|].
  - unfold liftW. simpl.
    destruct (sendRpcCommand_ok E (thingsboard_device_id d) (method rpc)
                (params rpc) w Hgw) as (w' & Hsend & Hs).
    rewrite Hsend. simpl. exists w'. by split.
  - exists w. split; [reflexivity | apply same_tables_refl].
Qed.

Lemma executions_loop (deviceId : string) (d : Device) (es : list Execution) :
  Forall (fun e => is_Some (ex_params e)) es ->
  ∀ (w : World) (acc : list CommandResult),
  ∃ w',
    for_of es (handleExecute_execution E deviceId d) (w, acc)
    = (Ok tt, (w', (acc ++ map (execution_entry deviceId d) es)%list))
    ∧ same_tables w w'.
Proof.
  induction 1 as [|e es He Hes IH]; intros w acc.
  - exists w. simpl. rewrite app_nil_r.
    split; [reflexivity | apply same_tables_refl].
  - destruct (handleExecute_execution_run deviceId d e w acc He)
      as (w1 & Hrun & Hs1).
    destruct (IH w1 (acc ++ [execution_entry deviceId d e])%list)
      as (w2 & Hloop & Hs2).
    exists w2. split; [|by eapply same_tables_trans].
    cbn [for_of map]. unfold bind. rewrite Hrun, Hloop.
    by rewrite <- app_assoc.
Qed.

(** One device of one group: a single [deviceNotFound], or one entry per
    execution. *)
Lemma handleExecute_device_run (c : Command) (dev : ReqDevice) (w : World)
    (acc : list CommandResult) :
  is_Some (c_execution c) ->
  Forall (fun e => is_Some (ex_params e)) (executions_of c) ->
  ∃ w',
    handleExecute_device E link c dev (w, acc)
    = (Ok tt, (w', (acc ++ device_entries w link c dev)%list))
    ∧ same_tables w w'.
Proof.
  intros [es Hes] Hparams.
  unfold handleExecute_device, try_catch, bind, liftW, device_entries, owned_row.
  simpl. rewrite (findByUuid_ok E _ _ Hdb).
  destruct (lookup_device w (rd_id dev)) as [r|] eqn:Hr; simpl.
  - destruct (r_owner_user_id r =? l_user_id link) eqn:Hown; simpl.
    + unfold executions_of in *. rewrite Hes in *. simpl.
      destruct (executions_loop (rd_id dev) (parse_row r) es Hparams
                  (bump w) acc) as (w' & Hloop & Hs).
      rewrite Hloop. exists w'. split; [reflexivity|].
      eapply same_tables_trans; [apply same_tables_bump | exact Hs].
    + exists (bump w). split; [reflexivity | apply same_tables_bump].
  - exists (bump w). split; [reflexivity | apply same_tables_bump].
Qed.

Lemma devices_loop (c : Command) (devs : list ReqDevice) :
  is_Some (c_execution c) ->
  Forall (fun e => is_Some (ex_params e)) (executions_of c) ->
  ∀ (w : World) (acc : list CommandResult),
  ∃ w',
    for_of devs (handleExecute_device E link c) (w, acc)
    = (Ok tt, (w', (acc ++ flat_map (device_entries w link c) devs)%list))
    ∧ same_tables w w'.
Proof.
  intros Hes Hparams.
  induction devs as [|dev devs IH]; intros w acc.
  - exists w. simpl. rewrite app_nil_r.
    split; [reflexivity | apply same_tables_refl].
  - destruct (handleExecute_device_run c dev w acc Hes Hparams)
      as (w1 & Hrun & Hs1).
    destruct (IH w1 (acc ++ device_entries w link c dev)%list)
      as (w2 & Hloop & Hs2).
    exists w2. split; [|by eapply same_tables_trans].
    cbn [for_of flat_map]. unfold bind. rewrite Hrun, Hloop.
    rewrite <- app_assoc. do 4 f_equal.
    apply flat_map_ext. intros dev'. by apply device_entries_same.
Qed.

Lemma commands_loop (batch : list Command) :
  well_formed_batch batch ->
  ∀ (w : World) (acc : list CommandResult),
  ∃ w',
    for_of batch (handleExecute_command E link) (w, acc)
    = (Ok tt, (w', (acc ++ batch_entries w link batch)%list))
    ∧ same_tables w w'.
Proof.
  induction 1 as [|c batch (Hdevs & Hes & Hparams) Hwf IH]; intros w acc.
  - exists w. simpl. rewrite app_nil_r.
    split; [reflexivity | apply same_tables_refl].
  - destruct Hdevs as [devs Hdevs].
    destruct (devices_loop c devs Hes Hparams w acc) as (w1 & Hrun & Hs1).
    destruct (IH w1 (acc ++ flat_map (device_entries w link c) devs)%list)
      as (w2 & Hloop & Hs2).
    exists w2. split; [|by eapply same_tables_trans].
    cbn [for_of]. unfold bind at 1. unfold handleExecute_command at 1.
    unfold bind at 1. unfold iterable. rewrite Hdevs. simpl.
    rewrite Hrun, Hloop. unfold batch_entries. cbn [flat_map].
    unfold devices_of at 2. rewrite Hdevs.
    rewrite <- app_assoc. do 4 f_equal.
    apply flat_map_ext. intros c'. apply flat_map_ext. intros dev'.
    by apply device_entries_same.
Qed.

(** An authenticated, well-formed EXECUTE batch met by collaborators that
    answer is answered 200 with the entries of its groups, in request
    order. *)
Lemma handleExecute_resolved (w : World) (req : Request) (agent : string)
    (pl : InputPayload) (batch : list Command) :
  resolved E w req agent link pl ->
  pl_commands pl = Some batch ->
  well_formed_batch batch ->
  fst (handleExecute E req w)
  = Ok (respond 200 req (ExecutePayload (batch_entries w link batch))).
Proof.
  intros (Hagent & Hlink & input & rest & Hin & Hpl) Hbatch Hwf.
  destruct (commands_loop batch Hwf (bump w) []) as (w' & Hloop & Hs).
  unfold handleExecute, try_catch, handleExecute_try.
  rewrite Hagent. unfold bind at 1.
  rewrite (findByAgentUserId_ok E _ _ Hdb), Hlink, Hin, Hpl.
  unfold with_local, bind, iterable. rewrite Hbatch. simpl.
  rewrite Hloop. reflexivity.
Qed.

End Execute.

Lemma execution_entry_cases (deviceId : string) (d : Device) (e : Execution) :
  (∃ st, execution_entry deviceId d e = CommandSuccess [deviceId] true st)
  ∨ execution_entry deviceId d e = CommandError [deviceId] "functionNotSupported".
Proof.
  unfold execution_entry.
  destruct (convertGoogleCommandToRpc _ _ _) as [[rpc|]|]; eauto.
Qed.

(** C3, as the code has it.  A well-formed EXECUTE batch, answered for a
    resolved caller by collaborators that respond, yields the
    concatenation, in request order, of one segment per (group, device):
    a device that fails the ownership check contributes exactly one
    [deviceNotFound] entry however many executions it is paired with, and
    a found and owned device contributes exactly one entry (SUCCESS or
    [functionNotSupported]) per execution of its group. *)
Theorem C3_execute_entries (E : Env) (w : World) (req : Request)
    (agent : string) (link : LinkRow) (pl : InputPayload)
    (batch : list Command) :
  db_ok E ->
  gateway_ok E ->
  resolved E w req agent link pl ->
  pl_commands pl = Some batch ->
  well_formed_batch batch ->
  fst (handleExecute E req w)
  = Ok (respond 200 req (ExecutePayload (batch_entries w link batch)))
  ∧ (∀ c dev, owned_row w link (rd_id dev) = None ->
       device_entries w link c dev = [CommandError [rd_id dev] "deviceNotFound"])
  ∧ (∀ c dev, is_Some (owned_row w link (rd_id dev)) ->
       length (device_entries w link c dev) = length (executions_of c)
       ∧ Forall (fun x =>
                   (∃ st, x = CommandSuccess [rd_id dev] true st)
                   ∨ x = CommandError [rd_id dev] "functionNotSupported")
                (device_entries w link c dev)).
Proof.
  intros Hdb Hgw Hres Hbatch Hwf.
  split; [by eapply handleExecute_resolved|]. split.
  - intros c dev Hnone. unfold device_entries. by rewrite Hnone.
  - intros c dev [r Hr]. unfold device_entries. rewrite Hr. split.
    + apply length_map.
    + apply Forall_forall. intros x Hx.
      apply list_elem_of_In, in_map_iff in Hx. destruct Hx as (e & <- & _).
      apply execution_entry_cases.
Qed.

Lemma calm_db_ok : db_ok calm.
Proof. intros n. reflexivity. Qed.

Lemma calm_gateway_ok : gateway_ok calm.
Proof.
  split.
  - intros n u p. eexists _, _. split; reflexivity.
  - intros n i b t. reflexivity.
Qed.

Lemma alice_resolved (i : string) (pl : InputPayload) :
  resolved calm home (envelope alice i pl) "agent_1" alice_link pl.
Proof.
  split; [reflexivity|]. split; [reflexivity|].
  eexists _, _. split; reflexivity.
Qed.

(** The light, the fan and a device of another user, two executions. *)
Lemma C3_execute_entries_witness :
  fst (handleExecute calm
         (envelope alice INTENT_EXECUTE (execute_payload light_and_fan)) home)
  = Ok (respond 200
          (envelope alice INTENT_EXECUTE (execute_payload light_and_fan))
          (ExecutePayload (batch_entries home alice_link light_and_fan)))
  ∧ (∀ c dev, owned_row home alice_link (rd_id dev) = None ->
       device_entries home alice_link c dev
       = [CommandError [rd_id dev] "deviceNotFound"])
  ∧ (∀ c dev, is_Some (owned_row home alice_link (rd_id dev)) ->
       length (device_entries home alice_link c dev) = length (executions_of c)
       ∧ Forall (fun x =>
                   (∃ st, x = CommandSuccess [rd_id dev] true st)
                   ∨ x = CommandError [rd_id dev] "functionNotSupported")
                (device_entries home alice_link c dev)).
Proof.
  apply (C3_execute_entries calm home _ "agent_1" alice_link
           (execute_payload light_and_fan) light_and_fan).
  - intros n. reflexivity.
  - split.
    + intros n u p. eexists _, _. split; reflexivity.
    + intros n i b t. reflexivity.
  - split; [reflexivity|]. split; [reflexivity|].
    eexists _, _. split; reflexivity.
  - reflexivity.
  - repeat constructor; simpl; eauto.
Defined.

(** The entries of that batch: two for the light, two for the fan, one
    for the device of another user. *)
Example light_and_fan_entries :
  batch_entries home alice_link light_and_fan =
  [CommandSuccess ["dev-light"] true (StateOn (Some (SBool true)));
   CommandError ["dev-light"] "functionNotSupported";
   CommandSuccess ["dev-fan"] true (StateOn (Some (SBool true)));
   CommandSuccess ["dev-fan"] true (StateFanSpeed (Some (SStr "speed_3")));
   CommandError ["dev-other"] "deviceNotFound"].
Proof. reflexivity. Qed.

(** C3, as stated, fails: an unknown device paired with two executions is
    two requested pairs, and the response holds one entry. *)
Lemma C3_unowned_device_single_entry :
  requested_pairs unknown_twice = 2%nat
  ∧ fst (handleExecute calm
           (envelope alice INTENT_EXECUTE (execute_payload unknown_twice)) home)
    = Ok (respond 200
            (envelope alice INTENT_EXECUTE (execute_payload unknown_twice))
            (ExecutePayload [CommandError ["dev-unknown"] "deviceNotFound"]))
  ∧ length [CommandError ["dev-unknown"] "deviceNotFound"] ≠ 2%nat.
Proof.
  split; [reflexivity|]. split; [vm_compute; reflexivity | simpl; lia].
Qed.

(** C5.  A fan-speed command for a device whose capability list has
    neither 'fan' nor 'speed', and any command outside the vocabulary
    (OnOff, SetFanSpeed, BrightnessAbsolute), translate to the sentinel;
    and in a well-formed EXECUTE batch answered for a resolved caller by
    collaborators that respond, every execution of such a command on a
    found and owned device has its [functionNotSupported] entry for that
    device in the response. *)
Theorem C5_unsupported_sentinel (E : Env) (w : World) (req : Request)
    (agent : string) (link : LinkRow) (pl : InputPayload)
    (batch : list Command) (c : Command) (dev : ReqDevice) (e : Execution)
    (r : DeviceRow) :
  db_ok E ->
  gateway_ok E ->
  resolved E w req agent link pl ->
  pl_commands pl = Some batch ->
  well_formed_batch batch ->
  c ∈ batch -> dev ∈ devices_of c -> e ∈ executions_of c ->
  owned_row w link (rd_id dev) = Some r ->
  unsupported (ex_command e) (parse_row r) ->
  (∀ googleCommand p d,
     unsupported googleCommand d ->
     convertGoogleCommandToRpc googleCommand p d = Ok None)
  ∧ ∃ cmds,
      fst (handleExecute E req w) = Ok (respond 200 req (ExecutePayload cmds))
      ∧ CommandError [rd_id dev] "functionNotSupported" ∈ cmds.
Proof.
  intros Hdb Hgw Hres Hbatch Hwf Hc Hdev He Hr Hun.
  split; [intros; by apply unsupported_sentinel|].
  exists (batch_entries w link batch).
  split; [by eapply handleExecute_resolved|].
  apply list_elem_of_In. unfold batch_entries.
  apply in_flat_map. exists c. split; [by apply list_elem_of_In|].
  apply in_flat_map. exists dev. split; [by apply list_elem_of_In|].
  unfold device_entries. rewrite Hr. apply in_map_iff.
  exists e. split; [|by apply list_elem_of_In].
  unfold execution_entry. by rewrite (unsupported_sentinel _ _ _ Hun).
Qed.

(** A fan-speed command sent to the light. *)
Lemma C5_unsupported_sentinel_witness :
  (∀ googleCommand p d,
     unsupported googleCommand d ->
     convertGoogleCommandToRpc googleCommand p d = Ok None)
  ∧ ∃ cmds,
      fst (handleExecute calm
             (envelope alice INTENT_EXECUTE (execute_payload fan_speed_on_light))
             home)
      = Ok (respond 200
              (envelope alice INTENT_EXECUTE (execute_payload fan_speed_on_light))
              (ExecutePayload cmds))
      ∧ CommandError ["dev-light"] "functionNotSupported" ∈ cmds.
Proof.
  apply (C5_unsupported_sentinel calm home _ "agent_1" alice_link
           (execute_payload fan_speed_on_light) fan_speed_on_light
           {| c_devices := Some [mkReqDevice "dev-light"];
              c_execution :=
                Some [mkExecution CMD_SetFanSpeed
                        (Some (fan_speed_params "speed_3"))] |}
           (mkReqDevice "dev-light")
           (mkExecution CMD_SetFanSpeed (Some (fan_speed_params "speed_3")))
           (row 1 "dev-light" 1 ["light"; "dimmer"] 100 1)).
  - intros n. reflexivity.
  - split.
    + intros n u p. eexists _, _. split; reflexivity.
    + intros n i b t. reflexivity.
  - split; [reflexivity|]. split; [reflexivity|].
    eexists _, _. split; reflexivity.
  - reflexivity.
  - repeat constructor; simpl; eauto.
  - apply list_elem_of_here.
  - apply list_elem_of_here.
  - apply list_elem_of_here.
  - reflexivity.
  - left. split; [reflexivity|].
    unfold has_fan. simpl. rewrite <- !includes_spec. simpl. intros [?|?]; discriminate.
Defined.

(** ** SYNC *)

Lemma insert_row_Permutation (r : DeviceRow) (l : list DeviceRow) :
  Permutation (insert_row r l) (r :: l).
Proof.
  induction l as [|x t IH]; simpl; [done|].
  destruct (r_provisioned_at r <=? r_provisioned_at x); [done|].
  rewrite IH. apply perm_swap.
Qed.

Lemma order_by_provisioned_at_Permutation (l : list DeviceRow) :
  Permutation (order_by_provisioned_at l) l.
Proof.
  induction l as [|x t IH]; simpl; [done|].
  rewrite insert_row_Permutation. by constructor.
Qed.

Lemma insert_row_HdRel (a r : DeviceRow) (l : list DeviceRow) :
  provisioned_le a r -> HdRel provisioned_le a l ->
  HdRel provisioned_le a (insert_row r l).
Proof.
  intros Har Hal. destruct l as [|x t]; simpl; [by constructor|].
  destruct (r_provisioned_at r <=? r_provisioned_at x); constructor; try done.
  by inversion Hal.
Qed.

Lemma insert_row_Sorted (r : DeviceRow) (l : list DeviceRow) :
  Sorted provisioned_le l -> Sorted provisioned_le (insert_row r l).
Proof.
  induction 1 as [|x t Ht IH Hx]; simpl; [by repeat constructor|].
  destruct (r_provisioned_at r <=? r_provisioned_at x) eqn:Hle.
  - apply Z.leb_le in Hle. constructor; [by constructor|]. by constructor.
  - apply Z.leb_gt in Hle. constructor; [exact IH|].
    apply insert_row_HdRel; [|exact Hx]. unfold provisioned_le. lia.
Qed.

Lemma order_by_provisioned_at_Sorted (l : list DeviceRow) :
  Sorted provisioned_le (order_by_provisioned_at l).
Proof.
  induction l as [|x t IH]; simpl; [constructor|].
  by apply insert_row_Sorted.
Qed.

(** The sort is stable: rows already in provisioning order stay put. *)
Lemma order_by_provisioned_at_id (l : list DeviceRow) :
  Sorted provisioned_le l -> order_by_provisioned_at l = l.
Proof.
  induction 1 as [|x t Ht IH Hx]; [done|].
  unfold order_by_provisioned_at in *. cbn [foldr]. rewrite IH.
  destruct Hx as [|y t' Hxy]; simpl; [done|].
  apply Z.leb_le in Hxy. by rewrite Hxy.
Qed.

Lemma provisioned_le_trans : Relations_1.Transitive provisioned_le.
Proof. intros a b c. unfold provisioned_le. lia. Qed.

Lemma filter_Sorted (f : DeviceRow -> bool) (l : list DeviceRow) :
  Sorted provisioned_le l -> Sorted provisioned_le (List.filter f l).
Proof.
  intros Hs. apply StronglySorted_Sorted.
  apply Sorted_StronglySorted in Hs; [|exact provisioned_le_trans].
  induction Hs as [|x t Ht IH Hx]; simpl; [constructor|].
  destruct (f x); [|exact IH]. constructor; [exact IH|].
  rewrite List.Forall_forall in *. intros y Hy.
  apply filter_In in Hy. apply Hx. tauto.
Qed.

Lemma handleSync_resolved (E : Env) (w : World) (req : Request)
    (agent : string) (link : LinkRow) :
  db_ok E ->
  extractAgentUserId E req = Some agent ->
  lookup_link w agent = Some link ->
  fst (handleSync E req w)
  = Ok (respond 200 req
          (SyncPayload agent
             (map convertToGoogleDevice
                (map sync_row
                   (order_by_provisioned_at
                      (List.filter (owned_active (l_user_id link))
                                   (tbl_devices w))))))).
Proof.
  intros Hdb Hagent Hlink.
  unfold handleSync, try_catch, handleSync_try. rewrite Hagent.
  unfold bind at 1. rewrite (findByAgentUserId_ok E _ _ Hdb), Hlink.
  unfold bind at 1. rewrite (findAllForSync_ok E _ _ Hdb).
  unfold bind at 1.
  pose proof (updateLastSync_ok E agent (bump (bump w)) Hdb) as Hup.
  destruct (GoogleAccountLinkModel_updateLastSync E agent (bump (bump w)))
    as [[[]|e] w1]; simpl in Hup; [|done].
  reflexivity.
Qed.

Lemma handleSync_unlinked (E : Env) (w : World) (req : Request)
    (agent : string) :
  db_ok E ->
  extractAgentUserId E req = Some agent ->
  lookup_link w agent = None ->
  fst (handleSync E req w) = Ok (authFailure req).
Proof.
  intros Hdb Hagent Hlink.
  unfold handleSync, try_catch, handleSync_try. rewrite Hagent.
  unfold bind at 1. by rewrite (findByAgentUserId_ok E _ _ Hdb), Hlink.
Qed.

(** C9.  A SYNC request whose token resolves to an active link, answered
    by a registry that responds, returns one descriptor per row of a list
    [rows] that holds exactly the active devices owned by the link's user
    (a permutation of them, so each once) in ascending provisioning time;
    when the table itself is in provisioning order, as insertion leaves
    it, [rows] is the owner's active devices in table order. *)
Theorem C9_sync_device_list (E : Env) (w : World) (req : Request)
    (agent : string) (link : LinkRow) :
  db_ok E ->
  extractAgentUserId E req = Some agent ->
  lookup_link w agent = Some link ->
  ∃ rows,
    fst (handleSync E req w)
    = Ok (respond 200 req
            (SyncPayload agent
               (map (fun r => convertToGoogleDevice (sync_row r)) rows)))
    ∧ Permutation rows
        (List.filter (owned_active (l_user_id link)) (tbl_devices w))
    ∧ Sorted provisioned_le rows
    ∧ map gd_id (map (fun r => convertToGoogleDevice (sync_row r)) rows)
      = map r_device_uuid rows
    ∧ (Sorted provisioned_le (tbl_devices w) ->
       rows = List.filter (owned_active (l_user_id link)) (tbl_devices w)).
Proof.
  intros Hdb Hagent Hlink.
  exists (order_by_provisioned_at
            (List.filter (owned_active (l_user_id link)) (tbl_devices w))).
  split.
  { rewrite (handleSync_resolved E w req agent link Hdb Hagent Hlink).
    by rewrite map_map. }
  split; [apply order_by_provisioned_at_Permutation|].
  split; [apply order_by_provisioned_at_Sorted|].
  split.
  { rewrite map_map. apply map_ext. intros r. apply convertToGoogleDevice_id. }
  intros Hs. by apply order_by_provisioned_at_id, filter_Sorted.
Qed.

(** SYNC for the first user of the sample home. *)
Lemma C9_sync_device_list_witness :
  ∃ rows,
    fst (handleSync calm (envelope alice INTENT_SYNC no_payload) home)
    = Ok (respond 200 (envelope alice INTENT_SYNC no_payload)
            (SyncPayload "agent_1"
               (map (fun r => convertToGoogleDevice (sync_row r)) rows)))
    ∧ Permutation rows
        (List.filter (owned_active (l_user_id alice_link)) (tbl_devices home))
    ∧ Sorted provisioned_le rows
    ∧ map gd_id (map (fun r => convertToGoogleDevice (sync_row r)) rows)
      = map r_device_uuid rows
    ∧ (Sorted provisioned_le (tbl_devices home) ->
       rows = List.filter (owned_active (l_user_id alice_link))
                          (tbl_devices home)).
Proof.
  apply (C9_sync_device_list calm home _ "agent_1" alice_link).
  - intros n. reflexivity.
  - reflexivity.
  - reflexivity.
Defined.

(** The SYNC answer for that home: the light, then the fan. *)
Example sync_home :
  fst (handleSync calm (envelope alice INTENT_SYNC no_payload) home)
  = Ok (respond 200 (envelope alice INTENT_SYNC no_payload)
          (SyncPayload "agent_1"
             [convertToGoogleDevice
                (sync_row (row 1 "dev-light" 1 ["light"; "dimmer"] 100 1));
              convertToGoogleDevice
                (sync_row (row 3 "dev-fan" 1 ["fan"; "speed"] 200 1))])).
Proof. vm_compute. reflexivity. Qed.

(** ** Caller identity *)

Lemma bearer_truthy (tok : string) : truthy_string ("Bearer " ++ tok) = true.
Proof. reflexivity. Qed.

Lemma bearer_prefix (tok : string) :
  String.prefix "Bearer " ("Bearer " ++ tok) = true.
Proof. destruct tok; reflexivity. Qed.

Lemma bearer_substring (tok : string) :
  substring_from 7 ("Bearer " ++ tok) = tok.
Proof. reflexivity. Qed.

Lemma extractAgentUserId_bearer (E : Env) (req : Request) (tok : string)
    (p : JwtPayload) :
  authorization req = Some ("Bearer " ++ tok) ->
  jwt_decode E tok = Ok (Some p) ->
  extractAgentUserId E req = truthy_opt (agentUserId p).
Proof.
  intros Hauth Hdec. unfold extractAgentUserId. rewrite Hauth.
  cbv zeta. rewrite bearer_truthy, bearer_prefix, bearer_substring.
  simpl. by rewrite Hdec.
Qed.

Lemma lookup_link_active (w : World) (agent : string) :
  has_active_link w agent ↔ is_Some (lookup_link w agent).
Proof.
  unfold has_active_link, lookup_link. split.
  - intros (l & Hl & Hagent & Hactive).
    destruct (List.find _ _) eqn:Hfind; [eauto|].
    apply list_elem_of_In in Hl.
    pose proof (find_none _ _ Hfind l Hl) as Hno.
    unfold agent_active in Hno. rewrite Hagent, Hactive in Hno.
    by rewrite String.eqb_refl in Hno.
  - intros [l Hfind]. apply find_some in Hfind. destruct Hfind as [Hl Hact].
    unfold agent_active in Hact. apply andb_true_iff in Hact.
    destruct Hact as [Ha Hb]. apply String.eqb_eq in Ha. apply Z.eqb_eq in Hb.
    exists l. split; [by apply list_elem_of_In | by split].
Qed.

(** A token whose subject's link has been deactivated is refused. *)
Example sync_inactive_link :
  fst (handleSync calm
         (envelope (Some "Bearer bob.jwt") INTENT_SYNC no_payload) home)
  = Ok (authFailure (envelope (Some "Bearer bob.jwt") INTENT_SYNC no_payload)).
Proof. vm_compute. reflexivity. Qed.

(** ** DISCONNECT *)

Lemma deactivate_idem (l : LinkRow) : deactivate (deactivate l) = deactivate l.
Proof. reflexivity. Qed.

Lemma update_links_idem (agent : string) (ls : list LinkRow) :
  update_links agent deactivate (update_links agent deactivate ls)
  = update_links agent deactivate ls.
Proof.
  unfold update_links. rewrite map_map. apply map_ext. intros l.
  destruct (String.eqb (l_google_agent_user_id l) agent) eqn:Hl; simpl;
    by rewrite Hl.
Qed.

Lemma update_links_kept (agent : string) (ls : list LinkRow) :
  Forall2 kept_or_deactivated ls (update_links agent deactivate ls).
Proof.
  induction ls as [|l ls IH]; simpl; constructor; [|exact IH].
  unfold kept_or_deactivated. destruct (String.eqb _ _); auto.
Qed.

Lemma kept_refl (ls : list LinkRow) : Forall2 kept_or_deactivated ls ls.
Proof. induction ls; constructor; [by left | done]. Qed.

Lemma update_links_no_active (agent : string) (ls : list LinkRow) :
  List.find (agent_active agent) (update_links agent deactivate ls) = None.
Proof.
  induction ls as [|l ls IH]; simpl; [done|].
  unfold agent_active at 1.
  destruct (String.eqb (l_google_agent_user_id l) agent) eqn:Hl; simpl.
  - rewrite Hl. simpl. exact IH.
  - rewrite Hl. simpl. exact IH.
Qed.

(** The three ways [handleDisconnect] can go. *)
Lemma handleDisconnect_run (E : Env) (req : Request) (w : World) :
  fst (handleDisconnect E req w) = Ok (success_empty req)
  ∧ (tbl_google_account_links (snd (handleDisconnect E req w))
     = tbl_google_account_links w
     ∨ ∃ agent, extractAgentUserId E req = Some agent
                ∧ tbl_google_account_links (snd (handleDisconnect E req w))
                  = update_links agent deactivate (tbl_google_account_links w))
  ∧ (db_ok E -> ∀ agent, extractAgentUserId E req = Some agent ->
       tbl_google_account_links (snd (handleDisconnect E req w))
       = update_links agent deactivate (tbl_google_account_links w)).
Proof.
  unfold handleDisconnect, try_catch, handleDisconnect_try.
  destruct (extractAgentUserId E req) as [agent|] eqn:Hagent.
  - unfold GoogleAccountLinkModel_disconnect, sqlite_run, bind, tick. simpl.
    destruct (sqlite_error E (calls w)) as [e|] eqn:Herr; simpl.
    + split; [reflexivity|]. split; [by left|].
      intros Hdb. by rewrite Hdb in Herr.
    + split; [reflexivity|]. split; [right; eauto|].
      intros _ a [= <-]. reflexivity.
  - simpl. split; [reflexivity|]. split; [by left|]. intros _ a Ha. discriminate.
Qed.

(** C7.  [handleDisconnect] always answers 200 with the request's
    identifier and an empty payload (no error code), whether the token is
    absent or undecodable, whether the subject has a link, an inactive
    link or none, whether the registry raises, and again on a second call
    in a row.  No link row is ever removed: each row of the table is
    afterwards itself or itself marked inactive; when the registry
    responds the subject has no active link afterwards and a second call
    changes nothing more. *)
Theorem C7_handleDisconnect (E : Env) (req : Request) (w : World) :
  fst (handleDisconnect E req w) = Ok (success_empty req)
  ∧ fst (handleDisconnect E req (snd (handleDisconnect E req w)))
    = Ok (success_empty req)
  ∧ Forall2 kept_or_deactivated
      (tbl_google_account_links w)
      (tbl_google_account_links (snd (handleDisconnect E req w)))
  ∧ (db_ok E -> ∀ agent, extractAgentUserId E req = Some agent ->
       lookup_link (snd (handleDisconnect E req w)) agent = None
       ∧ tbl_google_account_links
           (snd (handleDisconnect E req (snd (handleDisconnect E req w))))
         = tbl_google_account_links (snd (handleDisconnect E req w))).
Proof.
  destruct (handleDisconnect_run E req w) as (Hresp & Hcases & Hok).
  split; [exact Hresp|].
  split; [apply handleDisconnect_run|].
  split.
  - destruct Hcases as [-> | (agent & _ & ->)];
      [apply kept_refl | apply update_links_kept].
  - intros Hdb agent Hagent. split.
    + unfold lookup_link. rewrite (Hok Hdb agent Hagent).
      apply update_links_no_active.
    + destruct (handleDisconnect_run E req (snd (handleDisconnect E req w)))
        as (_ & _ & Hok2).
      rewrite (Hok2 Hdb agent Hagent), (Hok Hdb agent Hagent).
      apply update_links_idem.
Qed.

(** DISCONNECT for a linked subject: the row stays, marked inactive. *)
Example disconnect_alice :
  tbl_google_account_links
    (snd (handleDisconnect calm (envelope alice INTENT_DISCONNECT no_payload) home))
  = [link_row 1 1 "agent_1" 0; link_row 2 2 "agent_2" 0].
Proof. reflexivity. Qed.

(** ** The envelope boundary *)

Lemma fulfillment_try_dispatched (E : Env) (req : Request) (i : string) :
  dispatched req i ->
  fulfillment_try E req =
    if String.eqb i INTENT_SYNC then handleSync E req
    else if String.eqb i INTENT_QUERY then handleQuery E req
    else if String.eqb i INTENT_EXECUTE then handleExecute E req
    else if String.eqb i INTENT_DISCONNECT then handleDisconnect E req
    else ret (respond 400 req (ErrorPayload "notSupported" None)).
Proof.
  intros ([x Hx] & input & rest & Hin & Hi).
  unfold fulfillment_try. by rewrite Hx, Hin, Hi.
Qed.

(** A handler whose [try] block raises answers 500 [hardError]. *)
Lemma outer_catch (req : Request) (body : M World Response) (w w' : World)
    (e : Error) :
  body w = (Throw e, w') ->
  ∃ r, try_catch body (hardError req) w = (Ok r, w') ∧ is_hardError req r.
Proof.
  intros Hbody. unfold try_catch. rewrite Hbody.
  eexists. split; [reflexivity|]. eexists. reflexivity.
Qed.

Lemma fulfillment_of_handler (E : Env) (req : Request) (w w' : World)
    (handler : M World Response) (r : Response) :
  fulfillment_try E req = handler ->
  handler w = (Ok r, w') ->
  fulfillment E req w = (Ok r, w').
Proof.
  intros Htry Hrun. unfold fulfillment, try_catch. by rewrite Htry, Hrun.
Qed.

(** C8, as the code has it.  The endpoint answers every envelope: no
    exception leaves it.  A fault raised in the router, or in the [try]
    block of the SYNC, QUERY or EXECUTE handler, is answered 500 with the
    request's identifier and [hardError]; a dispatched DISCONNECT is
    answered 200 with the empty payload, fault or no fault. *)
Theorem C8_fulfillment_faults (E : Env) (req : Request) (w : World) :
  (∃ r, fst (fulfillment E req w) = Ok r)
  ∧ (∀ e w', fulfillment_try E req w = (Throw e, w') ->
       ∃ r, fulfillment E req w = (Ok r, w') ∧ is_hardError req r)
  ∧ (∀ i e w',
       dispatched req i ->
       (i = INTENT_SYNC ∧ handleSync_try E req w = (Throw e, w'))
       ∨ (i = INTENT_QUERY ∧ handleQuery_try E req w = (Throw e, w'))
       ∨ (i = INTENT_EXECUTE ∧ handleExecute_try E req w = (Throw e, w')) ->
       ∃ r, fulfillment E req w = (Ok r, w') ∧ is_hardError req r)
  ∧ (dispatched req INTENT_DISCONNECT ->
     fst (fulfillment E req w) = Ok (success_empty req)).
Proof.
  split; [|split; [|split]].
  - unfold fulfillment, try_catch.
    destruct (fulfillment_try E req w) as [[r|e] w']; simpl; eauto.
  - intros e w' Hthrow. by apply (outer_catch req _ w w' e).
  - intros i e w' Hd Hcases.
    pose proof (fulfillment_try_dispatched E req i Hd) as Htry.
    destruct Hcases as [[-> Hthrow] | [[-> Hthrow] | [-> Hthrow]]];
      simpl in Htry;
      destruct (outer_catch req _ w w' e Hthrow) as (r & Hrun & Hr);
      exists r; (split; [|exact Hr]);
      by apply (fulfillment_of_handler E req w w' _ r Htry).
  - intros Hd.
    pose proof (fulfillment_try_dispatched E req _ Hd) as Htry.
    simpl in Htry. unfold fulfillment, try_catch. rewrite Htry.
    pose proof (handleDisconnect_run E req w) as (Hresp & _).
    destruct (handleDisconnect E req w) as [[r|e] w']; simpl in *; [done|].
    discriminate.
Qed.

(** A fault in the router itself: an empty input array. *)
Example router_fault :
  fst (fulfillment calm empty_inputs home)
  = Ok (respond 500 empty_inputs
          (ErrorPayload "hardError"
             (Some "Cannot read properties of undefined (reading 'intent')"))).
Proof. reflexivity. Qed.

(** A registry fault during SYNC. *)
Example sync_registry_fault :
  fst (fulfillment registry_fails (envelope alice INTENT_SYNC no_payload) home)
  = Ok (respond 500 (envelope alice INTENT_SYNC no_payload)
          (ErrorPayload "hardError" (Some "database is locked"))).
Proof. reflexivity. Qed.

(** A gateway fault during EXECUTE stays inside the batch: the response
    is 200 and the device's entry is [hardError]. *)
Example execute_gateway_fault :
  fst (fulfillment
         (mkEnv (sqlite_error calm) (Date_now calm) (jwt_decode calm)
            (jwt_verify calm) (axios_post_login calm)
            (axios_get_timeseries calm) (axios_get_attributes calm)
            (fun _ _ _ _ => Throw (mkError "timeout of 5000ms exceeded" None))
            (THINGSBOARD_ADMIN_USERNAME calm) (THINGSBOARD_ADMIN_PASSWORD calm))
         (envelope alice INTENT_EXECUTE (execute_payload light_and_fan)) home)
  = Ok (respond 200
          (envelope alice INTENT_EXECUTE (execute_payload light_and_fan))
          (ExecutePayload
             [CommandError ["dev-light"] "hardError";
              CommandError ["dev-fan"] "hardError";
              CommandError ["dev-other"] "deviceNotFound"])).
Proof. vm_compute. reflexivity. Qed.

(** C8, as stated, fails: with a registry that raises on every statement,
    the statement run by [GoogleAccountLinkModel.disconnect] raises, and
    the endpoint answers the DISCONNECT envelope 200 with an empty payload
    and no [hardError]. *)
Lemma C8_disconnect_fault_answered_success :
  fst (GoogleAccountLinkModel_disconnect registry_fails "agent_1" home)
  = Throw (mkError "database is locked" None)
  ∧ fst (fulfillment registry_fails
           (envelope alice INTENT_DISCONNECT no_payload) home)
    = Ok (success_empty (envelope alice INTENT_DISCONNECT no_payload))
  ∧ ¬ is_hardError (envelope alice INTENT_DISCONNECT no_payload)
        (success_empty (envelope alice INTENT_DISCONNECT no_payload)).
Proof.
  split; [reflexivity|]. split; [reflexivity|].
  intros [dbg Hdbg]. discriminate.
Qed.

(** The QUERY answer when the gateway returns telemetry: on, speed 3. *)
Example query_fan_state :
  convertToGoogleState fan_device (Some sample_telemetry) (Some [])
  = {| on := true; currentFanSpeedSetting := Some "speed_3" |}.
Proof. vm_compute. reflexivity. Qed.

(** ** Acceptance *)

Lemma guarded_cases (i : string) :
  i ∈ guarded_intents -> i = INTENT_SYNC ∨ i = INTENT_QUERY ∨ i = INTENT_EXECUTE.
Proof.
  unfold guarded_intents. rewrite !elem_of_cons, elem_of_nil. tauto.
Qed.

(** A guarded intent from a subject without an active link. *)
Lemma guarded_unlinked (E : Env) (req : Request) (w : World) (i a : string) :
  db_ok E ->
  dispatched req i ->
  i ∈ guarded_intents ->
  extractAgentUserId E req = Some a ->
  lookup_link w a = None ->
  fst (fulfillment E req w) = Ok (authFailure req).
Proof.
  intros Hdb Hd Hi Hsome Hlink.
  pose proof (fulfillment_try_dispatched E req i Hd) as Htry.
  unfold fulfillment, try_catch. rewrite Htry.
  destruct (guarded_cases i Hi) as [-> | [-> | ->]]; simpl;
    unfold handleSync, handleSync_try, handleQuery, handleQuery_try,
           handleExecute, handleExecute_try, try_catch;
    rewrite Hsome; unfold bind;
    by rewrite (findByAgentUserId_ok E _ _ Hdb), Hlink.
Qed.

(** A guarded intent from a subject with an active link is not refused:
    the answer is 200, or 500 when the handler raised. *)
Lemma guarded_linked (E : Env) (req : Request) (w : World) (i a : string)
    (link : LinkRow) :
  db_ok E ->
  dispatched req i ->
  i ∈ guarded_intents ->
  extractAgentUserId E req = Some a ->
  lookup_link w a = Some link ->
  ∃ r, fst (fulfillment E req w) = Ok r ∧ (status r = 200 ∨ status r = 500).
Proof.
  intros Hdb Hd Hi Hsome Hlink.
  pose proof (fulfillment_try_dispatched E req i Hd) as Htry.
  unfold fulfillment, try_catch. rewrite Htry.
  destruct (guarded_cases i Hi) as [-> | [-> | ->]]; simpl.
  - rewrite (surjective_pairing (handleSync E req w)).
    rewrite (handleSync_resolved E w req a link Hdb Hsome Hlink).
    eexists. split; [reflexivity | by left].
  - unfold handleQuery, handleQuery_try, try_catch. rewrite Hsome.
    unfold bind at 1. rewrite (findByAgentUserId_ok E _ _ Hdb), Hlink.
    destruct (inputs (body req)) as [[|input rest]|]; simpl;
      try (eexists; split; [reflexivity | by right]).
    destruct (payload input) as [pl|]; simpl;
      [|eexists; split; [reflexivity | by right]].
    unfold with_local, bind.
    destruct (iterable _ _ _) as [[ds|e] s1]; simpl;
      [|eexists; split; [reflexivity | by right]].
    destruct (for_of _ _ _) as [[[]|e] s2]; simpl;
      eexists; (split; [reflexivity|]); auto.
  - unfold handleExecute, handleExecute_try, try_catch. rewrite Hsome.
    unfold bind at 1. rewrite (findByAgentUserId_ok E _ _ Hdb), Hlink.
    destruct (inputs (body req)) as [[|input rest]|]; simpl;
      try (eexists; split; [reflexivity | by right]).
    destruct (payload input) as [pl|]; simpl;
      [|eexists; split; [reflexivity | by right]].
    unfold with_local, bind.
    destruct (iterable _ _ _) as [[ds|e] s1]; simpl;
      [|eexists; split; [reflexivity | by right]].
    destruct (for_of _ _ _) as [[[]|e] s2]; simpl;
      eexists; (split; [reflexivity|]); auto.
Qed.

(** C10, as the code has it.  For a request whose header is 'Bearer '
    followed by a token that [jwt.decode] can decode, the caller identity
    is the (non-empty) [agentUserId] of the decoded payload: it is
    obtained from the decoder alone, whatever the payload's expiry and
    whatever a verification of the token would say.  With the registry
    responding, SYNC answers 200 as that identity exactly when the
    subject has an active account link, and a dispatched SYNC, QUERY or
    EXECUTE envelope is refused with [authFailure] exactly when it has
    none.  A dispatched DISCONNECT is answered 200 with the empty payload
    whether a link exists or not. *)
Theorem C10_decode_only (E : Env) (w : World) (req : Request) (tok : string)
    (p : JwtPayload) (agent : string) :
  db_ok E ->
  authorization req = Some ("Bearer " ++ tok) ->
  jwt_decode E tok = Ok (Some p) ->
  agentUserId p = Some agent ->
  truthy_string agent = true ->
  extractAgentUserId E req = Some agent
  ∧ (∀ E', jwt_decode E' tok = jwt_decode E tok ->
           extractAgentUserId E' req = Some agent)
  ∧ (has_active_link w agent
     ↔ ∃ devs, fst (handleSync E req w)
               = Ok (respond 200 req (SyncPayload agent devs)))
  ∧ (¬ has_active_link w agent
     ↔ fst (handleSync E req w) = Ok (authFailure req))
  ∧ (∀ i, i ∈ guarded_intents -> dispatched req i ->
          (¬ has_active_link w agent
           ↔ fst (fulfillment E req w) = Ok (authFailure req)))
  ∧ (dispatched req INTENT_DISCONNECT ->
     fst (fulfillment E req w) = Ok (respond 200 req EmptyPayload)).
Proof.
  intros Hdb Hauth Hdec Hagent Htruthy.
  assert (Hid : ∀ E', jwt_decode E' tok = jwt_decode E tok ->
                      extractAgentUserId E' req = Some agent).
  { intros E' HE'. rewrite Hdec in HE'.
    rewrite (extractAgentUserId_bearer E' req tok p Hauth HE'), Hagent.
    simpl. by rewrite Htruthy. }
  pose proof (Hid E eq_refl) as Hextract.
  split; [exact Hextract|]. split; [exact Hid|].
  rewrite lookup_link_active.
  split; [|split; [|split]].
  - destruct (lookup_link w agent) as [link|] eqn:Hlink.
    + rewrite (handleSync_resolved E w req agent link Hdb Hextract Hlink).
      split; eauto.
    + rewrite (handleSync_unlinked E w req agent Hdb Hextract Hlink).
      split; [by intros [? ?] | intros [devs Hd]; discriminate].
  - destruct (lookup_link w agent) as [link|] eqn:Hlink.
    + rewrite (handleSync_resolved E w req agent link Hdb Hextract Hlink).
      split; [intros Hno; exfalso; apply Hno; by eexists | discriminate].
    + rewrite (handleSync_unlinked E w req agent Hdb Hextract Hlink).
      split; [done | by intros _ [? ?]].
  - intros i Hi Hd. rewrite lookup_link_active.
    destruct (lookup_link w agent) as [link|] eqn:Hlink.
    + destruct (guarded_linked E req w i agent link Hdb Hd Hi Hextract Hlink)
        as (r & Hr & Hstatus).
      rewrite Hr. split; [intros Hno; exfalso; apply Hno; by eexists|].
      intros [= ->]. simpl in Hstatus. by destruct Hstatus.
    + rewrite (guarded_unlinked E req w i agent Hdb Hd Hi Hextract Hlink).
      split; [done | by intros _ [? ?]].
  - intros Hd.
    pose proof (fulfillment_try_dispatched E req _ Hd) as Htry.
    simpl in Htry.
    destruct (handleDisconnect_run E req w) as (Hrun & _).
    destruct (handleDisconnect E req w) as [o w'] eqn:Hh. simpl in Hrun.
    subst o.
    by rewrite (fulfillment_of_handler E req w w' _ _ Htry Hh).
Qed.

(** A token that is expired and does not verify still names the caller. *)
Lemma C10_decode_only_witness :
  jwt_verify calm "alice.jwt" "change-this-secret-in-production" 1000000
  = Throw (mkError "invalid signature" None)
  ∧ extractAgentUserId calm (envelope alice INTENT_SYNC no_payload)
    = Some "agent_1"
  ∧ (∀ E', jwt_decode E' "alice.jwt" = jwt_decode calm "alice.jwt" ->
           extractAgentUserId E' (envelope alice INTENT_SYNC no_payload)
           = Some "agent_1")
  ∧ (has_active_link home "agent_1"
     ↔ ∃ devs, fst (handleSync calm (envelope alice INTENT_SYNC no_payload) home)
               = Ok (respond 200 (envelope alice INTENT_SYNC no_payload)
                       (SyncPayload "agent_1" devs)))
  ∧ (¬ has_active_link home "agent_1"
     ↔ fst (handleSync calm (envelope alice INTENT_SYNC no_payload) home)
       = Ok (authFailure (envelope alice INTENT_SYNC no_payload)))
  ∧ (∀ i, i ∈ guarded_intents ->
          dispatched (envelope alice INTENT_SYNC no_payload) i ->
          (¬ has_active_link home "agent_1"
           ↔ fst (fulfillment calm (envelope alice INTENT_SYNC no_payload) home)
             = Ok (authFailure (envelope alice INTENT_SYNC no_payload))))
  ∧ (dispatched (envelope alice INTENT_SYNC no_payload) INTENT_DISCONNECT ->
     fst (fulfillment calm (envelope alice INTENT_SYNC no_payload) home)
     = Ok (respond 200 (envelope alice INTENT_SYNC no_payload) EmptyPayload)).
Proof.
  split; [reflexivity|].
  apply (C10_decode_only calm home _ "alice.jwt"
           {| agentUserId := Some "agent_1"; userId := Some 1;
              iat := Some 0; exp := Some 1 |} "agent_1").
  - intros n. reflexivity.
  - reflexivity.
  - reflexivity.
  - reflexivity.
  - reflexivity.
Defined.

(** C10, as stated, fails for DISCONNECT: the token of the second
    subject decodes, the subject has no active account link, and the
    request is answered 200 success, not [authFailure]. *)
Lemma C10_disconnect_without_link :
  extractAgentUserId calm
    (envelope (Some "Bearer bob.jwt") INTENT_DISCONNECT no_payload)
  = Some "agent_2"
  ∧ ¬ has_active_link home "agent_2"
  ∧ fst (fulfillment calm
           (envelope (Some "Bearer bob.jwt") INTENT_DISCONNECT no_payload) home)
    = Ok (respond 200
            (envelope (Some "Bearer bob.jwt") INTENT_DISCONNECT no_payload)
            EmptyPayload)
  ∧ fst (fulfillment calm
           (envelope (Some "Bearer bob.jwt") INTENT_DISCONNECT no_payload) home)
    ≠ Ok (authFailure
            (envelope (Some "Bearer bob.jwt") INTENT_DISCONNECT no_payload)).
Proof.
  split; [reflexivity|]. split.
  - rewrite lookup_link_active. by intros [? ?].
  - split; [reflexivity | discriminate].
Qed.

(** * Further properties *)

(** ** Frames: what leaves the registry tables alone *)

Section Frames.

Context (E : Env).

Lemma preserves_ret {A} (a : A) : preserves (ret a).
Proof. intros w. apply same_tables_refl. Qed.

Lemma preserves_throw {A} (e : Error) : preserves (@throw World A e).
Proof. intros w. apply same_tables_refl. Qed.

Lemma preserves_bind {A B} (m : M World A) (k : A -> M World B) :
  preserves m -> (∀ a, preserves (k a)) -> preserves (bind m k).
Proof.
  intros Hm Hk w. unfold bind. specialize (Hm w).
  destruct (m w) as [[a|e] w1]; simpl in *; [|done].
  eapply same_tables_trans; [exact Hm | apply Hk].
Qed.

Lemma preserves_try_catch {A} (m : M World A) (h : Error -> M World A) :
  preserves m -> (∀ e, preserves (h e)) -> preserves (try_catch m h).
Proof.
  intros Hm Hh w. unfold try_catch. specialize (Hm w).
  destruct (m w) as [[a|e] w1]; simpl in *; [done|].
  eapply same_tables_trans; [exact Hm | apply Hh].
Qed.

Lemma preserves_of_outcome {A} (o : Outcome A) : preserves (of_outcome o).
Proof. destruct o; [apply preserves_ret | apply preserves_throw]. Qed.

Lemma preserves_tick : preserves tick.
Proof. intros w. by split. Qed.

Lemma preserves_get : preserves get.
Proof. intros w. apply same_tables_refl. Qed.

Lemma preserves_sqlite_run : preserves (sqlite_run E).
Proof.
  apply preserves_bind; [apply preserves_tick|]. intros n.
  destruct (sqlite_error E n); [apply preserves_throw | apply preserves_ret].
Qed.

Lemma preserves_findByUuid (k : string) : preserves (DeviceModel_findByUuid E k).
Proof.
  apply preserves_bind; [apply preserves_sqlite_run|]. intros _.
  apply preserves_bind; [apply preserves_get|]. intros w. apply preserves_ret.
Qed.

Lemma preserves_findByAgentUserId (a : string) :
  preserves (GoogleAccountLinkModel_findByAgentUserId E a).
Proof.
  apply preserves_bind; [apply preserves_sqlite_run|]. intros _.
  apply preserves_bind; [apply preserves_get|]. intros w. apply preserves_ret.
Qed.

Lemma preserves_getLatestTelemetry (d : option string) (keys : list string) :
  preserves (thingsboardService_getLatestTelemetry E d keys).
Proof.
  intros w.
  destruct (getLatestTelemetry_total E d keys w) as (t & w' & Hrun & Hs).
  by rewrite Hrun.
Qed.

Lemma preserves_getDeviceAttributes (d : option string) (scope : string) :
  preserves (thingsboardService_getDeviceAttributes E d scope).
Proof.
  intros w.
  destruct (getDeviceAttributes_total E d scope w) as (t & w' & Hrun & Hs).
  by rewrite Hrun.
Qed.

Lemma preserves_sendRpcCommand (d : option string) (m : string) (p : RpcParams) :
  preserves (thingsboardService_sendRpcCommand E d m p).
Proof. intros w. apply sendRpcCommand_frame. Qed.

Lemma preservesL_ret {L A} (a : A) : preservesL (@ret (World * L) A a).
Proof. intros s. apply same_tables_refl. Qed.

Lemma preservesL_throw {L A} (e : Error) : preservesL (@throw (World * L) A e).
Proof. intros s. apply same_tables_refl. Qed.

Lemma preservesL_bind {L A B} (m : M (World * L) A) (k : A -> M (World * L) B) :
  preservesL m -> (∀ a, preservesL (k a)) -> preservesL (bind m k).
Proof.
  intros Hm Hk s. unfold bind. specialize (Hm s).
  destruct (m s) as [[a|e] s1]; simpl in *; [|done].
  eapply same_tables_trans; [exact Hm | apply Hk].
Qed.

Lemma preservesL_try_catch {L A} (m : M (World * L) A)
    (h : Error -> M (World * L) A) :
  preservesL m -> (∀ e, preservesL (h e)) -> preservesL (try_catch m h).
Proof.
  intros Hm Hh s. unfold try_catch. specialize (Hm s).
  destruct (m s) as [[a|e] s1]; simpl in *; [done|].
  eapply same_tables_trans; [exact Hm | apply Hh].
Qed.

Lemma preservesL_liftW {L A} (m : M World A) :
  preserves m -> preservesL (@liftW L A m).
Proof.
  intros Hm [w l]. unfold liftW. simpl. specialize (Hm w).
  by destruct (m w) as [r w'].
Qed.

Lemma preservesL_modify_local {L} (f : L -> L) : preservesL (modify_local f).
Proof. intros s. apply same_tables_refl. Qed.

Lemma preservesL_read_local {L} : preservesL (@read_local L).
Proof. intros s. apply same_tables_refl. Qed.

Lemma preservesL_of_outcome {L A} (o : Outcome A) :
  preservesL (@of_outcome (World * L) A o).
Proof. destruct o; [apply preservesL_ret | apply preservesL_throw]. Qed.

Lemma preservesL_iterable {L A} (what : string) (o : option (list A)) :
  preservesL (@iterable (World * L) A what o).
Proof. destruct o; [apply preservesL_ret | apply preservesL_throw]. Qed.

Lemma preservesL_for_of {L A} (l : list A) (body : A -> M (World * L) unit) :
  (∀ x, preservesL (body x)) -> preservesL (for_of l body).
Proof.
  intros Hbody. induction l as [|x l IH]; [apply preservesL_ret|].
  apply preservesL_bind; [apply Hbody | intros _; exact IH].
Qed.

Lemma preserves_with_local {L A} (init : L) (m : M (World * L) A) :
  preservesL m -> preserves (with_local init m).
Proof.
  intros Hm w. unfold with_local. specialize (Hm (w, init)).
  by destruct (m (w, init)) as [r s'].
Qed.

Lemma preservesL_handleQuery_device (link : LinkRow)
    (dev : option ReqDevice) :
  preservesL (handleQuery_device E link dev).
Proof.
  destruct dev as [dev|]; [|apply preservesL_throw].
  apply preservesL_try_catch; [|intros e; apply preservesL_modify_local].
  apply preservesL_bind;
    [apply preservesL_liftW, preserves_findByUuid|].
  intros [d|]; [|apply preservesL_modify_local].
  destruct (not_owned (Some d) link); [apply preservesL_modify_local|].
  apply preservesL_bind;
    [apply preservesL_liftW, preserves_getLatestTelemetry|]. intros t.
  apply preservesL_bind;
    [apply preservesL_liftW, preserves_getDeviceAttributes|]. intros a.
  apply preservesL_modify_local.
Qed.

Lemma preservesL_handleExecute_execution (k : string) (d : Device)
    (e : Execution) :
  preservesL (handleExecute_execution E k d e).
Proof.
  apply preservesL_bind; [apply preservesL_of_outcome|].
  intros [rpc|]; [|apply preservesL_modify_local].
  apply preservesL_bind;
    [apply preservesL_liftW, preserves_sendRpcCommand|].
  intros _. apply preservesL_modify_local.
Qed.

Lemma preservesL_handleExecute_device (link : LinkRow) (c : Command)
    (dev : ReqDevice) :
  preservesL (handleExecute_device E link c dev).
Proof.
  apply preservesL_try_catch; [|intros e; apply preservesL_modify_local].
  apply preservesL_bind;
    [apply preservesL_liftW, preserves_findByUuid|].
  intros [d|]; [|apply preservesL_modify_local].
  destruct (not_owned (Some d) link); [apply preservesL_modify_local|].
  apply preservesL_bind; [apply preservesL_iterable|]. intros es.
  apply preservesL_for_of. intros e. apply preservesL_handleExecute_execution.
Qed.

Lemma preserves_handleQuery (req : Request) : preserves (handleQuery E req).
Proof.
  apply preserves_try_catch; [|intros e; apply preserves_ret].
  unfold handleQuery_try.
  destruct (extractAgentUserId E req) as [agent|]; [|apply preserves_ret].
  apply preserves_bind; [apply preserves_findByAgentUserId|].
  intros [link|]; [|apply preserves_ret].
  destruct (inputs (body req)) as [[|input rest]|]; try apply preserves_throw.
  destruct (payload input) as [pl|]; [|apply preserves_throw].
  apply preserves_with_local.
  apply preservesL_bind; [apply preservesL_iterable|]. intros ids.
  apply preservesL_bind.
  { apply preservesL_for_of. intros dev. apply preservesL_handleQuery_device. }
  intros _. apply preservesL_bind; [apply preservesL_read_local|].
  intros st. apply preservesL_ret.
Qed.

Lemma preserves_handleExecute (req : Request) : preserves (handleExecute E req).
Proof.
  apply preserves_try_catch; [|intros e; apply preserves_ret].
  unfold handleExecute_try.
  destruct (extractAgentUserId E req) as [agent|]; [|apply preserves_ret].
  apply preserves_bind; [apply preserves_findByAgentUserId|].
  intros [link|]; [|apply preserves_ret].
  destruct (inputs (body req)) as [[|input rest]|]; try apply preserves_throw.
  destruct (payload input) as [pl|]; [|apply preserves_throw].
  apply preserves_with_local.
  apply preservesL_bind; [apply preservesL_iterable|]. intros batch.
  apply preservesL_bind.
  { apply preservesL_for_of. intros c. unfold handleExecute_command.
    apply preservesL_bind; [apply preservesL_iterable|]. intros devs.
    apply preservesL_for_of. intros dev. apply preservesL_handleExecute_device. }
  intros _. apply preservesL_bind; [apply preservesL_read_local|].
  intros st. apply preservesL_ret.
Qed.

End Frames.

(** X1.  QUERY and EXECUTE are read-only on the registry: whatever the
    request, the tokens, the registry errors and the gateway's answers,
    the [devices] and [google_account_links] tables are the same after
    the handler as before; only the gateway session cache and the call
    counter may move. *)
Theorem query_execute_read_only (E : Env) (req : Request) (w : World) :
  same_tables w (snd (handleQuery E req w))
  ∧ same_tables w (snd (handleExecute E req w)).
Proof.
  split; [apply preserves_handleQuery | apply preserves_handleExecute].
Qed.

(** ** Refusals *)

(** X2.  A SYNC, QUERY or EXECUTE envelope whose caller does not resolve
    is answered 401 [authFailure] before anything else happens.  Without a
    usable token no collaborator is called at all (the world is
    untouched); with a token whose subject has no active link, and the
    registry responding, the one link lookup is the only call made: no
    device is read and the gateway is not contacted. *)
Theorem unresolved_caller_refused (E : Env) (req : Request) (w : World)
    (i : string) :
  dispatched req i ->
  i ∈ guarded_intents ->
  extractAgentUserId E req = None
  ∨ (db_ok E ∧ ∃ a, extractAgentUserId E req = Some a ∧ lookup_link w a = None) ->
  fst (fulfillment E req w) = Ok (authFailure req)
  ∧ (extractAgentUserId E req = None -> snd (fulfillment E req w) = w)
  ∧ (snd (fulfillment E req w) = w ∨ snd (fulfillment E req w) = bump w).
Proof.
  intros Hd Hi Hcaller.
  pose proof (fulfillment_try_dispatched E req i Hd) as Htry.
  unfold fulfillment, try_catch. rewrite Htry.
  destruct (guarded_cases i Hi) as [-> | [-> | ->]]; simpl;
    unfold handleSync, handleSync_try, handleQuery, handleQuery_try,
           handleExecute, handleExecute_try, try_catch;
    (destruct Hcaller as [Hnone | (Hdb & a & Hsome & Hlink)];
     [ rewrite Hnone; simpl; by repeat split; auto
     | rewrite Hsome; unfold bind;
       rewrite (findByAgentUserId_ok E _ _ Hdb), Hlink; simpl;
       split; [reflexivity|]; split; [intros ?; congruence | by right] ]).
Qed.

Lemma unresolved_caller_refused_witness :
  fst (fulfillment calm (envelope nobody INTENT_EXECUTE (execute_payload light_and_fan))
         home)
  = Ok (authFailure (envelope nobody INTENT_EXECUTE (execute_payload light_and_fan)))
  ∧ (extractAgentUserId calm
       (envelope nobody INTENT_EXECUTE (execute_payload light_and_fan)) = None ->
     snd (fulfillment calm
            (envelope nobody INTENT_EXECUTE (execute_payload light_and_fan)) home)
     = home)
  ∧ (snd (fulfillment calm
            (envelope nobody INTENT_EXECUTE (execute_payload light_and_fan)) home)
     = home
     ∨ snd (fulfillment calm
              (envelope nobody INTENT_EXECUTE (execute_payload light_and_fan)) home)
       = bump home).
Proof.
  apply (unresolved_caller_refused calm _ home INTENT_EXECUTE).
  - split; [by eexists|]. eexists _, _. split; reflexivity.
  - unfold guarded_intents. apply list_elem_of_further, list_elem_of_further,
      list_elem_of_here.
  - left. reflexivity.
Defined.

(** ** Response shapes *)

Lemma answers_ret {S} (P : Response -> Prop) (r : Response) :
  P r -> answers P (@ret S Response r).
Proof. intros HP s r' s' [= <- _]. exact HP. Qed.

Lemma answers_throw {S} (P : Response -> Prop) (e : Error) :
  answers P (@throw S Response e).
Proof. intros s r s' H. discriminate. Qed.

Lemma answers_bind {S A} (P : Response -> Prop) (m : M S A)
    (k : A -> M S Response) :
  (∀ a, answers P (k a)) -> answers P (bind m k).
Proof.
  intros Hk s r s'. unfold bind.
  destruct (m s) as [[a|e] s1]; [apply Hk | discriminate].
Qed.

Lemma answers_with_local {L} (P : Response -> Prop) (init : L)
    (m : M (World * L) Response) :
  answers P m -> answers P (with_local init m).
Proof.
  intros Hm w r w'. unfold with_local.
  destruct (m (w, init)) as [o s1] eqn:Hrun. intros [= -> _].
  by apply (Hm _ _ _ Hrun).
Qed.

Lemma answers_try_catch {S} (P : Response -> Prop) (m : M S Response)
    (h : Error -> M S Response) :
  answers P m -> (∀ e, answers P (h e)) -> answers P (try_catch m h).
Proof.
  intros Hm Hh s r s'. unfold try_catch.
  destruct (m s) as [[a|e] s1] eqn:Hrun.
  - intros [= <- <-]. by apply (Hm _ _ _ Hrun).
  - apply Hh.
Qed.

Section Shapes.

Context (E : Env) (req : Request).

Lemma shaped_authFailure : well_shaped req (authFailure req).
Proof. right. eexists. split; [reflexivity|]. simpl. auto. Qed.

Lemma shaped_hardError {S} (e : Error) :
  answers (well_shaped req) (@hardError S req e).
Proof.
  apply answers_ret. right. eexists. split; [reflexivity|]. simpl.
  right. right. eauto.
Qed.

Lemma shaped_200 (p : Payload) :
  (∀ code dbg, p ≠ ErrorPayload code dbg) ->
  well_shaped req (respond 200 req p).
Proof.
  intros Hp. right. exists p. split; [reflexivity|].
  destruct p; try reflexivity. by destruct (Hp errorCode debugString).
Qed.

Lemma shaped_handleSync : answers (well_shaped req) (handleSync E req).
Proof.
  apply answers_try_catch; [|apply shaped_hardError].
  unfold handleSync_try.
  destruct (extractAgentUserId E req) as [agent|];
    [|apply answers_ret, shaped_authFailure].
  apply answers_bind. intros [link|]; [|apply answers_ret, shaped_authFailure].
  apply answers_bind. intros devs. apply answers_bind. intros _.
  by apply answers_ret, shaped_200.
Qed.

Lemma shaped_handleQuery : answers (well_shaped req) (handleQuery E req).
Proof.
  apply answers_try_catch; [|apply shaped_hardError].
  unfold handleQuery_try.
  destruct (extractAgentUserId E req) as [agent|];
    [|apply answers_ret, shaped_authFailure].
  apply answers_bind. intros [link|]; [|apply answers_ret, shaped_authFailure].
  destruct (inputs (body req)) as [[|input rest]|]; try apply answers_throw.
  destruct (payload input) as [pl|]; [|apply answers_throw].
  apply answers_with_local. do 3 (apply answers_bind; intros ?).
  by apply answers_ret, shaped_200.
Qed.

Lemma shaped_handleExecute : answers (well_shaped req) (handleExecute E req).
Proof.
  apply answers_try_catch; [|apply shaped_hardError].
  unfold handleExecute_try.
  destruct (extractAgentUserId E req) as [agent|];
    [|apply answers_ret, shaped_authFailure].
  apply answers_bind. intros [link|]; [|apply answers_ret, shaped_authFailure].
  destruct (inputs (body req)) as [[|input rest]|]; try apply answers_throw.
  destruct (payload input) as [pl|]; [|apply answers_throw].
  apply answers_with_local. do 3 (apply answers_bind; intros ?).
  by apply answers_ret, shaped_200.
Qed.

Lemma shaped_handleDisconnect : answers (well_shaped req) (handleDisconnect E req).
Proof.
  apply answers_try_catch; [|intros e; by apply answers_ret, shaped_200].
  unfold handleDisconnect_try.
  destruct (extractAgentUserId E req) as [agent|];
    [apply answers_bind; intros _|]; by apply answers_ret, shaped_200.
Qed.

Lemma shaped_fulfillment : answers (well_shaped req) (fulfillment E req).
Proof.
  apply answers_try_catch; [|apply shaped_hardError].
  unfold fulfillment_try.
  assert (Hns : well_shaped req (respond 400 req (ErrorPayload "notSupported" None))).
  { right. eexists. split; [reflexivity|]. simpl. auto. }
  destruct (truthy_opt (requestId (body req)));
    [|apply answers_ret; by left].
  destruct (inputs (body req)) as [[|input rest]|];
    [apply answers_throw | | apply answers_ret; by left].
  destruct (intent input) as [i|]; [|by apply answers_ret].
  repeat case_match;
    auto using shaped_handleSync, shaped_handleQuery, shaped_handleExecute,
               shaped_handleDisconnect.
  by apply answers_ret.
Qed.

End Shapes.

(** X3.  The endpoint always answers, and status and error code always
    agree: the response is the 400 'Invalid request format' body, or it
    carries the request's own requestId with either a 200 result payload,
    or 401 with [authFailure], or 400 with [notSupported], or 500 with
    [hardError] and a debug string; no other combination is ever sent. *)
Theorem fulfillment_well_shaped (E : Env) (req : Request) (w : World) :
  ∃ r, fst (fulfillment E req w) = Ok r ∧ well_shaped req r.
Proof.
  pose proof (shaped_fulfillment E req w) as Hshape.
  unfold fulfillment, try_catch in *.
  destruct (fulfillment_try E req w) as [[r|e] w'] eqn:Hrun; simpl.
  - exists r. split; [reflexivity|]. by eapply Hshape.
  - eexists. split; [reflexivity|]. by eapply Hshape.
Qed.

(** ** Side effects of SYNC and DISCONNECT *)

Lemma update_links_synced (agent : string) (t : Z) (ls : list LinkRow) :
  Forall2 kept_or_synced ls (update_links agent (touch_sync t) ls).
Proof.
  induction ls as [|l ls IH]; simpl; constructor; [|exact IH].
  unfold kept_or_synced. destruct (String.eqb _ _); eauto.
Qed.

Lemma synced_refl (ls : list LinkRow) : Forall2 kept_or_synced ls ls.
Proof. induction ls; constructor; [by left | done]. Qed.

Lemma updateLastSync_run (E : Env) (agent : string) (w : World) :
  tbl_devices (snd (GoogleAccountLinkModel_updateLastSync E agent w))
  = tbl_devices w
  ∧ (tbl_google_account_links (snd (GoogleAccountLinkModel_updateLastSync E agent w))
     = tbl_google_account_links w
     ∨ tbl_google_account_links
         (snd (GoogleAccountLinkModel_updateLastSync E agent w))
       = update_links agent (touch_sync (Date_now E (calls w)))
           (tbl_google_account_links w))
  ∧ (db_ok E ->
     tbl_google_account_links
       (snd (GoogleAccountLinkModel_updateLastSync E agent w))
     = update_links agent (touch_sync (Date_now E (calls w)))
         (tbl_google_account_links w)).
Proof.
  unfold GoogleAccountLinkModel_updateLastSync, now, sqlite_run, bind, tick.
  simpl. destruct (sqlite_error E (S (calls w))) as [e|] eqn:Herr; simpl.
  - split; [reflexivity|]. split; [by left|]. intros Hdb. by rewrite Hdb in Herr.
  - split; [reflexivity|]. split; [by right | reflexivity].
Qed.

(** X4.  SYNC writes nothing but a sync time.  Whatever happens, the
    [devices] table is unchanged and each link row is afterwards itself
    or itself with a new [last_sync_at] (its user, subject, tokens and
    active flag are never touched); when the caller resolves and the
    registry responds, exactly the rows of the caller's subject are
    stamped, with the clock value read during the request. *)
Theorem sync_only_stamps (E : Env) (req : Request) (w : World) :
  tbl_devices (snd (handleSync E req w)) = tbl_devices w
  ∧ Forall2 kept_or_synced
      (tbl_google_account_links w)
      (tbl_google_account_links (snd (handleSync E req w)))
  ∧ (db_ok E ->
     ∀ agent, extractAgentUserId E req = Some agent ->
              is_Some (lookup_link w agent) ->
       tbl_google_account_links (snd (handleSync E req w))
       = update_links agent (touch_sync (Date_now E (S (S (calls w)))))
           (tbl_google_account_links w)).
Proof.
  remember (handleSync E req w) as x eqn:Hx.
  unfold handleSync, try_catch, handleSync_try in Hx.
  destruct (extractAgentUserId E req) as [agent|] eqn:Hagent.
  2:{ subst x. simpl. split; [reflexivity|]. split; [apply synced_refl|].
      intros _ a Ha. discriminate. }
  unfold bind in Hx.
  pose proof (preserves_findByAgentUserId E agent w) as [Hd1 Hl1].
  destruct (GoogleAccountLinkModel_findByAgentUserId E agent w)
    as [[link|e] w1] eqn:Hfind; simpl in Hd1, Hl1.
  2:{ subst x. simpl. rewrite Hd1, Hl1. split; [reflexivity|].
      split; [apply synced_refl|]. intros Hdb a _ _.
      rewrite (findByAgentUserId_ok E _ _ Hdb) in Hfind. discriminate. }
  destruct link as [link|].
  2:{ subst x. simpl. rewrite Hd1, Hl1. split; [reflexivity|].
      split; [apply synced_refl|]. intros Hdb a [= <-] [l Hl].
      rewrite (findByAgentUserId_ok E _ _ Hdb) in Hfind. congruence. }
  assert (Hsync : preserves (DeviceModel_findAllForSync E (l_user_id link))).
  { apply preserves_bind; [apply preserves_sqlite_run|]. intros _.
    apply preserves_bind; [apply preserves_get|]. intros ?. apply preserves_ret. }
  pose proof (Hsync w1) as [Hd2 Hl2].
  destruct (DeviceModel_findAllForSync E (l_user_id link) w1)
    as [[devs|e] w2] eqn:Hall; simpl in Hd2, Hl2.
  2:{ subst x. simpl. rewrite Hd2, Hl2, Hd1, Hl1. split; [reflexivity|].
      split; [apply synced_refl|]. intros Hdb a _ _.
      rewrite (findAllForSync_ok E _ _ Hdb) in Hall. discriminate. }
  pose proof (updateLastSync_run E agent w2) as (Hd3 & Hl3 & Hok3).
  assert (Hw3 : snd x = snd (GoogleAccountLinkModel_updateLastSync E agent w2)).
  { subst x. by destruct (GoogleAccountLinkModel_updateLastSync E agent w2)
      as [[[]|e] w3]. }
  rewrite Hw3. split; [congruence|]. split.
  - destruct Hl3 as [-> | ->]; rewrite Hl2, Hl1;
      [apply synced_refl | apply update_links_synced].
  - intros Hdb a [= <-] _. rewrite (Hok3 Hdb), Hl2, Hl1.
    rewrite (findByAgentUserId_ok E _ _ Hdb) in Hfind.
    rewrite (findAllForSync_ok E _ _ Hdb) in Hall.
    injection Hfind as _ <-. injection Hall as _ <-. reflexivity.
Qed.

(** The stamp on the sample home. *)
Example sync_stamps_alice :
  tbl_google_account_links
    (snd (handleSync calm (envelope alice INTENT_SYNC no_payload) home))
  = [touch_sync 1000002 (link_row 1 1 "agent_1" 1); link_row 2 2 "agent_2" 0].
Proof. reflexivity. Qed.

Lemma update_links_other (a b : string) (f : LinkRow -> LinkRow)
    (ls : list LinkRow) :
  a ≠ b ->
  (∀ l, l_google_agent_user_id (f l) = l_google_agent_user_id l) ->
  List.find (agent_active b) (update_links a f ls)
  = List.find (agent_active b) ls.
Proof.
  intros Hne Hf. induction ls as [|l ls IH]; simpl; [done|].
  destruct (String.eqb (l_google_agent_user_id l) a) eqn:Hl.
  - apply String.eqb_eq in Hl.
    assert (Hb : String.eqb (l_google_agent_user_id l) b = false).
    { apply String.eqb_neq. congruence. }
    unfold agent_active at 1 3. rewrite Hf, Hb. simpl. exact IH.
  - destruct (agent_active b l); [reflexivity | exact IH].
Qed.

(** X5.  DISCONNECT touches one subject only: the [devices] table is
    unchanged, and for every subject other than the caller's the active
    link found afterwards is the one found before. *)
Theorem disconnect_isolated (E : Env) (req : Request) (w : World) :
  tbl_devices (snd (handleDisconnect E req w)) = tbl_devices w
  ∧ ∀ b, extractAgentUserId E req ≠ Some b ->
         lookup_link (snd (handleDisconnect E req w)) b = lookup_link w b.
Proof.
  split.
  - unfold handleDisconnect, try_catch, handleDisconnect_try.
    destruct (extractAgentUserId E req) as [agent|]; [|reflexivity].
    unfold GoogleAccountLinkModel_disconnect, sqlite_run, bind, tick. simpl.
    by destruct (sqlite_error E (calls w)).
  - intros b Hb. unfold lookup_link.
    destruct (handleDisconnect_run E req w) as (_ & [-> | (a & Ha & ->)] & _);
      [reflexivity|].
    apply update_links_other; [congruence | reflexivity].
Qed.

(** X6.  A disconnect revokes the token: once DISCONNECT has been handled
    for a subject (registry responding), every later SYNC, QUERY or
    EXECUTE envelope presenting a token of that subject is answered 401
    [authFailure], although the token itself still decodes. *)
Theorem disconnected_token_refused (E : Env) (req_d req : Request) (w : World)
    (i a : string) :
  db_ok E ->
  extractAgentUserId E req_d = Some a ->
  extractAgentUserId E req = Some a ->
  dispatched req i ->
  i ∈ guarded_intents ->
  fst (fulfillment E req (snd (handleDisconnect E req_d w)))
  = Ok (authFailure req).
Proof.
  intros Hdb Had Ha Hd Hi.
  apply (guarded_unlinked E req _ i a Hdb Hd Hi Ha).
  destruct (handleDisconnect_run E req_d w) as (_ & _ & Hok).
  unfold lookup_link. rewrite (Hok Hdb a Had). apply update_links_no_active.
Qed.

Lemma disconnected_token_refused_witness :
  fst (fulfillment calm (envelope alice INTENT_SYNC no_payload)
         (snd (handleDisconnect calm
                 (envelope alice INTENT_DISCONNECT no_payload) home)))
  = Ok (authFailure (envelope alice INTENT_SYNC no_payload)).
Proof.
  apply (disconnected_token_refused calm _ _ home INTENT_SYNC "agent_1").
  - intros n. reflexivity.
  - reflexivity.
  - reflexivity.
  - split; [by eexists|]. eexists _, _. split; reflexivity.
  - apply list_elem_of_here.
Defined.

(** ** EXECUTE while the gateway refuses every RPC *)

Section ExecuteDown.

Context (E : Env) (Hdb : db_ok E) (Hdown : rpc_down E) (link : LinkRow).

Lemma sendRpcCommand_down (deviceId : option string) (method : string)
    (params : RpcParams) (w : World) :
  ∃ e w', thingsboardService_sendRpcCommand E deviceId method params w
          = (Throw e, w') ∧ same_tables w w'.
Proof.
  pose proof (sendRpcCommand_frame E deviceId method params w) as Hframe.
  destruct (thingsboardService_sendRpcCommand E deviceId method params w)
    as [[[]|e] w'] eqn:Hrun; [|eauto].
  exfalso. revert Hrun.
  unfold thingsboardService_sendRpcCommand, try_catch, bind, throw.
  destruct (thingsboardService_getAdminToken E w) as [[tok|e] w1]; simpl;
    [|discriminate].
  destruct (Hdown (calls w1) (interpolate deviceId)
              (mkRpcBody method params true 5000) tok) as [e He].
  rewrite He. simpl. discriminate.
Qed.

(** One execution: unsupported is answered on the spot; anything else
    raises, leaving the entries pushed so far. *)
Lemma handleExecute_execution_down (deviceId : string) (d : Device)
    (x : Execution) (w : World) (acc : list CommandResult) :
  match convertGoogleCommandToRpc (ex_command x) (ex_params x) d with
  | Ok None =>
      handleExecute_execution E deviceId d x (w, acc)
      = (Ok tt, (w, (acc ++ [CommandError [deviceId] "functionNotSupported"])%list))
  | _ =>
      ∃ e w', handleExecute_execution E deviceId d x (w, acc)
              = (Throw e, (w', acc)) ∧ same_tables w w'
  end.
Proof.
  unfold handleExecute_execution, bind.
  destruct (convertGoogleCommandToRpc (ex_command x) (ex_params x) d)
    as [[rpc|]|e] eqn:Hconv; simpl.
  - unfold liftW. simpl.
    destruct (sendRpcCommand_down (thingsboard_device_id d) (method rpc)
                (params rpc) w) as (e & w' & Hsend & Hs).
    rewrite Hsend. eauto.
  - reflexivity.
  - exists e, w. split; [reflexivity | apply same_tables_refl].
Qed.

(** The loop over the executions of one owned device either runs to the
    end, having answered [functionNotSupported] throughout, or raises at
    the first execution that needs the gateway, with the entries pushed
    so far still in place. *)
Lemma executions_loop_down (deviceId : string) (d : Device)
    (es : list Execution) :
  ∀ (w : World) (acc : list CommandResult),
  ∃ w', same_tables w w' ∧
    (for_of es (handleExecute_execution E deviceId d) (w, acc)
     = (Ok tt, (w', (acc ++ entries_until_fault deviceId d es)%list))
     ∨ ∃ e pre,
         for_of es (handleExecute_execution E deviceId d) (w, acc)
         = (Throw e, (w', (acc ++ pre)%list))
         ∧ entries_until_fault deviceId d es
           = (pre ++ [CommandError [deviceId] "hardError"])%list).
Proof.
  induction es as [|x es IH]; intros w acc.
  - exists w. split; [apply same_tables_refl|]. left. simpl.
    by rewrite app_nil_r.
  - cbn [for_of entries_until_fault]. unfold bind.
    pose proof (handleExecute_execution_down deviceId d x w acc) as Hbody.
    destruct (convertGoogleCommandToRpc (ex_command x) (ex_params x) d)
      as [[rpc|]|e0] eqn:Hconv.
    + destruct Hbody as (e & w' & Hrun & Hs). rewrite Hrun.
      exists w'. split; [exact Hs|]. right. exists e, [].
      by rewrite app_nil_r.
    + rewrite Hbody.
      destruct (IH w (acc ++ [CommandError [deviceId] "functionNotSupported"])%list)
        as (w' & Hs & [Hok | (e & pre & Hthrow & Hent)]).
      * exists w'. split; [exact Hs|]. left. rewrite Hok.
        by rewrite <- app_assoc.
      * exists w'. split; [exact Hs|]. right.
        exists e, (CommandError [deviceId] "functionNotSupported" :: pre).
        rewrite Hthrow, Hent. by rewrite <- app_assoc.
    + destruct Hbody as (e & w' & Hrun & Hs). rewrite Hrun.
      exists w'. split; [exact Hs|]. right. exists e, [].
      by rewrite app_nil_r.
Qed.

Lemma faulty_device_entries_same (w w' : World) (c : Command) (dev : ReqDevice) :
  same_tables w w' ->
  faulty_device_entries w' link c dev = faulty_device_entries w link c dev.
Proof.
  intros Hs. unfold faulty_device_entries.
  by rewrite (owned_row_same _ _ _ _ Hs).
Qed.

Lemma handleExecute_device_down (c : Command) (dev : ReqDevice) (w : World)
    (acc : list CommandResult) :
  is_Some (c_execution c) ->
  ∃ w',
    handleExecute_device E link c dev (w, acc)
    = (Ok tt, (w', (acc ++ faulty_device_entries w link c dev)%list))
    ∧ same_tables w w'.
Proof.
  intros [es Hes].
  unfold handleExecute_device, try_catch, bind, liftW, faulty_device_entries,
         owned_row.
  simpl. rewrite (findByUuid_ok E _ _ Hdb).
  destruct (lookup_device w (rd_id dev)) as [r|] eqn:Hr; simpl.
  - destruct (r_owner_user_id r =? l_user_id link) eqn:Hown; simpl.
    + unfold executions_of. rewrite Hes. simpl.
      destruct (executions_loop_down (rd_id dev) (parse_row r) es (bump w) acc)
        as (w' & Hs & [Hok | (e & pre & Hthrow & Hent)]).
      * rewrite Hok. exists w'. split; [reflexivity|].
        eapply same_tables_trans; [apply same_tables_bump | exact Hs].
      * rewrite Hthrow, Hent. exists w'. split.
        { unfold push, modify_local, modify. simpl. by rewrite <- app_assoc. }
        eapply same_tables_trans; [apply same_tables_bump | exact Hs].
    + exists (bump w). split; [reflexivity | apply same_tables_bump].
  - exists (bump w). split; [reflexivity | apply same_tables_bump].
Qed.

Lemma devices_loop_down (c : Command) (devs : list ReqDevice) :
  is_Some (c_execution c) ->
  ∀ (w : World) (acc : list CommandResult),
  ∃ w',
    for_of devs (handleExecute_device E link c) (w, acc)
    = (Ok tt, (w', (acc ++ flat_map (faulty_device_entries w link c) devs)%list))
    ∧ same_tables w w'.
Proof.
  intros Hes.
  induction devs as [|dev devs IH]; intros w acc.
  - exists w. simpl. rewrite app_nil_r.
    split; [reflexivity | apply same_tables_refl].
  - destruct (handleExecute_device_down c dev w acc Hes) as (w1 & Hrun & Hs1).
    destruct (IH w1 (acc ++ faulty_device_entries w link c dev)%list)
      as (w2 & Hloop & Hs2).
    exists w2. split; [|by eapply same_tables_trans].
    cbn [for_of flat_map]. unfold bind. rewrite Hrun, Hloop.
    rewrite <- app_assoc. do 4 f_equal.
    apply flat_map_ext. intros dev'. by apply faulty_device_entries_same.
Qed.

Lemma commands_loop_down (batch : list Command) :
  listed_batch batch ->
  ∀ (w : World) (acc : list CommandResult),
  ∃ w',
    for_of batch (handleExecute_command E link) (w, acc)
    = (Ok tt, (w', (acc ++ faulty_batch_entries w link batch)%list))
    ∧ same_tables w w'.
Proof.
  induction 1 as [|c batch (Hdevs & Hes) Hwf IH]; intros w acc.
  - exists w. simpl. rewrite app_nil_r.
    split; [reflexivity | apply same_tables_refl].
  - destruct Hdevs as [devs Hdevs].
    destruct (devices_loop_down c devs Hes w acc) as (w1 & Hrun & Hs1).
    destruct (IH w1 (acc ++ flat_map (faulty_device_entries w link c) devs)%list)
      as (w2 & Hloop & Hs2).
    exists w2. split; [|by eapply same_tables_trans].
    cbn [for_of]. unfold bind at 1. unfold handleExecute_command at 1.
    unfold bind at 1. unfold iterable. rewrite Hdevs. simpl.
    rewrite Hrun, Hloop. unfold faulty_batch_entries. cbn [flat_map].
    unfold devices_of at 2. rewrite Hdevs.
    rewrite <- app_assoc. do 4 f_equal.
    apply flat_map_ext. intros c'. apply flat_map_ext. intros dev'.
    by apply faulty_device_entries_same.
Qed.

End ExecuteDown.

(** X7.  When the gateway refuses every RPC (registry responding, caller
    resolved, every group listing its devices and executions), EXECUTE
    still answers 200 and every device is processed: a device that fails
    the ownership check gets one [deviceNotFound]; an owned device gets
    [functionNotSupported] for each leading unsupported execution, then a
    single [hardError] at its first execution that needs the gateway, and
    nothing for the executions after it. *)
Theorem execute_gateway_down (E : Env) (w : World) (req : Request)
    (agent : string) (link : LinkRow) (pl : InputPayload)
    (batch : list Command) :
  db_ok E ->
  rpc_down E ->
  resolved E w req agent link pl ->
  pl_commands pl = Some batch ->
  listed_batch batch ->
  fst (handleExecute E req w)
  = Ok (respond 200 req (ExecutePayload (faulty_batch_entries w link batch))).
Proof.
  intros Hdb Hdown (Hagent & Hlink & input & rest & Hin & Hpl) Hbatch Hwf.
  destruct (commands_loop_down E Hdb Hdown link batch Hwf (bump w) [])
    as (w' & Hloop & Hs).
  unfold handleExecute, try_catch, handleExecute_try.
  rewrite Hagent. unfold bind at 1.
  rewrite (findByAgentUserId_ok E _ _ Hdb), Hlink, Hin, Hpl.
  unfold with_local, bind, iterable. rewrite Hbatch. simpl.
  rewrite Hloop. reflexivity.
Qed.

Lemma execute_gateway_down_witness :
  fst (handleExecute rpc_fails
         (envelope alice INTENT_EXECUTE (execute_payload light_and_fan)) home)
  = Ok (respond 200
          (envelope alice INTENT_EXECUTE (execute_payload light_and_fan))
          (ExecutePayload (faulty_batch_entries home alice_link light_and_fan))).
Proof.
  apply (execute_gateway_down rpc_fails home _ "agent_1" alice_link
           (execute_payload light_and_fan) light_and_fan).
  - intros n. reflexivity.
  - intros n i b t. eexists. reflexivity.
  - split; [reflexivity|]. split; [reflexivity|].
    eexists _, _. split; reflexivity.
  - reflexivity.
  - repeat constructor; simpl; eauto.
Defined.

(** The second execution of each owned device is never attempted. *)
Example light_and_fan_gateway_down :
  faulty_batch_entries home alice_link light_and_fan =
  [CommandError ["dev-light"] "hardError";
   CommandError ["dev-fan"] "hardError";
   CommandError ["dev-other"] "deviceNotFound"].
Proof. reflexivity. Qed.

(** ** The translators *)

Lemma supported_translates (googleCommand : string) (d : Device) :
  supported googleCommand d ->
  (∀ p, ∃ rpc, convertGoogleCommandToRpc googleCommand (Some p) d = Ok (Some rpc))
  ∧ ∃ e, convertGoogleCommandToRpc googleCommand None d = Throw e.
Proof.
  unfold convertGoogleCommandToRpc.
  intros [-> | [[-> Hfan] | [-> Hdim]]]; simpl.
  - split; eauto.
  - apply has_fan_includes in Hfan. rewrite Hfan. split; eauto.
  - apply includes_spec in Hdim. rewrite Hdim. split; eauto.
Qed.

Lemma not_supported_sentinel (googleCommand : string) (d : Device)
    (p : option Params) :
  ¬ supported googleCommand d ->
  convertGoogleCommandToRpc googleCommand p d = Ok None.
Proof.
  intros Hns. unfold convertGoogleCommandToRpc, supported in *.
  destruct (String.eqb googleCommand CMD_OnOff) eqn:H1.
  { apply String.eqb_eq in H1. tauto. }
  destruct (String.eqb googleCommand CMD_SetFanSpeed) eqn:H2.
  { apply String.eqb_eq in H2.
    destruct (includes "fan" (caps_of d) || includes "speed" (caps_of d)) eqn:Hf;
      [|reflexivity].
    apply has_fan_includes in Hf. tauto. }
  destruct (String.eqb googleCommand CMD_BrightnessAbsolute) eqn:H3;
    [|reflexivity].
  apply String.eqb_eq in H3.
  destruct (includes "dimmer" (caps_of d)) eqn:Hd; [|reflexivity].
  apply includes_spec in Hd. tauto.
Qed.

Lemma supported_dec (googleCommand : string) (d : Device) :
  supported googleCommand d ∨ ¬ supported googleCommand d.
Proof.
  unfold supported.
  destruct (String.eqb googleCommand CMD_OnOff) eqn:H1;
    [apply String.eqb_eq in H1; auto|].
  apply String.eqb_neq in H1.
  destruct (String.eqb googleCommand CMD_SetFanSpeed) eqn:H2.
  { apply String.eqb_eq in H2. subst.
    destruct (includes "fan" (caps_of d) || includes "speed" (caps_of d)) eqn:Hf.
    - apply has_fan_includes in Hf. auto.
    - right. intros [? | [[_ Hfan] | [? _]]]; try discriminate.
      apply has_fan_includes in Hfan. congruence. }
  apply String.eqb_neq in H2.
  destruct (String.eqb googleCommand CMD_BrightnessAbsolute) eqn:H3.
  { apply String.eqb_eq in H3. subst.
    destruct (includes "dimmer" (caps_of d)) eqn:Hd.
    - apply includes_spec in Hd. auto.
    - right. intros [? | [[? _] | [_ Hdim]]]; try discriminate.
      apply includes_spec in Hdim. congruence. }
  apply String.eqb_neq in H3. right. tauto.
Qed.

(** X8.  What the EXECUTE translation answers depends only on the command
    and the capability list: On/Off is accepted for every device,
    SetFanSpeed exactly with 'fan' or 'speed', BrightnessAbsolute exactly
    with 'dimmer'.  An accepted command with a parameter object always
    yields an RPC; an accepted command without one raises (reading a
    property of [undefined]); every other command yields the sentinel,
    parameters or not.  On/Off always addresses sub-device 'device1'. *)
Theorem translation_outcome (googleCommand : string) (d : Device) :
  (∀ p, supported googleCommand d
        ↔ ∃ rpc, convertGoogleCommandToRpc googleCommand (Some p) d
                 = Ok (Some rpc))
  ∧ (supported googleCommand d
     ↔ ∃ e, convertGoogleCommandToRpc googleCommand None d = Throw e)
  ∧ (∀ p, ¬ supported googleCommand d
          ↔ convertGoogleCommandToRpc googleCommand p d = Ok None)
  ∧ (∀ p, convertGoogleCommandToRpc CMD_OnOff (Some p) d
          = Ok (Some {| method := "setDeviceState";
                        params := ParamsDeviceState "device1" (p_on p);
                        resultState := StateOn (p_on p) |})).
Proof.
  assert (Hno : ∀ p, supported googleCommand d ->
                     convertGoogleCommandToRpc googleCommand p d ≠ Ok None).
  { intros p Hs. destruct (supported_translates _ _ Hs) as (Hsome & e & He).
    destruct p as [p|]; [destruct (Hsome p) as [rpc Hr]|]; congruence. }
  split; [|split; [|split]].
  - intros p. split; [intros Hs; by apply supported_translates|].
    intros [rpc Hr]. destruct (supported_dec googleCommand d) as [Hs|Hns];
      [exact Hs|].
    rewrite (not_supported_sentinel _ _ (Some p) Hns) in Hr. discriminate.
  - split; [intros Hs; by apply supported_translates|].
    intros [e He]. destruct (supported_dec googleCommand d) as [Hs|Hns];
      [exact Hs|].
    rewrite (not_supported_sentinel _ _ None Hns) in He. discriminate.
  - intros p. split; [by apply not_supported_sentinel|].
    intros Hnone Hs. by apply (Hno p Hs).
  - reflexivity.
Qed.

(** X9.  Every trait a device advertises at SYNC can be exercised at
    EXECUTE: for each trait in the descriptor, the command of that trait,
    sent with a parameter object, is translated to an RPC for that same
    device (never to the sentinel). *)
Theorem advertised_traits_executable (d : Device) (trait : string) (p : Params) :
  trait ∈ gd_traits (convertToGoogleDevice d) ->
  ∃ cmd rpc,
    command_of_trait trait = Some cmd
    ∧ convertGoogleCommandToRpc cmd (Some p) d = Ok (Some rpc).
Proof.
  intros Hin. unfold convertToGoogleDevice in Hin.
  pose proof (type_and_traits_policy (caps_of d)) as Hpol.
  destruct (type_and_traits (caps_of d)) as [ty tr]. simpl in *.
  assert (Hgo : ∀ cmd, command_of_trait trait = Some cmd -> supported cmd d ->
            ∃ cmd rpc, command_of_trait trait = Some cmd
              ∧ convertGoogleCommandToRpc cmd (Some p) d = Ok (Some rpc)).
  { intros cmd Hc Hs. destruct (supported_translates cmd d Hs) as [Hsome _].
    destruct (Hsome p) as [rpc Hr]. eauto. }
  inversion Hpol; subst; rewrite ?elem_of_cons, elem_of_nil in Hin;
    destruct Hin as [-> | Hin]; try (destruct Hin as [-> | []]); try done.
  all: try (apply (Hgo CMD_OnOff); [reflexivity | by left]).
  - apply (Hgo CMD_BrightnessAbsolute); [reflexivity|]. right. right. by split.
  - apply (Hgo CMD_SetFanSpeed); [reflexivity|]. right. left. by split.
Qed.

Lemma advertised_traits_executable_witness :
  ∃ cmd rpc,
    command_of_trait TRAIT_FanSpeed = Some cmd
    ∧ convertGoogleCommandToRpc cmd (Some (fan_speed_params "speed_2")) fan_device
      = Ok (Some rpc).
Proof.
  apply (advertised_traits_executable fan_device TRAIT_FanSpeed).
  simpl. apply list_elem_of_further, list_elem_of_here.
Defined.

(** The converse fails: a ["light","fan"] device is advertised as a light
    without FanSpeed, yet its fan-speed command is accepted. *)
Example fan_speed_not_advertised :
  gd_traits (convertToGoogleDevice
               (mkDevice "dev-x" None "x" "panel" None None
                  (Some ["light"; "fan"]) 0))
  = [TRAIT_OnOff]
  ∧ ∃ rpc,
      convertGoogleCommandToRpc CMD_SetFanSpeed
        (Some (fan_speed_params "speed_1"))
        (mkDevice "dev-x" None "x" "panel" None None (Some ["light"; "fan"]) 0)
      = Ok (Some rpc).
Proof. split; [reflexivity | by eexists]. Qed.

Lemma is_on_spec (v : option Scalar) :
  is_on v = true ↔ v = Some (SNum 1) ∨ v = Some (SBool true).
Proof.
  split.
  - destruct v as [[| [|] | z | f | s]|]; simpl; try discriminate; auto.
    destruct z as [|[]|]; simpl; try discriminate; auto.
  - intros [-> | ->]; reflexivity.
Qed.

(** X10.  The on/off flag of a QUERY answer is the logical OR over the
    telemetry keys that contain both 'device' and 'state': it is set
    exactly when, for some such key, the first sample of the series has
    the value 1 or true (strictly: the string '1' does not count, nor
    does a later sample, nor a key such as 'fan_speed').  Without
    telemetry the state is off with no fan speed. *)
Theorem on_flag_spec (d : Device) (telemetry : gmap string (list TsPoint))
    (attributes : option (list (string * Scalar))) :
  (on (convertToGoogleState d (Some telemetry) attributes) = true
   ↔ ∃ k p pts,
       telemetry !! k = Some (p :: pts)
       ∧ str_includes "device" k = true ∧ str_includes "state" k = true
       ∧ (value p = Some (SNum 1) ∨ value p = Some (SBool true)))
  ∧ convertToGoogleState d None attributes = state_off.
Proof.
  split; [|reflexivity].
  unfold convertToGoogleState. cbn [on].
  rewrite existsb_exists. split.
  - intros (v & Hv & Hon). apply in_map_iff in Hv.
    destruct Hv as ([k pts] & <- & Hin). apply filter_In in Hin.
    destruct Hin as [Hin Hkey]. simpl in *.
    apply andb_true_iff in Hkey. destruct Hkey as [Hk1 Hk2].
    apply list_elem_of_In, elem_of_map_to_list in Hin.
    destruct pts as [|p pts]; [discriminate|]. simpl in Hon.
    exists k, p, pts. repeat split; try done. by apply is_on_spec.
  - intros (k & p & pts & Hlook & Hk1 & Hk2 & Hval).
    exists (value p). split; [|by apply is_on_spec].
    apply in_map_iff. exists (k, p :: pts). split; [reflexivity|].
    apply filter_In. split.
    + by apply list_elem_of_In, elem_of_map_to_list.
    + simpl. by rewrite Hk1, Hk2.
Qed.

(** A string '1', as some gateways report it, leaves the device off. *)
Example on_flag_string_value :
  on (convertToGoogleState fan_device
        (Some {[ "device1_state" := [mkTsPoint 10 (Some (SStr "1"))] ]}) None)
  = false.
Proof. vm_compute. reflexivity. Qed.

(** X11.  Fan speed makes the round trip: when telemetry reports a
    numeric fan speed between 0 and 5, the label QUERY returns for it,
    sent back in a SetFanSpeed command to a fan device, is translated to
    the RPC [setFanSpeed] with that same speed. *)
Theorem fan_speed_round_trip (d d' : Device)
    (telemetry : gmap string (list TsPoint))
    (attributes : option (list (string * Scalar)))
    (t z : Z) (pts : list TsPoint) :
  telemetry !! "fan_speed" = Some (mkTsPoint t (Some (SNum z)) :: pts) ->
  0 <= z <= 5 ->
  has_fan d' ->
  ∃ label,
    currentFanSpeedSetting (convertToGoogleState d (Some telemetry) attributes)
    = Some label
    ∧ convertGoogleCommandToRpc CMD_SetFanSpeed
        (Some {| p_on := None; p_fanSpeed := Some (SStr label);
                 p_brightness := None |}) d'
      = Ok (Some {| method := "setFanSpeed";
                    params := ParamsSpeed (SpeedNum z);
                    resultState := StateFanSpeed (Some (SStr label)) |}).
Proof.
  intros Hlook Hz Hfan.
  unfold convertToGoogleState. cbn [currentFanSpeedSetting]. rewrite Hlook.
  cbn [value to_string]. eexists. split; [reflexivity|].
  rewrite (fan_speed_translation d' _ Hfan). cbn [p_fanSpeed].
  assert (Hcases : z = 0 ∨ z = 1 ∨ z = 2 ∨ z = 3 ∨ z = 4 ∨ z = 5) by lia.
  destruct Hcases as [-> | [-> | [-> | [-> | [-> | ->]]]]]; reflexivity.
Qed.

Lemma fan_speed_round_trip_witness :
  ∃ label,
    currentFanSpeedSetting
      (convertToGoogleState fan_device (Some sample_telemetry) None)
    = Some label
    ∧ convertGoogleCommandToRpc CMD_SetFanSpeed
        (Some {| p_on := None; p_fanSpeed := Some (SStr label);
                 p_brightness := None |}) fan_device
      = Ok (Some {| method := "setFanSpeed";
                    params := ParamsSpeed (SpeedNum 3);
                    resultState := StateFanSpeed (Some (SStr label)) |}).
Proof.
  apply (fan_speed_round_trip fan_device fan_device sample_telemetry None 10 3 []).
  - reflexivity.
  - lia.
  - left. simpl. apply list_elem_of_here.
Defined.

(** Numbers are shown as JavaScript shows them: all digits up to 2^53,
    the shortest digits that denote the same double above, in exponent
    form from 1e21. *)
Example number_labels :
  to_string (Some (SNum 9007199254740993)) = "9007199254740992"
  ∧ to_string (Some (SNum 1152921504606846976)) = "1152921504606847000"
  ∧ to_string (Some (SNum 1000000000000000000000)) = "1e+21"
  ∧ to_string (Some (SNum (-123456789012345678901234567890)))
    = "-1.2345678901234568e+29"
  ∧ currentFanSpeedSetting
      (convertToGoogleState fan_device
         (Some {[ "fan_speed" :=
                    [mkTsPoint 10 (Some (SNum 1000000000000000000000))] ]})
         None)
    = Some "speed_1e+21".
Proof. vm_compute. repeat split. Qed.

(** A reported speed outside 0..5 does not come back: 7 becomes 0. *)
Example fan_speed_out_of_range :
  speed_lookup (Some (SStr ("speed_" ++ to_string (Some (SNum 7))))) = SpeedNum 0.
Proof. vm_compute. reflexivity. Qed.

(** ** Caller identity, continued *)

Lemma bearer_split (h : string) :
  String.prefix "Bearer " h = true -> h = "Bearer " ++ substring_from 7 h.
Proof.
  intros Hp. apply String.prefix_correct in Hp.
  do 7 (destruct h as [|? h]; [discriminate|]).
  simpl in Hp. injection Hp as <- <- <- <- <- <- <- _. reflexivity.
Qed.

(** X12.  The fulfillment route recognises a caller exactly when the
    Authorization header is 'Bearer ' (case-sensitive, one space) followed
    by a token that [jwt.decode] decodes to a payload with a non-empty
    [agentUserId]; that field is then the identity.  A missing header,
    another scheme, an undecodable token, a decoder exception or a
    payload without the field all give no identity. *)
Theorem extractAgentUserId_spec (E : Env) (req : Request) (agent : string) :
  extractAgentUserId E req = Some agent
  ↔ ∃ tok p,
      authorization req = Some ("Bearer " ++ tok)
      ∧ jwt_decode E tok = Ok (Some p)
      ∧ agentUserId p = Some agent
      ∧ truthy_string agent = true.
Proof.
  split.
  - unfold extractAgentUserId.
    destruct (authorization req) as [h|]; [|discriminate].
    destruct (truthy_string h); destruct (String.prefix "Bearer " h) eqn:Hp;
      cbn [negb orb]; try discriminate.
    cbv zeta.
    destruct (jwt_decode E (substring_from 7 h)) as [[p|]|e] eqn:Hdec;
      try discriminate.
    unfold truthy_opt. destruct (agentUserId p) as [a|] eqn:Ha;
      [|discriminate].
    destruct (truthy_string a) eqn:Ht; [|discriminate].
    intros [= <-]. exists (substring_from 7 h), p.
    split; [f_equal; by apply bearer_split | done].
  - intros (tok & p & Hauth & Hdec & Ha & Ht).
    rewrite (extractAgentUserId_bearer E req tok p Hauth Hdec), Ha.
    simpl. by rewrite Ht.
Qed.

(** A lower-case scheme is not recognised. *)
Example lowercase_bearer :
  extractAgentUserId calm
    (envelope (Some "bearer alice.jwt") INTENT_SYNC no_payload) = None.
Proof. reflexivity. Qed.

(** X13.  The middleware [authenticateGoogleRequest] lets a request
    through exactly when [extractAgentUserId] finds an identity, and with
    that identity.  Its fallback for opaque tokens calls
    [GoogleAccountLinkModel.findByAccessToken], which [models.js] does not
    define, so every token without a decodable [agentUserId] is answered
    401 'Invalid token format'; 'Invalid access token' and the 500 answer
    are never sent, and no collaborator is called. *)
Theorem authenticateGoogleRequest_spec (E : Env) (req : Request) (w : World) :
  ∃ m,
    authenticateGoogleRequest E req w = (Ok m, w)
    ∧ (∀ a, m = Next a ↔ extractAgentUserId E req = Some a)
    ∧ (extractAgentUserId E req = None ->
       m = unauthorized "Missing authorization header"
       ∨ m = unauthorized "Invalid token format").
Proof.
  unfold authenticateGoogleRequest, extractAgentUserId, try_catch.
  destruct (authorization req) as [h|].
  2:{ eexists. split; [reflexivity|]. split; [|auto].
      intros a. split; discriminate. }
  destruct (negb (truthy_string h) || negb (String.prefix "Bearer " h)).
  { eexists. split; [reflexivity|]. split; [|auto].
    intros a. split; discriminate. }
  cbv zeta. remember (substring_from 7 h) as tok eqn:Htok. clear Htok.
  unfold bind, of_outcome.
  destruct (jwt_decode E tok) as [[p|]|e]; simpl.
  - destruct (truthy_opt (agentUserId p)) as [a|]; simpl.
    + eexists. split; [reflexivity|]. split; [|discriminate].
      intros a'. split; intros [= ->]; reflexivity.
    + eexists. split; [reflexivity|]. split; [|auto].
      intros a. split; discriminate.
  - eexists. split; [reflexivity|]. split; [|auto].
    intros a. split; discriminate.
  - eexists. split; [reflexivity|]. split; [|auto].
    intros a. split; discriminate.
Qed.

(** ** The gateway *)

Lemma prefix_rpc_failed (s : string) :
  String.prefix "RPC command failed: " ("RPC command failed: " ++ s) = true.
Proof. destruct s; reflexivity. Qed.

Lemma prefix_auth_failed (s : string) :
  String.prefix "ThingsBoard authentication failed: "
    ("ThingsBoard authentication failed: " ++ s) = true.
Proof. destruct s; reflexivity. Qed.

Lemma prefix_rpc_auth_failed (s : string) :
  String.prefix "RPC command failed: ThingsBoard authentication failed: "
    ("RPC command failed: " ++ "ThingsBoard authentication failed: " ++ s) = true.
Proof. destruct s; reflexivity. Qed.

Lemma login_throws (E : Env) (u p : option string) (w : World) (e : Error) :
  fst (thingsboardService_login E u p w) = Throw e ->
  ∃ cause, e = mkError ("ThingsBoard authentication failed: " ++ error_text cause)
                       None.
Proof.
  unfold thingsboardService_login, try_catch, bind, of_outcome, tick, ret, throw.
  simpl. repeat case_match; simplify_eq; simpl; intros [= <-]; eauto.
Qed.

Lemma login_down_throws (E : Env) (u p : option string) (w : World) :
  login_down E -> ∃ e, fst (thingsboardService_login E u p w) = Throw e.
Proof.
  intros Hdown. destruct (Hdown (calls w) u p) as [e He].
  unfold thingsboardService_login, try_catch, bind, of_outcome, tick. simpl.
  rewrite He. simpl. eauto.
Qed.

(** X14.  The gateway's error contract.  Reading telemetry or attributes
    never raises, whatever the network does.  [sendRpcCommand] raises only
    errors whose message starts with 'RPC command failed: ', and [login]
    only errors whose message starts with 'ThingsBoard authentication
    failed: '; when no admin session is cached and the admin login is
    refused, [sendRpcCommand] raises with both prefixes, in that order. *)
Theorem gateway_error_contract (E : Env) (deviceId : option string)
    (keys : list string) (scope method : string) (params : RpcParams)
    (w : World) :
  (∃ t, fst (thingsboardService_getLatestTelemetry E deviceId keys w) = Ok t)
  ∧ (∃ a, fst (thingsboardService_getDeviceAttributes E deviceId scope w) = Ok a)
  ∧ (∀ e, fst (thingsboardService_sendRpcCommand E deviceId method params w)
          = Throw e ->
          String.prefix "RPC command failed: " (message e) = true)
  ∧ (∀ u p e, fst (thingsboardService_login E u p w) = Throw e ->
          String.prefix "ThingsBoard authentication failed: " (message e) = true)
  ∧ (login_down E -> truthy_opt (adminToken w) = None ->
     ∃ e, fst (thingsboardService_sendRpcCommand E deviceId method params w)
          = Throw e
          ∧ String.prefix
              "RPC command failed: ThingsBoard authentication failed: "
              (message e) = true).
Proof.
  split; [|split; [|split; [|split]]].
  - destruct (getLatestTelemetry_total E deviceId keys w) as (t & w' & Hrun & _).
    exists t. by rewrite Hrun.
  - destruct (getDeviceAttributes_total E deviceId scope w) as (a & w' & Hrun & _).
    exists a. by rewrite Hrun.
  - intros e. unfold thingsboardService_sendRpcCommand, try_catch, throw.
    match goal with |- context [match ?m with _ => _ end] =>
      destruct m as [[[]|e0] w1] end; simpl; [discriminate|].
    intros [= <-]. apply prefix_rpc_failed.
  - intros u p e He. destruct (login_throws E u p w e He) as [cause ->].
    apply prefix_auth_failed.
  - intros Hdown Hcache.
    unfold thingsboardService_sendRpcCommand, try_catch, bind at 1.
    unfold thingsboardService_getAdminToken, bind at 1, get. rewrite Hcache.
    unfold refresh_admin_token, bind at 1.
    destruct (login_down_throws E (THINGSBOARD_ADMIN_USERNAME E)
                (THINGSBOARD_ADMIN_PASSWORD E) w Hdown) as [e He].
    destruct (login_throws E _ _ w e He) as [cause ->].
    destruct (thingsboardService_login E _ _ w) as [o w1]. simpl in He.
    subst o. simpl. eexists. split; [reflexivity|]. simpl.
    unfold error_text at 1. simpl. apply prefix_rpc_auth_failed.
Qed.

(** With the admin login refused, an RPC fails with both prefixes. *)
Example rpc_login_refused :
  fst (thingsboardService_sendRpcCommand login_fails (Some "tb-dev-fan")
         "setFanSpeed" (ParamsSpeed (SpeedNum 3)) home)
  = Throw (mkError
      "RPC command failed: ThingsBoard authentication failed: Invalid username or password"
      None).
Proof. reflexivity. Qed.

(** X15.  The admin session is cached.  Starting without a cached token,
    with a gateway that accepts the login and a clock that reads a
    positive time, [getAdminToken] logs in once and stores the token with
    an expiry 3,540,000 ms (one hour less one minute) after the clock
    value read after the login; a further call made while the clock is
    before that expiry returns the same token without any request to the
    gateway, and a call at or after the expiry logs in again. *)
Theorem admin_token_cached (E : Env) (w : World) :
  gateway_ok E ->
  truthy_opt (adminToken w) = None ->
  0 < Date_now E (S (calls w)) ->
  ∃ t w1,
    thingsboardService_getAdminToken E w = (Ok t, w1)
    ∧ adminToken w1 = Some t
    ∧ adminTokenExpiry w1 = Some (Date_now E (S (calls w)) + 3540000)
    ∧ calls w1 = S (S (calls w))
    ∧ (Date_now E (calls w1) < Date_now E (S (calls w)) + 3540000 ->
       thingsboardService_getAdminToken E w1 = (Ok t, bump w1))
    ∧ (Date_now E (S (calls w)) + 3540000 <= Date_now E (calls w1) ->
       calls (snd (thingsboardService_getAdminToken E w1)) = S (S (S (calls w1)))).
Proof.
  intros [Hlogin Hrpc] Hcache Hclock.
  assert (Hrefresh : ∀ w0, ∃ t,
    truthy_opt (Some t) = Some t ∧
    refresh_admin_token E w0
    = (Ok t, mkWorld (tbl_devices w0) (tbl_google_account_links w0) (Some t)
               (Some (Date_now E (S (calls w0)) + 3540000)) (S (S (calls w0))))).
  { intros w0. destruct (Hlogin (calls w0) (THINGSBOARD_ADMIN_USERNAME E)
                (THINGSBOARD_ADMIN_PASSWORD E)) as (d & t & Hd & Ht).
    exists t. split.
    { unfold truthy_opt in *. destruct (ld_token d) as [s|]; [|discriminate].
      destruct (truthy_string s) eqn:Hs; [|discriminate].
      injection Ht as <-. by rewrite Hs. }
    unfold refresh_admin_token, thingsboardService_login, try_catch, bind,
           of_outcome, tick, now, set_admin, modify, get, ret.
    simpl. rewrite Hd. simpl. rewrite Ht. simpl.
    do 3 f_equal. lia. }
  destruct (Hrefresh w) as (t & Htruthy & Hrun).
  exists t, (mkWorld (tbl_devices w) (tbl_google_account_links w) (Some t)
               (Some (Date_now E (S (calls w)) + 3540000)) (S (S (calls w)))).
  assert (Hnz : (Date_now E (S (calls w)) + 3540000 =? 0) = false).
  { apply Z.eqb_neq. lia. }
  split.
  { unfold thingsboardService_getAdminToken, bind at 1, get.
    by rewrite Hcache. }
  split; [reflexivity|]. split; [reflexivity|]. split; [reflexivity|].
  split.
  - intros Hbefore.
    unfold thingsboardService_getAdminToken, bind at 1, get.
    cbn [adminToken adminTokenExpiry]. rewrite Htruthy.
    unfold truthy_Z. rewrite Hnz.
    unfold now, bind, tick, ret. cbn [calls] in *.
    apply Z.ltb_lt in Hbefore. by rewrite Hbefore.
  - intros Hafter.
    unfold thingsboardService_getAdminToken, bind at 1, get.
    cbn [adminToken adminTokenExpiry]. rewrite Htruthy.
    unfold truthy_Z. rewrite Hnz.
    unfold now, bind at 1, bind at 1, tick, ret. cbn [calls] in *.
    apply Z.ltb_ge in Hafter. rewrite Hafter.
    match goal with |- context [refresh_admin_token E ?w0] =>
      destruct (Hrefresh w0) as (t2 & _ & Hrun2); rewrite Hrun2 end.
    reflexivity.
Qed.

Lemma admin_token_cached_witness :
  ∃ t w1,
    thingsboardService_getAdminToken calm home = (Ok t, w1)
    ∧ adminToken w1 = Some t
    ∧ adminTokenExpiry w1 = Some (Date_now calm (S (calls home)) + 3540000)
    ∧ calls w1 = S (S (calls home))
    ∧ (Date_now calm (calls w1) < Date_now calm (S (calls home)) + 3540000 ->
       thingsboardService_getAdminToken calm w1 = (Ok t, bump w1))
    ∧ (Date_now calm (S (calls home)) + 3540000 <= Date_now calm (calls w1) ->
       calls (snd (thingsboardService_getAdminToken calm w1))
       = S (S (S (calls w1)))).
Proof.
  apply (admin_token_cached calm home).
  - split.
    + intros n u p. eexists _, _. split; reflexivity.
    + intros n i b t. reflexivity.
  - reflexivity.
  - simpl. lia.
Defined.

(** ** Deleting a device *)

Lemma update_devices_other (k deviceUuid : string) (f : DeviceRow -> DeviceRow)
    (ds : list DeviceRow) :
  k ≠ deviceUuid ->
  (∀ r, r_device_uuid (f r) = r_device_uuid r) ->
  List.find (uuid_active k) (update_devices deviceUuid f ds)
  = List.find (uuid_active k) ds.
Proof.
  intros Hne Hf. induction ds as [|r ds IH]; simpl; [done|].
  destruct (String.eqb (r_device_uuid r) deviceUuid) eqn:Hr.
  - apply String.eqb_eq in Hr.
    assert (Hk : String.eqb (r_device_uuid r) k = false).
    { apply String.eqb_neq. congruence. }
    unfold uuid_active at 1 3. rewrite Hf, Hk. simpl. exact IH.
  - destruct (uuid_active k r); [reflexivity | exact IH].
Qed.

Lemma update_devices_deleted (deviceUuid : string) (ds : list DeviceRow) :
  List.find (uuid_active deviceUuid) (update_devices deviceUuid soft_delete ds)
  = None.
Proof.
  induction ds as [|r ds IH]; simpl; [done|].
  unfold uuid_active at 1.
  destruct (String.eqb (r_device_uuid r) deviceUuid) eqn:Hr; simpl.
  - rewrite Hr. simpl. exact IH.
  - rewrite Hr. simpl. exact IH.
Qed.

Lemma update_devices_ids (deviceUuid : string) (f : DeviceRow -> DeviceRow)
    (ds : list DeviceRow) :
  (∀ r, r_id (f r) = r_id r) ->
  map r_id (update_devices deviceUuid f ds) = map r_id ds.
Proof.
  intros Hf. unfold update_devices. rewrite map_map. apply map_ext.
  intros r. by destruct (String.eqb _ _).
Qed.

Lemma findByUuid_result (E : Env) (k : string) (w w1 : World)
    (dev : option Device) :
  DeviceModel_findByUuid E k w = (Ok dev, w1) ->
  dev = option_map parse_row (lookup_device w k).
Proof.
  unfold DeviceModel_findByUuid, sqlite_run, bind, tick, get, ret, throw.
  simpl. destruct (sqlite_error E (calls w)); simpl; intros H;
    [discriminate | by injection H as <- _].
Qed.

Lemma DeviceModel_delete_run (E : Env) (deviceUuid : string) (w : World) :
  tbl_google_account_links (snd (DeviceModel_delete E deviceUuid w))
  = tbl_google_account_links w
  ∧ (tbl_devices (snd (DeviceModel_delete E deviceUuid w)) = tbl_devices w
     ∨ (fst (DeviceModel_delete E deviceUuid w) = Ok tt
        ∧ tbl_devices (snd (DeviceModel_delete E deviceUuid w))
          = update_devices deviceUuid soft_delete (tbl_devices w)))
  ∧ (db_ok E ->
     DeviceModel_delete E deviceUuid w
     = (Ok tt, mkWorld (update_devices deviceUuid soft_delete (tbl_devices w))
                 (tbl_google_account_links w) (adminToken w)
                 (adminTokenExpiry w) (S (calls w)))).
Proof.
  unfold DeviceModel_delete, sqlite_run, bind, tick. simpl.
  destruct (sqlite_error E (calls w)) as [e|] eqn:Herr; simpl.
  - split; [reflexivity|]. split; [by left|]. intros Hdb. by rewrite Hdb in Herr.
  - split; [reflexivity|]. split; [by right | reflexivity].
Qed.

(** X16.  [DELETE /api/device/:deviceUuid] (after authentication) never
    raises and only ever touches the named device of the caller: the link
    table is unchanged, no device row is removed, every other
    identifier resolves as before, and the table changes at all only if
    the named device was active and owned by the caller, in which case it
    is soft-deleted.  (The change can happen under a 500 answer: the audit
    log is written after the delete.) *)
Theorem device_delete_route_scope (E : Env) (userId : Z) (deviceUuid : string)
    (w : World) :
  (∃ r, fst (device_delete_route E userId deviceUuid w) = Ok r)
  ∧ tbl_google_account_links (snd (device_delete_route E userId deviceUuid w))
    = tbl_google_account_links w
  ∧ map r_id (tbl_devices (snd (device_delete_route E userId deviceUuid w)))
    = map r_id (tbl_devices w)
  ∧ (∀ k, k ≠ deviceUuid ->
          lookup_device (snd (device_delete_route E userId deviceUuid w)) k
          = lookup_device w k)
  ∧ (tbl_devices (snd (device_delete_route E userId deviceUuid w))
     = tbl_devices w
     ∨ (tbl_devices (snd (device_delete_route E userId deviceUuid w))
        = update_devices deviceUuid soft_delete (tbl_devices w)
        ∧ ∃ row, lookup_device w deviceUuid = Some row
                 ∧ r_owner_user_id row = userId)).
Proof.
  remember (device_delete_route E userId deviceUuid w) as x eqn:Hx.
  assert (Hmain : (∃ r, fst x = Ok r)
    ∧ tbl_google_account_links (snd x) = tbl_google_account_links w
    ∧ (tbl_devices (snd x) = tbl_devices w
       ∨ (tbl_devices (snd x)
          = update_devices deviceUuid soft_delete (tbl_devices w)
          ∧ ∃ row, lookup_device w deviceUuid = Some row
                   ∧ r_owner_user_id row = userId))).
  { unfold device_delete_route, try_catch, bind in Hx.
    pose proof (preserves_findByUuid E deviceUuid w) as [Hd1 Hl1].
    destruct (DeviceModel_findByUuid E deviceUuid w) as [[dev|e] w1] eqn:Hfind;
      simpl in Hd1, Hl1.
    2:{ subst x. simpl. split; [eauto|]. split; [done | by left]. }
    destruct dev as [d|].
    2:{ subst x. simpl. split; [eauto|]. split; [done | by left]. }
    assert (Hrow : ∃ row, lookup_device w deviceUuid = Some row
                          ∧ d = parse_row row).
    { pose proof (findByUuid_result E deviceUuid w _ _ Hfind) as Hres.
      destruct (lookup_device w deviceUuid) as [row|]; [|discriminate].
      injection Hres as ->. eauto. }
    destruct Hrow as (row & Hrow & ->). simpl in Hx.
    destruct (r_owner_user_id row =? userId) eqn:Hown; simpl in Hx.
    2:{ subst x. simpl. split; [eauto|]. split; [done | by left]. }
    apply Z.eqb_eq in Hown.
    pose proof (DeviceModel_delete_run E deviceUuid w1) as (Hl2 & Hd2 & _).
    destruct (DeviceModel_delete E deviceUuid w1) as [[[]|e] w2] eqn:Hdel;
      simpl in Hl2, Hd2.
    2:{ subst x. simpl. split; [eauto|]. split; [congruence|].
        destruct Hd2 as [Hd2 | [Habs _]]; [left; congruence | discriminate]. }
    assert (Haudit : preserves (AuditLogModel_log E)).
    { apply preserves_bind.
      - apply preserves_bind; [apply preserves_tick|]. intros ?.
        apply preserves_ret.
      - intros _. apply preserves_sqlite_run. }
    pose proof (Haudit w2) as [Hd3 Hl3].
    destruct (AuditLogModel_log E w2) as [[[]|e] w3]; simpl in Hd3, Hl3;
      subst x; simpl; (split; [eauto|]); (split; [congruence|]);
      (destruct Hd2 as [Hd2 | [_ Hd2]];
       [left; congruence | right; split; [congruence | eauto]]). }
  destruct Hmain as (Hr & Hl & Hd). split; [exact Hr|]. split; [exact Hl|].
  split; [|split; [|exact Hd]].
  - destruct Hd as [-> | [-> _]]; [reflexivity|]. by apply update_devices_ids.
  - intros k Hk. unfold lookup_device.
    destruct Hd as [-> | [-> _]]; [reflexivity|].
    by apply update_devices_other.
Qed.

Lemma insert_row_head (a : DeviceRow) (l : list DeviceRow) :
  Forall (provisioned_le a) l -> insert_row a l = a :: l.
Proof.
  intros Hall. destruct l as [|x t]; [reflexivity|]. simpl.
  inversion Hall as [|? ? Hax _]; subst. apply Z.leb_le in Hax.
  by rewrite Hax.
Qed.

Lemma filter_insert_row_out (p : DeviceRow -> bool) (a : DeviceRow)
    (l : list DeviceRow) :
  p a = false -> List.filter p (insert_row a l) = List.filter p l.
Proof.
  intros Hpa. induction l as [|x t IH]; simpl; [by rewrite Hpa|].
  destruct (r_provisioned_at a <=? r_provisioned_at x); simpl.
  - by rewrite Hpa.
  - by rewrite IH.
Qed.

Lemma filter_insert_row_in (p : DeviceRow -> bool) (a : DeviceRow)
    (l : list DeviceRow) :
  StronglySorted provisioned_le l ->
  p a = true ->
  List.filter p (insert_row a l) = insert_row a (List.filter p l).
Proof.
  intros Hs Hpa. induction Hs as [|x t Ht IH Hx]; simpl; [by rewrite Hpa|].
  destruct (r_provisioned_at a <=? r_provisioned_at x) eqn:Hax; simpl.
  - rewrite Hpa. destruct (p x) eqn:Hpx.
    + simpl. by rewrite Hax.
    + symmetry. apply insert_row_head.
      apply Z.leb_le in Hax. rewrite List.Forall_forall in *.
      intros y Hy. apply filter_In in Hy. destruct Hy as [Hy _].
      specialize (Hx y Hy). unfold provisioned_le in *. lia.
  - destruct (p x) eqn:Hpx.
    + simpl. rewrite Hax. by rewrite IH.
    + exact IH.
Qed.

(** Sorting and filtering commute: the sort is stable. *)
Lemma order_by_filter (p : DeviceRow -> bool) (l : list DeviceRow) :
  order_by_provisioned_at (List.filter p l)
  = List.filter p (order_by_provisioned_at l).
Proof.
  induction l as [|a l IH]; [reflexivity|].
  unfold order_by_provisioned_at in *. cbn [List.filter foldr].
  destruct (p a) eqn:Hpa.
  - cbn [foldr]. rewrite IH. symmetry. apply filter_insert_row_in; [|exact Hpa].
    apply Sorted_StronglySorted; [exact provisioned_le_trans|].
    apply order_by_provisioned_at_Sorted.
  - rewrite IH. symmetry. by apply filter_insert_row_out.
Qed.

Lemma filter_andb {A} (f g : A -> bool) (l : list A) :
  List.filter (fun x => f x && g x) l = List.filter g (List.filter f l).
Proof.
  induction l as [|x l IH]; simpl; [done|].
  destruct (f x); simpl; [destruct (g x)|]; by rewrite IH.
Qed.

Lemma filter_map_comm {A B} (q : B -> bool) (h : A -> B) (l : list A) :
  List.filter q (map h l) = map h (List.filter (fun x => q (h x)) l).
Proof.
  induction l as [|x l IH]; simpl; [done|].
  destruct (q (h x)); simpl; by rewrite IH.
Qed.

Lemma filter_owned_after_delete (user : Z) (deviceUuid : string)
    (ds : list DeviceRow) :
  List.filter (owned_active user) (update_devices deviceUuid soft_delete ds)
  = List.filter (fun r => negb (String.eqb (r_device_uuid r) deviceUuid))
      (List.filter (owned_active user) ds).
Proof.
  rewrite <- filter_andb.
  induction ds as [|r ds IH]; simpl; [done|].
  destruct (String.eqb (r_device_uuid r) deviceUuid) eqn:Hr; simpl.
  - unfold owned_active at 1. simpl. rewrite andb_false_r, andb_false_r.
    exact IH.
  - rewrite andb_true_r. destruct (owned_active user r); by rewrite IH.
Qed.

Lemma device_delete_route_ok (E : Env) (userId : Z) (deviceUuid : string)
    (w : World) (row : DeviceRow) :
  db_ok E ->
  lookup_device w deviceUuid = Some row ->
  r_owner_user_id row = userId ->
  device_delete_route E userId deviceUuid w
  = (Ok (mkApiResponse 200 (ApiSuccess "Device deleted successfully")),
     mkWorld (update_devices deviceUuid soft_delete (tbl_devices w))
       (tbl_google_account_links w) (adminToken w) (adminTokenExpiry w)
       (S (S (S (S (calls w)))))).
Proof.
  intros Hdb Hrow Hown.
  unfold device_delete_route, try_catch, bind.
  rewrite (findByUuid_ok E _ _ Hdb), Hrow. simpl.
  apply Z.eqb_eq in Hown. rewrite Hown. simpl.
  destruct (DeviceModel_delete_run E deviceUuid (bump w)) as (_ & _ & Hdel).
  rewrite (Hdel Hdb). unfold AuditLogModel_log, now, bind, tick. simpl.
  unfold sqlite_run, bind, tick. simpl. rewrite Hdb. reflexivity.
Qed.

(** X17.  A device deleted by its owner disappears from SYNC and nothing
    else does: with the registry responding, the delete route answers 200,
    the identifier no longer resolves, and a SYNC of the owner returns
    the descriptors it returned before, in the same order, without the
    deleted one. *)
Theorem deleted_device_leaves_sync (E : Env) (userId : Z) (deviceUuid : string)
    (w : World) (row : DeviceRow) (req : Request) (agent : string)
    (link : LinkRow) :
  db_ok E ->
  lookup_device w deviceUuid = Some row ->
  r_owner_user_id row = userId ->
  extractAgentUserId E req = Some agent ->
  lookup_link w agent = Some link ->
  fst (device_delete_route E userId deviceUuid w)
  = Ok (mkApiResponse 200 (ApiSuccess "Device deleted successfully"))
  ∧ lookup_device (snd (device_delete_route E userId deviceUuid w)) deviceUuid
    = None
  ∧ ∃ devs,
      fst (handleSync E req w) = Ok (respond 200 req (SyncPayload agent devs))
      ∧ fst (handleSync E req (snd (device_delete_route E userId deviceUuid w)))
        = Ok (respond 200 req
                (SyncPayload agent
                   (List.filter
                      (fun g => negb (String.eqb (gd_id g) deviceUuid)) devs))).
Proof.
  intros Hdb Hrow Hown Hagent Hlink.
  rewrite (device_delete_route_ok E userId deviceUuid w row Hdb Hrow Hown).
  cbn [fst snd]. split; [reflexivity|]. split.
  { unfold lookup_device. cbn [tbl_devices]. apply update_devices_deleted. }
  eexists. split; [by apply handleSync_resolved|].
  erewrite handleSync_resolved; [|exact Hdb | exact Hagent | exact Hlink].
  cbn [tbl_devices]. do 3 f_equal.
  rewrite filter_owned_after_delete, order_by_filter.
  rewrite map_map, map_map, filter_map_comm. f_equal.
  apply filter_ext. intros r. by rewrite convertToGoogleDevice_id.
Qed.

Lemma deleted_device_leaves_sync_witness :
  fst (device_delete_route calm 1 "dev-light" home)
  = Ok (mkApiResponse 200 (ApiSuccess "Device deleted successfully"))
  ∧ lookup_device (snd (device_delete_route calm 1 "dev-light" home)) "dev-light"
    = None
  ∧ ∃ devs,
      fst (handleSync calm (envelope alice INTENT_SYNC no_payload) home)
      = Ok (respond 200 (envelope alice INTENT_SYNC no_payload)
              (SyncPayload "agent_1" devs))
      ∧ fst (handleSync calm (envelope alice INTENT_SYNC no_payload)
               (snd (device_delete_route calm 1 "dev-light" home)))
        = Ok (respond 200 (envelope alice INTENT_SYNC no_payload)
                (SyncPayload "agent_1"
                   (List.filter
                      (fun g => negb (String.eqb (gd_id g) "dev-light")) devs))).
Proof.
  apply (deleted_device_leaves_sync calm 1 "dev-light" home
           (row 1 "dev-light" 1 ["light"; "dimmer"] 100 1) _ "agent_1" alice_link).
  - intros n. reflexivity.
  - reflexivity.
  - reflexivity.
  - reflexivity.
  - reflexivity.
Defined.

(** X18.  A deleted device is unknown to QUERY: after its owner has
    deleted it (registry responding), a QUERY batch of that same owner
    that names it is answered [deviceNotFound] for it (the identifier
    '__proto__', which never gets an entry, apart). *)
Theorem deleted_device_not_found (E : Env) (userId : Z) (deviceUuid : string)
    (w : World) (row : DeviceRow) (req : Request) (agent : string)
    (link : LinkRow) (pl : InputPayload) (ids : list ReqDevice) :
  db_ok E ->
  lookup_device w deviceUuid = Some row ->
  r_owner_user_id row = userId ->
  resolved E w req agent link pl ->
  pl_devices pl = Some (Some <$> ids) ->
  deviceUuid ∈ rd_id <$> ids ->
  deviceUuid ≠ "__proto__" ->
  ∃ st,
    fst (handleQuery E req (snd (device_delete_route E userId deviceUuid w)))
    = Ok (respond 200 req (QueryPayload st))
    ∧ st !! deviceUuid = Some (QueryError "deviceNotFound").
Proof.
  intros Hdb Hrow Hown Hres Hids Hin Hne.
  rewrite (device_delete_route_ok E userId deviceUuid w row Hdb Hrow Hown).
  cbn [snd].
  match goal with |- context [handleQuery E req ?w'] => set (w1 := w') end.
  assert (Hres1 : resolved E w1 req agent link pl).
  { destruct Hres as (Ha & Hl & Hp). split; [exact Ha|]. split; [exact Hl|].
    exact Hp. }
  destruct (handleQuery_resolved E link w1 req agent pl ids Hres1 (Hdb _) Hids)
    as (st & Hrun & _ & _ & Hent).
  exists st. split; [exact Hrun|].
  destruct (Hent deviceUuid Hin Hne) as (e & He & Hq).
  apply (query_entry_db_ok E link _ _ _ Hdb) in Hq.
  unfold owned_row in Hq.
  assert (Hgone : lookup_device w1 deviceUuid = None).
  { unfold lookup_device, w1. cbn [tbl_devices]. apply update_devices_deleted. }
  rewrite Hgone in Hq. by rewrite He, Hq.
Qed.

Lemma deleted_device_not_found_witness :
  ∃ st,
    fst (handleQuery calm
           (envelope alice INTENT_QUERY (query_payload ["dev-fan"; "dev-light"]))
           (snd (device_delete_route calm 1 "dev-light" home)))
    = Ok (respond 200
            (envelope alice INTENT_QUERY (query_payload ["dev-fan"; "dev-light"]))
            (QueryPayload st))
    ∧ st !! "dev-light" = Some (QueryError "deviceNotFound").
Proof.
  apply (deleted_device_not_found calm 1 "dev-light" home
           (row 1 "dev-light" 1 ["light"; "dimmer"] 100 1) _ "agent_1"
           alice_link (query_payload ["dev-fan"; "dev-light"])
           (map mkReqDevice ["dev-fan"; "dev-light"])).
  - intros n. reflexivity.
  - reflexivity.
  - reflexivity.
  - split; [reflexivity|]. split; [reflexivity|].
    eexists _, _. split; reflexivity.
  - reflexivity.
  - simpl. apply list_elem_of_further, list_elem_of_here.
  - discriminate.
Defined.

(** ** Online status *)

Lemma update_devices_found (deviceUuid : string) (f : DeviceRow -> DeviceRow)
    (ds : list DeviceRow) :
  (∀ r, r_device_uuid (f r) = r_device_uuid r) ->
  (∀ r, r_is_active (f r) = r_is_active r) ->
  List.find (uuid_active deviceUuid) (update_devices deviceUuid f ds)
  = option_map f (List.find (uuid_active deviceUuid) ds).
Proof.
  intros Hu Ha. induction ds as [|r ds IH]; simpl; [done|].
  unfold uuid_active at 1 3.
  destruct (String.eqb (r_device_uuid r) deviceUuid) eqn:Hr.
  - rewrite Hu, Ha, Hr. simpl. destruct (r_is_active r =? 1); [reflexivity|].
    exact IH.
  - rewrite Hr. simpl. exact IH.
Qed.

Lemma updateOnlineStatus_ok (E : Env) (deviceUuid : string) (isOnline : bool)
    (w : World) :
  db_ok E ->
  DeviceModel_updateOnlineStatus E deviceUuid isOnline w
  = (Ok tt,
     mkWorld (update_devices deviceUuid
                (set_online isOnline (Date_now E (calls w))) (tbl_devices w))
       (tbl_google_account_links w) (adminToken w) (adminTokenExpiry w)
       (S (S (calls w)))).
Proof.
  intros Hdb.
  unfold DeviceModel_updateOnlineStatus, now, sqlite_run, bind, tick. simpl.
  by rewrite Hdb.
Qed.

(** X19.  The online flag QUERY reports is the one last written by
    [DeviceModel.updateOnlineStatus]: after the status of an owned device
    has been set (registry responding), a QUERY of its owner answers
    SUCCESS for it with [online] equal to the value set, whatever the
    gateway returns (the identifier '__proto__', which never gets an
    entry, apart); the write also records the clock value as the device's
    last-seen time. *)
Theorem online_status_reported (E : Env) (deviceUuid : string)
    (isOnline : bool) (w : World) (row : DeviceRow) (req : Request)
    (agent : string) (link : LinkRow) (pl : InputPayload)
    (ids : list ReqDevice) :
  db_ok E ->
  lookup_device w deviceUuid = Some row ->
  r_owner_user_id row = l_user_id link ->
  resolved E w req agent link pl ->
  pl_devices pl = Some (Some <$> ids) ->
  deviceUuid ∈ rd_id <$> ids ->
  deviceUuid ≠ "__proto__" ->
  lookup_device (snd (DeviceModel_updateOnlineStatus E deviceUuid isOnline w))
    deviceUuid
  = Some (set_online isOnline (Date_now E (calls w)) row)
  ∧ ∃ st gs,
      fst (handleQuery E req
             (snd (DeviceModel_updateOnlineStatus E deviceUuid isOnline w)))
      = Ok (respond 200 req (QueryPayload st))
      ∧ st !! deviceUuid = Some (QuerySuccess isOnline gs).
Proof.
  intros Hdb Hrow Hown Hres Hids Hin Hne.
  rewrite (updateOnlineStatus_ok E deviceUuid isOnline w Hdb). cbn [snd].
  match goal with |- context [handleQuery E req ?w'] => set (w1 := w') end.
  assert (Hfound : lookup_device w1 deviceUuid
                   = Some (set_online isOnline (Date_now E (calls w)) row)).
  { unfold lookup_device, w1. cbn [tbl_devices].
    rewrite update_devices_found; [|reflexivity|reflexivity].
    unfold lookup_device in Hrow. by rewrite Hrow. }
  split; [exact Hfound|].
  assert (Hres1 : resolved E w1 req agent link pl).
  { destruct Hres as (Ha & Hl & Hp). split; [exact Ha|]. split; [exact Hl|].
    exact Hp. }
  destruct (handleQuery_resolved E link w1 req agent pl ids Hres1 (Hdb _) Hids)
    as (st & Hrun & _ & _ & Hent).
  destruct (Hent deviceUuid Hin Hne) as (e & He & Hq).
  apply (query_entry_db_ok E link _ _ _ Hdb) in Hq.
  unfold owned_row in Hq.
  rewrite Hfound in Hq. cbn [set_online r_owner_user_id] in Hq.
  apply Z.eqb_eq in Hown. rewrite Hown in Hq.
  destruct Hq as (t & Hentry & _).
  exists st. eexists. split; [exact Hrun|]. rewrite He, Hentry.
  cbn [r_is_online]. by destruct isOnline.
Qed.

Lemma online_status_reported_witness :
  lookup_device (snd (DeviceModel_updateOnlineStatus calm "dev-fan" false home))
    "dev-fan"
  = Some (set_online false (Date_now calm (calls home))
            (row 3 "dev-fan" 1 ["fan"; "speed"] 200 1))
  ∧ ∃ st gs,
      fst (handleQuery calm
             (envelope alice INTENT_QUERY (query_payload ["dev-fan"]))
             (snd (DeviceModel_updateOnlineStatus calm "dev-fan" false home)))
      = Ok (respond 200
              (envelope alice INTENT_QUERY (query_payload ["dev-fan"]))
              (QueryPayload st))
      ∧ st !! "dev-fan" = Some (QuerySuccess false gs).
Proof.
  apply (online_status_reported calm "dev-fan" false home
           (row 3 "dev-fan" 1 ["fan"; "speed"] 200 1) _ "agent_1" alice_link
           (query_payload ["dev-fan"]) (map mkReqDevice ["dev-fan"])).
  - intros n. reflexivity.
  - reflexivity.
  - reflexivity.
  - split; [reflexivity|]. split; [reflexivity|].
    eexists _, _. split; reflexivity.
  - reflexivity.
  - simpl. apply list_elem_of_here.
  - discriminate.
Defined.

(** ** Provisioning a device *)

Lemma find_app_last {A} (p : A -> bool) (l : list A) (x : A) :
  List.find p (l ++ [x])
  = match List.find p l with
    | Some y => Some y
    | None => if p x then Some x else None
    end.
Proof.
  induction l as [|a l IH]; simpl; [done|]. destruct (p a); [done | exact IH].
Qed.

Lemma existsb_false_find {A} (q p : A -> bool) (l : list A) :
  existsb q l = false -> (∀ x, p x = true -> q x = true) ->
  List.find p l = None.
Proof.
  intros Hq Hpq. induction l as [|a l IH]; simpl in *; [done|].
  apply orb_false_iff in Hq. destruct Hq as [Hqa Hql].
  destruct (p a) eqn:Hpa; [|by apply IH].
  apply Hpq in Hpa. congruence.
Qed.

Lemma uuid_free_lookup (w : World) (k : string) :
  uuid_taken w k = false -> lookup_device w k = None.
Proof.
  intros Hfree. unfold lookup_device.
  apply (existsb_false_find _ _ _ Hfree).
  intros r Hr. unfold uuid_active in Hr. by apply andb_true_iff in Hr as [? _].
Qed.

Lemma DeviceModel_create_ok (E : Env) (d : NewDevice) (w : World) :
  db_ok E ->
  uuid_taken w (nd_deviceUuid d) = false ->
  tb_id_taken w (nd_thingsboardDeviceId d) = false ->
  DeviceModel_create E d w
  = (Ok (new_device_row (next_rowid (map r_id (tbl_devices w)))
           (Date_now E (calls w)) d),
     mkWorld (tbl_devices w
              ++ [new_device_row (next_rowid (map r_id (tbl_devices w)))
                    (Date_now E (calls w)) d])%list
       (tbl_google_account_links w) (adminToken w) (adminTokenExpiry w)
       (S (S (calls w)))).
Proof.
  intros Hdb Hu Ht. unfold uuid_taken, tb_id_taken in *.
  unfold DeviceModel_create, now, sqlite_run, bind, tick. simpl.
  rewrite Hdb. simpl. by rewrite Hu, Ht.
Qed.

(** X20.  Provisioning round trip: creating a device whose identifier
    and gateway identifier are not in the table (registry responding)
    appends one active row stamped with the clock, and looking the new
    identifier up returns the device with the capability list, owner,
    name and label it was created with, offline; every other identifier
    resolves as before and the link table is untouched. *)
Theorem device_create_lookup (E : Env) (d : NewDevice) (w : World) :
  db_ok E ->
  uuid_taken w (nd_deviceUuid d) = false ->
  tb_id_taken w (nd_thingsboardDeviceId d) = false ->
  ∃ row w',
    DeviceModel_create E d w = (Ok row, w')
    ∧ tbl_devices w' = (tbl_devices w ++ [row])%list
    ∧ r_provisioned_at row = Date_now E (calls w)
    ∧ tbl_google_account_links w' = tbl_google_account_links w
    ∧ fst (DeviceModel_findByUuid E (nd_deviceUuid d) w')
      = Ok (Some {| device_uuid := nd_deviceUuid d;
                    thingsboard_device_id := Some (nd_thingsboardDeviceId d);
                    device_name := nd_deviceName d;
                    device_type := nd_deviceType d;
                    owner_user_id := Some (nd_ownerUserId d);
                    device_label := nd_deviceLabel d;
                    capabilities := Some (nd_capabilities d);
                    is_online := 0 |})
    ∧ (∀ k, k ≠ nd_deviceUuid d -> lookup_device w' k = lookup_device w k).
Proof.
  intros Hdb Hu Ht. eexists _, _.
  split; [by apply DeviceModel_create_ok|].
  split; [reflexivity|]. split; [reflexivity|]. split; [reflexivity|]. split.
  - rewrite (findByUuid_ok E _ _ Hdb). unfold lookup_device. cbn [tbl_devices fst].
    rewrite find_app_last.
    pose proof (uuid_free_lookup w _ Hu) as Hnone. unfold lookup_device in Hnone.
    rewrite Hnone. unfold uuid_active. cbn [new_device_row r_device_uuid r_is_active].
    by rewrite String.eqb_refl.
  - intros k Hk. unfold lookup_device. cbn [tbl_devices]. rewrite find_app_last.
    destruct (List.find (uuid_active k) (tbl_devices w)); [reflexivity|].
    unfold uuid_active. cbn [new_device_row r_device_uuid].
    apply not_eq_sym, String.eqb_neq in Hk. by rewrite Hk.
Qed.

Lemma device_create_lookup_witness :
  ∃ row w',
    DeviceModel_create calm new_plug home = (Ok row, w')
    ∧ tbl_devices w' = (tbl_devices home ++ [row])%list
    ∧ r_provisioned_at row = Date_now calm (calls home)
    ∧ tbl_google_account_links w' = tbl_google_account_links home
    ∧ fst (DeviceModel_findByUuid calm (nd_deviceUuid new_plug) w')
      = Ok (Some {| device_uuid := nd_deviceUuid new_plug;
                    thingsboard_device_id := Some (nd_thingsboardDeviceId new_plug);
                    device_name := nd_deviceName new_plug;
                    device_type := nd_deviceType new_plug;
                    owner_user_id := Some (nd_ownerUserId new_plug);
                    device_label := nd_deviceLabel new_plug;
                    capabilities := Some (nd_capabilities new_plug);
                    is_online := 0 |})
    ∧ (∀ k, k ≠ nd_deviceUuid new_plug ->
            lookup_device w' k = lookup_device home k).
Proof.
  apply (device_create_lookup calm new_plug home).
  - intros n. reflexivity.
  - reflexivity.
  - reflexivity.
Defined.

(** X21.  Identifiers are never reused: creating a device whose
    identifier or gateway identifier is carried by any row, a
    soft-deleted one included, raises the UNIQUE-constraint error and
    leaves both tables as they were. *)
Theorem device_create_unique (E : Env) (d : NewDevice) (w : World) :
  db_ok E ->
  uuid_taken w (nd_deviceUuid d) = true
  ∨ tb_id_taken w (nd_thingsboardDeviceId d) = true ->
  ∃ e w',
    DeviceModel_create E d w = (Throw e, w')
    ∧ same_tables w w'
    ∧ String.prefix "UNIQUE constraint failed: devices." (message e) = true.
Proof.
  intros Hdb Htaken. unfold uuid_taken, tb_id_taken in *.
  unfold DeviceModel_create, now, sqlite_run, bind, tick. simpl.
  rewrite Hdb. simpl.
  destruct (existsb (fun r => String.eqb (r_thingsboard_device_id r) _)
              (tbl_devices w)) eqn:Ht.
  - eexists _, _. split; [reflexivity|]. split; [by split | reflexivity].
  - destruct Htaken as [Hu | Habs]; [|discriminate]. rewrite Hu.
    eexists _, _. split; [reflexivity|]. split; [by split | reflexivity].
Qed.

Lemma device_create_unique_witness :
  ∃ e w',
    DeviceModel_create calm
      (mkNewDevice "dev-gone" "tb-new" "Plug" "panel" 1 "secret" ["outlet"]
         None None) home
    = (Throw e, w')
    ∧ same_tables home w'
    ∧ String.prefix "UNIQUE constraint failed: devices." (message e) = true.
Proof.
  apply (device_create_unique calm _ home).
  - intros n. reflexivity.
  - left. reflexivity.
Defined.

(** A row that collides on both columns is refused for the gateway
    identifier. *)
Example device_create_both_taken :
  fst (DeviceModel_create calm
         (mkNewDevice "dev-gone" "tb-dev-light" "Plug" "panel" 1 "secret"
            ["outlet"] None None) home)
  = Throw (SqliteError
             "UNIQUE constraint failed: devices.thingsboard_device_id").
Proof. reflexivity. Qed.

Lemma Sorted_snoc (l : list DeviceRow) (r : DeviceRow) :
  Sorted provisioned_le l ->
  Forall (fun x => provisioned_le x r) l ->
  Sorted provisioned_le (l ++ [r]).
Proof.
  induction 1 as [|x t Ht IH Hx]; intros Hall; simpl.
  - by repeat constructor.
  - inversion Hall as [|? ? Hxr Htr]; subst. constructor; [by apply IH|].
    destruct Hx as [|y t' Hxy]; simpl; by constructor.
Qed.

(** X22.  Provisioning keeps the table in provisioning order, so SYNC
    lists devices in the order they were provisioned: if the table is in
    ascending provisioning time and no row is stamped later than the
    clock, then after a creation it still is, and the owner's SYNC list
    is the former list followed by the new device. *)
Theorem created_device_last_in_sync (E : Env) (d : NewDevice) (w : World) :
  db_ok E ->
  uuid_taken w (nd_deviceUuid d) = false ->
  tb_id_taken w (nd_thingsboardDeviceId d) = false ->
  Sorted provisioned_le (tbl_devices w) ->
  Forall (fun r => r_provisioned_at r <= Date_now E (calls w)) (tbl_devices w) ->
  ∃ row w' devs,
    DeviceModel_create E d w = (Ok row, w')
    ∧ Sorted provisioned_le (tbl_devices w')
    ∧ fst (DeviceModel_findAllForSync E (nd_ownerUserId d) w) = Ok devs
    ∧ fst (DeviceModel_findAllForSync E (nd_ownerUserId d) w')
      = Ok (devs ++ [sync_row row])%list.
Proof.
  intros Hdb Hu Ht Hsorted Hclock. eexists _, _, _.
  split; [by apply DeviceModel_create_ok|].
  set (r := new_device_row (next_rowid (map r_id (tbl_devices w)))
              (Date_now E (calls w)) d).
  assert (Hs' : Sorted provisioned_le (tbl_devices w ++ [r])).
  { apply Sorted_snoc; [exact Hsorted|]. exact Hclock. }
  split; [exact Hs'|].
  rewrite !(findAllForSync_ok E _ _ Hdb). cbn [fst tbl_devices].
  split; [reflexivity|]. f_equal.
  rewrite (order_by_provisioned_at_id _ (filter_Sorted _ _ Hs')).
  rewrite (order_by_provisioned_at_id _ (filter_Sorted _ _ Hsorted)).
  rewrite List.filter_app, map_app. simpl.
  unfold owned_active at 2. cbn [r new_device_row r_owner_user_id r_is_active].
  by rewrite Z.eqb_refl.
Qed.

Lemma created_device_last_in_sync_witness :
  ∃ row w' devs,
    DeviceModel_create calm new_plug home = (Ok row, w')
    ∧ Sorted provisioned_le (tbl_devices w')
    ∧ fst (DeviceModel_findAllForSync calm (nd_ownerUserId new_plug) home)
      = Ok devs
    ∧ fst (DeviceModel_findAllForSync calm (nd_ownerUserId new_plug) w')
      = Ok (devs ++ [sync_row row])%list.
Proof.
  apply (created_device_last_in_sync calm new_plug home).
  - intros n. reflexivity.
  - reflexivity.
  - reflexivity.
  - repeat constructor; unfold provisioned_le; simpl; lia.
  - repeat constructor; simpl; lia.
Defined.

(** ** Linking an account *)

Lemma lookup_link_taken (w : World) (agent : string) (l : LinkRow) :
  lookup_link w agent = Some l -> agent_taken w agent = true.
Proof.
  unfold lookup_link, agent_taken. intros Hfind. apply find_some in Hfind.
  destruct Hfind as [Hin Hact]. apply existsb_exists. exists l. split; [done|].
  unfold agent_active in Hact. by apply andb_true_iff in Hact as [? _].
Qed.

Lemma relinked_found (agent : string) (t : Z) (n : NewLink) (ls : list LinkRow) :
  existsb (fun l => String.eqb (l_google_agent_user_id l) agent) ls = true ->
  ∃ l0, List.find (agent_active agent) (update_links agent (relink t n) ls)
        = Some (relink t n l0).
Proof.
  induction ls as [|l ls IH]; simpl; [discriminate|].
  destruct (String.eqb (l_google_agent_user_id l) agent) eqn:Hl; simpl.
  - intros _. exists l. unfold agent_active. simpl. by rewrite Hl.
  - intros Hex. destruct (IH Hex) as [l0 Hl0]. exists l0.
    unfold agent_active at 1. by rewrite Hl.
Qed.

Lemma createOrUpdate_run (E : Env) (n : NewLink) (w : World) :
  db_ok E ->
  GoogleAccountLinkModel_createOrUpdate E n w
  = match lookup_link w (nl_googleAgentUserId n) with
    | Some existing =>
        (Ok (LinkUpdated existing (nl_userId n) (nl_googleAccountId n)
               (Date_now E (calls w))),
         mkWorld (tbl_devices w)
           (update_links (nl_googleAgentUserId n)
              (relink (Date_now E (calls w)) n) (tbl_google_account_links w))
           (adminToken w) (adminTokenExpiry w) (S (S (S (calls w)))))
    | None =>
        if agent_taken w (nl_googleAgentUserId n)
        then (Throw (SqliteError
                "UNIQUE constraint failed: google_account_links.google_agent_user_id"),
              mkWorld (tbl_devices w) (tbl_google_account_links w)
                (adminToken w) (adminTokenExpiry w) (S (S (S (calls w)))))
        else
          (Ok (LinkCreated (next_rowid (map l_id (tbl_google_account_links w)))
                 (nl_userId n) (nl_googleAgentUserId n) (nl_googleAccountId n)
                 (Date_now E (calls w)) (Date_now E (calls w))),
           mkWorld (tbl_devices w)
             (tbl_google_account_links w
              ++ [new_link_row
                    (next_rowid (map l_id (tbl_google_account_links w)))
                    (Date_now E (calls w)) n])%list
             (adminToken w) (adminTokenExpiry w) (S (S (S (calls w)))))
    end.
Proof.
  intros Hdb.
  unfold GoogleAccountLinkModel_createOrUpdate,
         GoogleAccountLinkModel_findByAgentUserId, now, sqlite_run, bind, tick,
         get, ret, lookup_link, agent_taken.
  simpl. rewrite !Hdb. simpl.
  destruct (List.find _ (tbl_google_account_links w)); simpl.
  - by rewrite Hdb.
  - rewrite Hdb. simpl. by destruct (existsb _ _).
Qed.

(** X23.  Linking round trip: [createOrUpdate] for a subject that has an
    active link, or no row at all (registry responding), succeeds, and
    the subject's active link found afterwards carries the user, the
    tokens and the expiry just given and the clock value as sync time;
    an existing link is updated in place (the table keeps its length), a
    new one is appended; the [devices] table is untouched. *)
Theorem link_create_or_update (E : Env) (n : NewLink) (w : World) :
  db_ok E ->
  is_Some (lookup_link w (nl_googleAgentUserId n))
  ∨ agent_taken w (nl_googleAgentUserId n) = false ->
  ∃ res w' l,
    GoogleAccountLinkModel_createOrUpdate E n w = (Ok res, w')
    ∧ tbl_devices w' = tbl_devices w
    ∧ lookup_link w' (nl_googleAgentUserId n) = Some l
    ∧ l_user_id l = nl_userId n
    ∧ l_access_token l = nl_accessToken n
    ∧ l_refresh_token l = nl_refreshToken n
    ∧ l_token_expires_at l = nl_tokenExpiresAt n
    ∧ l_last_sync_at l = Some (Date_now E (calls w))
    ∧ length (tbl_google_account_links w')
      = (length (tbl_google_account_links w)
         + match lookup_link w (nl_googleAgentUserId n) with
           | Some _ => 0
           | None => 1
           end)%nat.
Proof.
  intros Hdb Hcase. rewrite (createOrUpdate_run E n w Hdb).
  destruct (lookup_link w (nl_googleAgentUserId n)) as [existing|] eqn:Hlook.
  - destruct (relinked_found (nl_googleAgentUserId n) (Date_now E (calls w)) n
                (tbl_google_account_links w)
                (lookup_link_taken w _ _ Hlook)) as [l0 Hl0].
    eexists _, _, _. split; [reflexivity|]. split; [reflexivity|].
    split; [exact Hl0|]. repeat (split; [reflexivity|]).
    cbn [tbl_google_account_links]. unfold update_links.
    rewrite length_map. lia.
  - destruct Hcase as [[? Habs] | Hfree]; [discriminate|]. rewrite Hfree.
    eexists _, _, _. split; [reflexivity|]. split; [reflexivity|].
    split.
    { unfold lookup_link. cbn [tbl_google_account_links].
      rewrite find_app_last. unfold agent_taken in Hfree.
      rewrite (existsb_false_find _ (agent_active (nl_googleAgentUserId n)) _ Hfree).
      - unfold agent_active. simpl. by rewrite String.eqb_refl.
      - intros x Hx. unfold agent_active in Hx.
        by apply andb_true_iff in Hx as [? _]. }
    repeat (split; [reflexivity|]).
    cbn [tbl_google_account_links]. rewrite length_app. simpl. lia.
Qed.

Lemma link_create_or_update_witness :
  ∃ res w' l,
    GoogleAccountLinkModel_createOrUpdate calm relink_alice home = (Ok res, w')
    ∧ tbl_devices w' = tbl_devices home
    ∧ lookup_link w' (nl_googleAgentUserId relink_alice) = Some l
    ∧ l_user_id l = nl_userId relink_alice
    ∧ l_access_token l = nl_accessToken relink_alice
    ∧ l_refresh_token l = nl_refreshToken relink_alice
    ∧ l_token_expires_at l = nl_tokenExpiresAt relink_alice
    ∧ l_last_sync_at l = Some (Date_now calm (calls home))
    ∧ length (tbl_google_account_links w')
      = (length (tbl_google_account_links home)
         + match lookup_link home (nl_googleAgentUserId relink_alice) with
           | Some _ => 0
           | None => 1
           end)%nat.
Proof.
  apply (link_create_or_update calm relink_alice home).
  - intros n. reflexivity.
  - left. by eexists.
Defined.

(** A subject never seen before gets a new row. *)
Example link_carol_appended :
  tbl_google_account_links
    (snd (GoogleAccountLinkModel_createOrUpdate calm link_carol home))
  = [link_row 1 1 "agent_1" 1; link_row 2 2 "agent_2" 0;
     new_link_row 3 1000000 link_carol].
Proof. reflexivity. Qed.

Lemma deactivated_taken (agent : string) (ls : list LinkRow) :
  existsb (fun l => String.eqb (l_google_agent_user_id l) agent)
    (update_links agent deactivate ls)
  = existsb (fun l => String.eqb (l_google_agent_user_id l) agent) ls.
Proof.
  induction ls as [|l ls IH]; simpl; [done|].
  destruct (String.eqb (l_google_agent_user_id l) agent) eqn:Hl; simpl;
    by rewrite Hl, IH.
Qed.

(** X24.  A subject that has disconnected cannot be linked again: the
    lookup in [createOrUpdate] sees only active rows, so after DISCONNECT
    (registry responding) it takes the INSERT branch, where the subject's
    inactive row violates the UNIQUE constraint; the call raises, the
    tables stay as the disconnect left them and the subject still has no
    active link. *)
Theorem relink_after_disconnect_fails (E : Env) (req : Request) (n : NewLink)
    (w : World) :
  db_ok E ->
  extractAgentUserId E req = Some (nl_googleAgentUserId n) ->
  agent_taken w (nl_googleAgentUserId n) = true ->
  ∃ e w2,
    GoogleAccountLinkModel_createOrUpdate E n (snd (handleDisconnect E req w))
    = (Throw e, w2)
    ∧ message e
      = "UNIQUE constraint failed: google_account_links.google_agent_user_id"
    ∧ same_tables (snd (handleDisconnect E req w)) w2
    ∧ lookup_link w2 (nl_googleAgentUserId n) = None.
Proof.
  intros Hdb Hagent Htaken.
  destruct (handleDisconnect_run E req w) as (_ & _ & Hok).
  specialize (Hok Hdb _ Hagent).
  set (w1 := snd (handleDisconnect E req w)) in *.
  assert (Hnone : lookup_link w1 (nl_googleAgentUserId n) = None).
  { unfold lookup_link. rewrite Hok. apply update_links_no_active. }
  assert (Htaken1 : agent_taken w1 (nl_googleAgentUserId n) = true).
  { unfold agent_taken in *. by rewrite Hok, deactivated_taken. }
  rewrite (createOrUpdate_run E n w1 Hdb), Hnone, Htaken1.
  eexists _, _. split; [reflexivity|]. split; [reflexivity|].
  split; [by split|]. exact Hnone.
Qed.

Lemma relink_after_disconnect_fails_witness :
  ∃ e w2,
    GoogleAccountLinkModel_createOrUpdate calm relink_alice
      (snd (handleDisconnect calm (envelope alice INTENT_DISCONNECT no_payload)
              home))
    = (Throw e, w2)
    ∧ message e
      = "UNIQUE constraint failed: google_account_links.google_agent_user_id"
    ∧ same_tables
        (snd (handleDisconnect calm
                (envelope alice INTENT_DISCONNECT no_payload) home)) w2
    ∧ lookup_link w2 (nl_googleAgentUserId relink_alice) = None.
Proof.
  apply (relink_after_disconnect_fails calm _ relink_alice home).
  - intros n. reflexivity.
  - reflexivity.
  - reflexivity.
Defined.

(** ** The device list of the REST API *)

Lemma insert_row_desc_Permutation (r : DeviceRow) (l : list DeviceRow) :
  Permutation (insert_row_desc r l) (r :: l).
Proof.
  induction l as [|x t IH]; simpl; [done|].
  destruct (r_provisioned_at x <=? r_provisioned_at r); [done|].
  rewrite IH. apply perm_swap.
Qed.

Lemma order_desc_Permutation (l : list DeviceRow) :
  Permutation (order_by_provisioned_at_desc l) l.
Proof.
  induction l as [|x t IH]; simpl; [done|].
  rewrite insert_row_desc_Permutation. by constructor.
Qed.

Lemma insert_row_desc_Sorted (r : DeviceRow) (l : list DeviceRow) :
  Sorted provisioned_ge l -> Sorted provisioned_ge (insert_row_desc r l).
Proof.
  induction 1 as [|x t Ht IH Hx]; simpl; [by repeat constructor|].
  destruct (r_provisioned_at x <=? r_provisioned_at r) eqn:Hle.
  - apply Z.leb_le in Hle. constructor; [by constructor|]. by constructor.
  - apply Z.leb_gt in Hle. constructor; [exact IH|].
    destruct t as [|y t']; simpl.
    + constructor. unfold provisioned_ge. lia.
    + destruct (r_provisioned_at y <=? r_provisioned_at r); constructor.
      * unfold provisioned_ge. lia.
      * by inversion Hx.
Qed.

Lemma order_desc_Sorted (l : list DeviceRow) :
  Sorted provisioned_ge (order_by_provisioned_at_desc l).
Proof.
  induction l as [|x t IH]; simpl; [constructor|].
  by apply insert_row_desc_Sorted.
Qed.

(** X25.  The device list of the REST API ([findByOwner]) and the SYNC
    list ([findAllForSync]) hold the same devices, the owner's active
    ones, each once: the first newest first, the second oldest first. *)
Theorem owner_lists_agree (E : Env) (user : Z) (w : World) :
  db_ok E ->
  ∃ newest oldest,
    fst (DeviceModel_findByOwner E user w) = Ok (map parse_row newest)
    ∧ fst (DeviceModel_findAllForSync E user w) = Ok (map sync_row oldest)
    ∧ Sorted provisioned_ge newest
    ∧ Sorted provisioned_le oldest
    ∧ Permutation newest oldest
    ∧ Permutation oldest (List.filter (owned_active user) (tbl_devices w)).
Proof.
  intros Hdb. eexists _, _.
  split.
  { unfold DeviceModel_findByOwner, bind. rewrite (sqlite_run_ok E _ Hdb).
    reflexivity. }
  split; [by rewrite (findAllForSync_ok E _ _ Hdb)|].
  cbn [tbl_devices bump].
  split; [apply order_desc_Sorted|].
  split; [apply order_by_provisioned_at_Sorted|].
  split.
  - rewrite order_desc_Permutation. symmetry.
    apply order_by_provisioned_at_Permutation.
  - apply order_by_provisioned_at_Permutation.
Qed.

Lemma owner_lists_agree_witness :
  ∃ newest oldest,
    fst (DeviceModel_findByOwner calm 1 home) = Ok (map parse_row newest)
    ∧ fst (DeviceModel_findAllForSync calm 1 home) = Ok (map sync_row oldest)
    ∧ Sorted provisioned_ge newest
    ∧ Sorted provisioned_le oldest
    ∧ Permutation newest oldest
    ∧ Permutation oldest (List.filter (owned_active 1) (tbl_devices home)).
Proof.
  apply (owner_lists_agree calm 1 home). intros n. reflexivity.
Defined.

(** ** QUERY batches *)



(** The registry error costs the light its answer; the fan is answered. *)
Example query_hiccup :
  fst (handleQuery registry_hiccup
         (envelope alice INTENT_QUERY (query_payload ["dev-light"; "dev-fan"]))
         home)
  = Ok (respond 200
          (envelope alice INTENT_QUERY (query_payload ["dev-light"; "dev-fan"]))
          (QueryPayload
             (<["dev-fan" :=
                  QuerySuccess true
                    {| on := true; currentFanSpeedSetting := Some "speed_3" |}]>
                {[ "dev-light" := QueryError "hardError" ]}))).
Proof. vm_compute. reflexivity. Qed.

(** A [null] after the light: the light's answer is lost with the rest. *)
Example query_null_element :
  fst (handleQuery calm (envelope alice INTENT_QUERY null_after_light) home)
  = Ok (respond 500 (envelope alice INTENT_QUERY null_after_light)
          (ErrorPayload "hardError"
             (Some "Cannot read properties of null (reading 'id')"))).
Proof. vm_compute. reflexivity. Qed.

(** ** QUERY for a device of somebody else *)

(** X27.  In a QUERY of a resolved caller with a list of device objects,
    answered by a registry that responds, a requested device K that is
    absent from the registry or owned by another user, and is not named
    '__proto__', gets exactly one entry (the answer is a map keyed by
    identifier), [deviceNotFound]; the map has an entry for every
    requested identifier other than '__proto__' and no other, and each
    entry is the one the device's own registry status calls for. *)
Theorem query_unowned_deviceNotFound (E : Env) (w : World) (req : Request)
    (agent : string) (link : LinkRow) (pl : InputPayload)
    (devs : list ReqDevice) (K : string) :
  db_ok E ->
  resolved E w req agent link pl ->
  pl_devices pl = Some (Some <$> devs) ->
  K ∈ ids_of devs ->
  K ≠ "__proto__" ->
  (lookup_device w K = None ∨
   ∃ r, lookup_device w K = Some r ∧ r_owner_user_id r ≠ l_user_id link) ->
  ∃ st,
    fst (handleQuery E req w) = Ok (respond 200 req (QueryPayload st))
    ∧ st !! K = Some (QueryError "deviceNotFound")
    ∧ dom st = answered_ids devs
    ∧ (∀ k, k ∈ ids_of devs -> k ≠ "__proto__" ->
            ∃ e, st !! k = Some e
                 ∧ match owned_row w link k with
                   | Some r =>
                       ∃ telemetry,
                         e = QuerySuccess (r_is_online r =? 1)
                               (convertToGoogleState (parse_row r) telemetry None)
                         ∧ telemetry_read E (calls w)
                             (r_thingsboard_device_id r) telemetry
                   | None => e = QueryError "deviceNotFound"
                   end).
Proof.
  intros Hdb Hres Hdevs HK Hp Hbad.
  destruct (handleQuery_resolved E link w req agent pl devs Hres (Hdb _) Hdevs)
    as (st & Hrun & Hdom & _ & Hent).
  assert (Hent' : ∀ k, k ∈ ids_of devs -> k ≠ "__proto__" ->
            ∃ e, st !! k = Some e
                 ∧ match owned_row w link k with
                   | Some r =>
                       ∃ telemetry,
                         e = QuerySuccess (r_is_online r =? 1)
                               (convertToGoogleState (parse_row r) telemetry None)
                         ∧ telemetry_read E (calls w)
                             (r_thingsboard_device_id r) telemetry
                   | None => e = QueryError "deviceNotFound"
                   end).
  { intros k Hk Hkp. destruct (Hent k Hk Hkp) as (e & He & Hq).
    exists e. split; [done|]. by apply query_entry_db_ok. }
  exists st. split; [done|]. split; [|by split].
  destruct (Hent' K HK Hp) as (e & He & Hq). rewrite He. f_equal.
  unfold owned_row in Hq.
  destruct Hbad as [Hnone | (r & Hr & Hown)].
  - by rewrite Hnone in Hq.
  - rewrite Hr in Hq. apply Z.eqb_neq in Hown. by rewrite Hown in Hq.
Qed.

(** A batch of three for the first user: the device of the other user is
    answered [deviceNotFound]. *)
Lemma query_unowned_deviceNotFound_witness :
  ∃ st,
    fst (handleQuery calm
           (envelope alice INTENT_QUERY
              (query_payload ["dev-light"; "dev-other"; "dev-fan"])) home)
    = Ok (respond 200
            (envelope alice INTENT_QUERY
               (query_payload ["dev-light"; "dev-other"; "dev-fan"]))
            (QueryPayload st))
    ∧ st !! "dev-other" = Some (QueryError "deviceNotFound")
    ∧ dom st = answered_ids (map mkReqDevice ["dev-light"; "dev-other"; "dev-fan"])
    ∧ (∀ k, k ∈ ids_of (map mkReqDevice ["dev-light"; "dev-other"; "dev-fan"]) ->
            k ≠ "__proto__" ->
            ∃ e, st !! k = Some e
                 ∧ match owned_row home alice_link k with
                   | Some r =>
                       ∃ telemetry,
                         e = QuerySuccess (r_is_online r =? 1)
                               (convertToGoogleState (parse_row r) telemetry None)
                         ∧ telemetry_read calm (calls home)
                             (r_thingsboard_device_id r) telemetry
                   | None => e = QueryError "deviceNotFound"
                   end).
Proof.
  apply (query_unowned_deviceNotFound calm home _ "agent_1" alice_link
           (query_payload ["dev-light"; "dev-other"; "dev-fan"])
           (map mkReqDevice ["dev-light"; "dev-other"; "dev-fan"]) "dev-other").
  - intros n. reflexivity.
  - split; [reflexivity|]. split; [reflexivity|].
    eexists _, _. split; reflexivity.
  - reflexivity.
  - apply list_elem_of_further, list_elem_of_here.
  - discriminate.
  - right. eexists. split; [reflexivity|]. simpl. lia.
Defined.
